(** * Loan operations tools: a shallow embedding and its properties

    The development follows the Python sources
    - [src/config/settings.py]  (catalogues),
    - [src/tools/ops_tools.py]  (the six stage tools),
    - [src/models/loan_file.py] (the loan record and its JSON shape),
    - [src/crew.py]             (the loan context and the communication needs),
    - [src/agents/ops_agents.py] (the choice of the language model).

    Every tool parses its JSON arguments with [json.loads] and returns
    [json.dumps] of a result dictionary.  The embedding starts after the
    parse and stops before the dump: a tool takes the parsed dictionaries
    and returns the result dictionary as a record, or the Python exception
    the body raises.  Module [Tools] takes the parsed argument whatever
    JSON value it is, a dictionary or not. *)

From Stdlib Require Import ZArith Zpower List String Ascii Bool Lia DecimalString.
From Stdlib Require Import SpecFloat.
Import ListNotations.
Set Warnings "-register-all".
Local Open Scope string_scope.
Local Open Scope list_scope.

(** ** Python values and exceptions *)

Module Py.

(** IEEE binary64, the representation of a Python [float]. *)
Definition float64 := spec_float.

(** What [json.loads] builds: [None], [bool], [int], [float], [str],
    [list] and [dict] with string keys.  A dictionary is kept as the list
    of its items in insertion order; the parser leaves each key once. *)
Inductive json : Type :=
| JNull
| JBool (b : bool)
| JInt (n : Z)
| JFloat (x : float64)
| JStr (s : string)
| JArr (l : list json)
| JObj (o : list (string * json)).

Definition dict := list (string * json).

(** The exceptions the modelled code can raise. *)
Inductive exn := KeyError | ValueError | TypeError | AttributeError | OverflowError.

Inductive result (A : Type) : Type :=
| Ok (a : A)
| Raise (e : exn).
Arguments Ok {A} a.
Arguments Raise {A} e.

Definition bind {A B} (m : result A) (k : A -> result B) : result B :=
  match m with
  | Ok a => k a
  | Raise e => Raise e
  end.

Definition is_ok {A} (m : result A) : bool :=
  match m with Ok _ => true | Raise _ => false end.

Definition map_result {A B} (f : A -> B) (m : result A) : result B :=
  match m with
  | Ok a => Ok (f a)
  | Raise e => Raise e
  end.

(** [d.get(k)] seen as an option, and the membership test [k in d]. *)
Fixpoint lookup {A} (d : list (string * A)) (k : string) : option A :=
  match d with
  | [] => None
  | (k', v) :: d' => if String.eqb k' k then Some v else lookup d' k
  end.

Definition mem {A} (d : list (string * A)) (k : string) : bool :=
  match lookup d k with Some _ => true | None => false end.

(** [d.get(k, default)] and [d.get(k)] (default [None]). *)
Definition get_default (d : dict) (k : string) (default : json) : json :=
  match lookup d k with Some v => v | None => default end.

Definition get (d : dict) (k : string) : json := get_default d k JNull.

(** [v.get(k)] on an arbitrary value: only a dictionary has the method. *)
Definition get_method (v : json) (k : string) : result json :=
  match v with
  | JObj o => Ok (get o k)
  | _ => Raise AttributeError
  end.

(** [d[k] = v]: an existing key keeps its position. *)
Fixpoint set {A} (d : list (string * A)) (k : string) (v : A) : list (string * A) :=
  match d with
  | [] => [(k, v)]
  | (k', v') :: d' => if String.eqb k' k then (k', v) :: d' else (k', v') :: set d' k v
  end.

(** [v == s] for a string literal [s]. *)
Definition eq_str (v : json) (s : string) : bool :=
  match v with
  | JStr s' => String.eqb s' s
  | _ => false
  end.

Definition is_zero (x : float64) : bool :=
  match x with S754_zero _ => true | _ => false end.

(** Truth value of an object, as [if v], [not v], [all] and [or] use it. *)
Definition truthy (v : json) : bool :=
  match v with
  | JNull => false
  | JBool b => b
  | JInt n => negb (Z.eqb n 0)
  | JFloat x => negb (is_zero x)
  | JStr s => negb (String.eqb s "")
  | JArr l => match l with [] => false | _ => true end
  | JObj o => match o with [] => false | _ => true end
  end.

(** [a or b] returns the first operand when it is true, else the second. *)
Definition or_ (a b : json) : json := if truthy a then a else b.

(** The characters of a string kept as its UTF-8 bytes: a byte
    [10xxxxxx] continues the character before it. *)
Definition continues (c : ascii) : bool :=
  let n := nat_of_ascii c in Nat.leb 128 n && Nat.leb n 191.

Fixpoint chars_from (current : string) (l : list ascii) : list string :=
  match l with
  | [] => [current]
  | c :: rest =>
      if continues c then chars_from (current ++ String c EmptyString) rest
      else current :: chars_from (String c EmptyString) rest
  end.

Definition chars (s : string) : list string :=
  match list_ascii_of_string s with
  | [] => []
  | c :: rest => chars_from (String c EmptyString) rest
  end.

(** The values a [for] loop draws from [v]: the elements of a list, the
    keys of a dictionary, the characters of a string. *)
Definition iterate (v : json) : result (list json) :=
  match v with
  | JArr l => Ok l
  | JObj o => Ok (map (fun kv => JStr (fst kv)) o)
  | JStr s => Ok (map JStr (chars s))
  | _ => Raise TypeError
  end.

(** [s in l] for a list of string literals. *)
Definition in_strs (s : string) (l : list string) : bool :=
  existsb (String.eqb s) l.

End Py.

Import Py.

Declare Scope py_scope.
Delimit Scope py_scope with py.
Notation "x <- m ;; k" := (bind m (fun x => k))
  (at level 61, m at next level, right associativity) : py_scope.
Local Open Scope py_scope.

(** ** [src/config/settings.py] *)

Module Settings.

Definition REQUIRED_DOCUMENTS : list (string * list string) :=
  [ ("mortgage",
     [ "signed_application"; "proof_of_income"; "bank_statements"; "tax_returns";
       "property_appraisal"; "title_insurance"; "homeowners_insurance";
       "flood_certification" ]);
    ("personal",
     [ "signed_application"; "proof_of_income"; "bank_statements"; "proof_of_identity" ]);
    ("auto",
     [ "signed_application"; "proof_of_income"; "proof_of_insurance"; "vehicle_title";
       "purchase_agreement" ]);
    ("business",
     [ "signed_application"; "business_tax_returns"; "financial_statements";
       "business_license"; "personal_guarantee"; "collateral_documentation" ]) ].

Definition COMPLIANCE_CHECKS : list string :=
  [ "anti_money_laundering"; "know_your_customer"; "truth_in_lending";
    "equal_credit_opportunity"; "fair_lending"; "flood_insurance";
    "privacy_disclosure" ].

Definition SLA_THRESHOLDS : list (string * Z) :=
  [ ("document_follow_up", 24%Z); ("verification_completion", 48%Z);
    ("compliance_review", 24%Z); ("funding_preparation", 24%Z);
    ("total_to_funding", 120%Z) ].

(** [table[k]] on a literal table that holds [k]. *)
Definition index {A} (table : list (string * A)) (k : string) (absent : A) : A :=
  match lookup table k with Some v => v | None => absent end.

End Settings.

(** ** [DocumentCheckerTool] *)

Module DocumentChecker.
Import Settings.

Record audit := mk_audit {
  missing : list string;
  expired : list string;
  pending_verification : list string }.

Record report := mk_report {
  loan_id : string;
  loan_type : string;
  total_required : nat;
  missing_documents : list string;
  expired_documents : list string;
  pending_verification_documents : list string;
  collection_complete : bool;
  sla_hours_remaining : Z;
  action_required : bool }.

(** [REQUIRED_DOCUMENTS.get(loan_type, REQUIRED_DOCUMENTS["personal"])] *)
Definition required (loan_type : string) : list string :=
  match lookup REQUIRED_DOCUMENTS loan_type with
  | Some docs => docs
  | None => index REQUIRED_DOCUMENTS "personal" []
  end.

(** One turn of [for doc in required]. *)
Definition step (received : dict) (acc : audit) (doc : string) : result audit :=
  match lookup received doc with
  | None => Ok (mk_audit (missing acc ++ [doc]) (expired acc) (pending_verification acc))
  | Some entry =>
      status <- get_method entry "status" ;;
      if eq_str status "pending" then
        Ok (mk_audit (missing acc ++ [doc]) (expired acc) (pending_verification acc))
      else if eq_str status "expired" then
        Ok (mk_audit (missing acc) (expired acc ++ [doc]) (pending_verification acc))
      else if eq_str status "received" then
        Ok (mk_audit (missing acc) (expired acc) (pending_verification acc ++ [doc]))
      else Ok acc
  end.

Fixpoint loop (received : dict) (docs : list string) (acc : audit) : result audit :=
  match docs with
  | [] => Ok acc
  | doc :: rest => acc' <- step received acc doc ;; loop received rest acc'
  end.

Definition is_empty {A} (l : list A) : bool := Nat.eqb (List.length l) 0.

Definition _run (loan_id loan_type : string) (received : dict) : result report :=
  let required := required loan_type in
  acc <- loop received required (mk_audit [] [] []) ;;
  Ok {| loan_id := loan_id;
        loan_type := loan_type;
        total_required := List.length required;
        missing_documents := missing acc;
        expired_documents := expired acc;
        pending_verification_documents := pending_verification acc;
        collection_complete := is_empty (missing acc) && is_empty (expired acc);
        sla_hours_remaining := index SLA_THRESHOLDS "document_follow_up" 0%Z;
        action_required := negb (is_empty (missing acc)) || negb (is_empty (expired acc)) |}.

Inductive bucket := InMissing | InExpired | InPending | InNone.

(** The branch of the loop body that a document takes. *)
Definition classify (received : dict) (doc : string) : result bucket :=
  match lookup received doc with
  | None => Ok InMissing
  | Some entry =>
      status <- get_method entry "status" ;;
      Ok (if eq_str status "pending" then InMissing
          else if eq_str status "expired" then InExpired
          else if eq_str status "received" then InPending
          else InNone)
  end.

Definition bucket_eqb (a b : bucket) : bool :=
  match a, b with
  | InMissing, InMissing | InExpired, InExpired
  | InPending, InPending | InNone, InNone => true
  | _, _ => false
  end.

Definition in_bucket (received : dict) (b : bucket) (doc : string) : bool :=
  match classify received doc with
  | Ok b' => bucket_eqb b' b
  | Raise _ => false
  end.

(** The status tags of [DocumentStatus] in [src/models/loan_file.py]. *)
Definition status_tags : list string :=
  [ "pending"; "received"; "verified"; "rejected"; "expired" ].

(** A document map as the loan record holds it: every entry is a
    dictionary whose ["status"] is one of the five tags. *)
Definition entry_ok (kv : string * json) : bool :=
  match snd kv with
  | JObj o => match get o "status" with
              | JStr s => in_strs s status_tags
              | _ => false
              end
  | _ => false
  end.

Definition document_map_ok (received : dict) : bool := forallb entry_ok received.

(** [doc] has an entry in the map, a dictionary whose status is [tag]. *)
Definition has_status (received : dict) (doc tag : string) : Prop :=
  exists o, lookup received doc = Some (JObj o) /\ get o "status" = JStr tag.

(** [doc] is in none of the three lists of the report. *)
Definition unlisted (r : report) (doc : string) : Prop :=
  ~ In doc (missing_documents r) /\
  ~ In doc (expired_documents r) /\
  ~ In doc (pending_verification_documents r).

Definition disjoint (l1 l2 : list string) : Prop :=
  forall doc, ~ (In doc l1 /\ In doc l2).

End DocumentChecker.

(** ** [datetime]: naive date-times, differences and formats *)

Module Datetime.
Local Open Scope Z_scope.

Record datetime := mk_datetime {
  year : Z; month : Z; day : Z;
  hour : Z; minute : Z; second : Z; microsecond : Z }.

Record timedelta := mk_timedelta { days : Z; seconds : Z; microseconds : Z }.

Definition MAXYEAR := 9999.
Definition MAXORDINAL := 3652059.

Definition is_leap (y : Z) : bool :=
  (y mod 4 =? 0) && (negb (y mod 100 =? 0) || (y mod 400 =? 0)).

Definition DAYS_IN_MONTH : list Z := [-1; 31; 28; 31; 30; 31; 30; 31; 31; 30; 31; 30; 31].
Definition DAYS_BEFORE_MONTH : list Z :=
  [-1; 0; 31; 59; 90; 120; 151; 181; 212; 243; 273; 304; 334].

Definition days_before_year (y : Z) : Z :=
  let y := y - 1 in y * 365 + y / 4 - y / 100 + y / 400.

Definition days_in_month (y m : Z) : Z :=
  if (m =? 2) && is_leap y then 29 else nth (Z.to_nat m) DAYS_IN_MONTH 0.

Definition days_before_month (y m : Z) : Z :=
  nth (Z.to_nat m) DAYS_BEFORE_MONTH 0 + (if (2 <? m) && is_leap y then 1 else 0).

Definition ymd2ord (y m d : Z) : Z :=
  days_before_year y + days_before_month y m + d.

Definition ord2ymd (n : Z) : Z * Z * Z :=
  let n := n - 1 in
  let n400 := n / 146097 in let n := n mod 146097 in
  let y := n400 * 400 + 1 in
  let n100 := n / 36524 in let n := n mod 36524 in
  let n4 := n / 1461 in let n := n mod 1461 in
  let n1 := n / 365 in let n := n mod 365 in
  let y := y + n100 * 100 + n4 * 4 + n1 in
  if (n1 =? 4) || (n100 =? 4) then (y - 1, 12, 31)
  else
    let leapyear := (n1 =? 3) && (negb (n4 =? 24) || (n100 =? 3)) in
    let m := Z.shiftr (n + 50) 5 in
    let preceding :=
      nth (Z.to_nat m) DAYS_BEFORE_MONTH 0 + (if (2 <? m) && leapyear then 1 else 0) in
    if n <? preceding then
      let m := m - 1 in
      let preceding :=
        preceding - (nth (Z.to_nat m) DAYS_IN_MONTH 0
                     + (if (m =? 2) && leapyear then 1 else 0)) in
      (y, m, n - preceding + 1)
    else (y, m, n - preceding + 1).

(** The constructor [datetime(year, month, day, ...)] with its range checks. *)
Definition new (y m d hh mm ss us : Z) : result datetime :=
  if (1 <=? y) && (y <=? MAXYEAR) && (1 <=? m) && (m <=? 12)
     && (1 <=? d) && (d <=? days_in_month y m)
     && (0 <=? hh) && (hh <=? 23) && (0 <=? mm) && (mm <=? 59)
     && (0 <=? ss) && (ss <=? 59) && (0 <=? us) && (us <=? 999999)
  then Ok (mk_datetime y m d hh mm ss us)
  else Raise ValueError.

Definition toordinal (t : datetime) : Z := ymd2ord (year t) (month t) (day t).

Definition seconds_of_day (t : datetime) : Z :=
  second t + minute t * 60 + hour t * 3600.

(** [timedelta(days, seconds, microseconds)] carries into the larger unit. *)
Definition delta (d s us : Z) : timedelta :=
  let s := s + us / 1000000 in
  let us := us mod 1000000 in
  let d := d + s / 86400 in
  let s := s mod 86400 in
  mk_timedelta d s us.

(** [a - b] on two date-times. *)
Definition sub (a b : datetime) : timedelta :=
  delta (toordinal a - toordinal b)
        (seconds_of_day a - seconds_of_day b)
        (microsecond a - microsecond b).

(** [t + timedelta(days=n)] *)
Definition add_days (t : datetime) (n : Z) : result datetime :=
  let d := delta (toordinal t + n) (seconds_of_day t) (microsecond t) in
  if (0 <? days d) && (days d <=? MAXORDINAL) then
    let '(y, m, dd) := ord2ymd (days d) in
    Ok (mk_datetime y m dd (seconds d / 3600) ((seconds d mod 3600) / 60)
          (seconds d mod 60) (microseconds d))
  else Raise OverflowError.

Definition digit (c : ascii) : option Z :=
  let n := Z.of_nat (nat_of_ascii c) in
  if (48 <=? n) && (n <=? 57) then Some (n - 48) else None.

Definition digit_in (c : ascii) (lo hi : Z) : option Z :=
  match digit c with
  | Some n => if (lo <=? n) && (n <=? hi) then Some n else None
  | None => None
  end.

(** The directive [%m] followed by the literal [-]:
    [(1[0-2]|0[1-9]|[1-9])-]. *)
Definition parse_month (s : string) : option (Z * string) :=
  match s with
  | String c1 (String c2 (String "-" rest)) =>
      match digit_in c1 1 1, digit_in c2 0 2, digit_in c1 0 0, digit_in c2 1 9 with
      | Some a, Some b, _, _ => Some (10 * a + b, rest)
      | _, _, Some a, Some b => Some (10 * a + b, rest)
      | _, _, _, _ => None
      end
  | String c1 (String "-" rest) =>
      match digit_in c1 1 9 with Some a => Some (a, rest) | None => None end
  | _ => None
  end.

(** The directive [%d]: [3[0-1]|[1-2]\d|0[1-9]|[1-9]| [1-9]], the first
    alternative that matches. *)
Definition two_digit_day (c1 c2 : ascii) : option Z :=
  match digit_in c1 3 3, digit_in c2 0 1 with
  | Some a, Some b => Some (10 * a + b)
  | _, _ =>
    match digit_in c1 1 2, digit c2 with
    | Some a, Some b => Some (10 * a + b)
    | _, _ =>
      match digit_in c1 0 0, digit_in c2 1 9 with
      | Some a, Some b => Some (10 * a + b)
      | _, _ => None
      end
    end
  end.

Definition parse_day (s : string) : option (Z * string) :=
  match s with
  | EmptyString => None
  | String c1 rest =>
      let one :=
        match digit_in c1 1 9 with
        | Some a => Some (a, rest)
        | None =>
            match rest with
            | String c2 rest' =>
                if Ascii.eqb c1 " " then
                  match digit_in c2 1 9 with
                  | Some b => Some (b, rest')
                  | None => None
                  end
                else None
            | EmptyString => None
            end
        end in
      match rest with
      | String c2 rest' =>
          match two_digit_day c1 c2 with
          | Some d => Some (d, rest')
          | None => one
          end
      | EmptyString => one
      end
  end.

(** [datetime.strptime(s, "%Y-%m-%d")] on a string of ASCII characters:
    no match, text left over and a date that does not exist all raise
    [ValueError]. *)
Definition strptime_ymd (s : string) : result datetime :=
  match s with
  | String y1 (String y2 (String y3 (String y4 (String "-" rest)))) =>
      match digit y1, digit y2, digit y3, digit y4 with
      | Some a, Some b, Some c, Some d =>
          match parse_month rest with
          | Some (m, rest') =>
              match parse_day rest' with
              | Some (dd, EmptyString) =>
                  new (1000 * a + 100 * b + 10 * c + d) m dd 0 0 0 0
              | _ => Raise ValueError
              end
          | None => Raise ValueError
          end
      | _, _, _, _ => Raise ValueError
      end
  | _ => Raise ValueError
  end.

(** [strptime] called on a value: only a string is accepted. *)
Definition strptime (v : json) : result datetime :=
  match v with
  | JStr s => strptime_ymd s
  | _ => Raise TypeError
  end.

(** Decimal digits of a natural number, padded with zeros to [width]. *)
Fixpoint zeros (n : nat) : string :=
  match n with O => EmptyString | S n' => String "0" (zeros n') end.

Definition pad (width : nat) (n : Z) : string :=
  let s := NilZero.string_of_uint (N.to_uint (Z.to_N n)) in
  (zeros (width - String.length s) ++ s)%string.

Definition strftime_ymd (t : datetime) : string :=
  (pad 4 (year t) ++ "-" ++ pad 2 (month t) ++ "-" ++ pad 2 (day t))%string.

Definition isoformat (t : datetime) : string :=
  (strftime_ymd t ++ "T" ++ pad 2 (hour t) ++ ":" ++ pad 2 (minute t) ++ ":"
   ++ pad 2 (second t)
   ++ (if (microsecond t =? 0)%Z then "" else "." ++ pad 6 (microsecond t)))%string.

(** The readings of the system clock: the [n]-th call of [datetime.now()]
    made by a run returns [clock n]. *)
Definition clock := nat -> datetime.

(** A reading whose time of day lies within its day. *)
Definition time_ok (t : datetime) : bool :=
  (0 <=? hour t) && (hour t <=? 23) && (0 <=? minute t) && (minute t <=? 59)
  && (0 <=? second t) && (second t <=? 59)
  && (0 <=? microsecond t) && (microsecond t <=? 999999).

End Datetime.

(** ** [DocumentVerifierTool] *)

Module DocumentVerifier.
Import Datetime.

Record verification := mk_verification {
  document_name : string;
  verification_passed : bool;
  verification_date : string;
  checks_performed : dict;
  failed_checks : list string;
  recommendation : string;
  notes : string }.

(** [all(checks.values())] and [[k for k, v in checks.items() if not v]] *)
Definition all_values (checks : dict) : bool := forallb (fun kv => truthy (snd kv)) checks.

Definition falsy_keys (checks : dict) : list string :=
  map fst (filter (fun kv => negb (truthy (snd kv))) checks).

Definition initial_checks (data : dict) : dict :=
  [ ("document_present", JBool true);
    ("legible", JBool true);
    ("complete", get_default data "pages_complete" (JBool true));
    ("not_expired", JBool true);
    ("signatures_valid", get_default data "signed" (JBool true));
    ("dates_consistent", JBool true) ].

Definition date_sensitive (document_name : string) : bool :=
  in_strs document_name ["proof_of_income"; "bank_statements"].

(** The expiration block; the second component counts the clock readings. *)
Definition check_expiration (now : clock) (document_name : string) (data checks : dict)
  : result (dict * nat) :=
  if date_sensitive document_name then
    let doc_date := get data "document_date" in
    if truthy doc_date then
      doc_datetime <- strptime doc_date ;;
      if (90 <? days (sub (now 0%nat) doc_datetime))%Z
      then Ok (set checks "not_expired" (JBool false), 1%nat)
      else Ok (checks, 1%nat)
    else Ok (checks, 0%nat)
  else Ok (checks, 0%nat).

Definition _run (now : clock) (document_name : string) (data : dict)
  : result verification :=
  let checks := initial_checks data in
  cn <- check_expiration now document_name data checks ;;
  let '(checks, ticks) := cn in
  let all_passed := all_values checks in
  let failed_checks := falsy_keys checks in
  Ok {| document_name := document_name;
        verification_passed := all_passed;
        verification_date := isoformat (now ticks);
        checks_performed := checks;
        failed_checks := failed_checks;
        recommendation := if all_passed then "VERIFIED" else "REQUIRES_ATTENTION";
        notes := "Document " ++
                 (if all_passed then "verified successfully"
                  else "failed verification: " ++ String.concat ", " failed_checks) |}.

(** The result without the time stamp of the run. *)
Definition timeless (r : verification) : verification :=
  mk_verification (document_name r) (verification_passed r) ""
    (checks_performed r) (failed_checks r) (recommendation r) (notes r).

End DocumentVerifier.

(** ** [ComplianceValidatorTool] *)

Module ComplianceValidator.
Import Settings Datetime.

(** One entry of [results]; [findings] is [None] or a string. *)
Record check_result := mk_check_result {
  check_name : string;
  passed : json;
  findings : option string;
  checked_date : string }.

Record compliance := mk_compliance {
  loan_id : string;
  compliance_passed : bool;
  total_checks : nat;
  passed_checks : Z;
  failed_checks : list string;
  results : list (string * check_result);
  recommendation : string }.

(** [findings = None if passed else text] *)
Definition unless (passed : json) (text : string) : option string :=
  if truthy passed then None else Some text.

(** The body of the loop up to the assignment of [passed] and [findings]. *)
Definition evaluate (data : dict) (check : string) : json * option string :=
  if String.eqb check "anti_money_laundering" then
    let passed := get_default data "aml_cleared" (JBool true) in
    (passed, unless passed "AML flag detected - requires review")
  else if String.eqb check "know_your_customer" then
    let passed := get_default data "kyc_verified" (JBool true) in
    (passed, unless passed "KYC verification incomplete")
  else if String.eqb check "truth_in_lending" then
    let passed := get_default data "tila_disclosed" (JBool true) in
    (passed, unless passed "TILA disclosure missing")
  else if String.eqb check "equal_credit_opportunity" then (JBool true, None)
  else if String.eqb check "fair_lending" then (JBool true, None)
  else if String.eqb check "flood_insurance" then
    if eq_str (get data "loan_type") "mortgage" then
      let passed := or_ (get_default data "flood_cert_clear" (JBool true))
                        (get_default data "flood_insurance_obtained" (JBool false)) in
      (passed, unless passed "Flood insurance required but not obtained")
    else (JBool true, Some "N/A - not a mortgage")
  else (JBool true, None).

(** [for check in COMPLIANCE_CHECKS]; every turn reads the clock once. *)
Fixpoint loop (now : clock) (data : dict) (checks : list string) (tick : nat)
  (results : list (string * check_result)) : list (string * check_result) :=
  match checks with
  | [] => results
  | check :: rest =>
      let '(passed, findings) := evaluate data check in
      loop now data rest (S tick)
        (set results check
           (mk_check_result check passed findings (isoformat (now tick))))
  end.

Definition _run (now : clock) (loan_id : string) (data : dict) : compliance :=
  let results := loop now data COMPLIANCE_CHECKS 0 [] in
  let all_passed := forallb (fun kv => truthy (passed (snd kv))) results in
  let failed := map fst (filter (fun kv => negb (truthy (passed (snd kv)))) results) in
  {| loan_id := loan_id;
     compliance_passed := all_passed;
     total_checks := List.length COMPLIANCE_CHECKS;
     passed_checks := (Z.of_nat (List.length COMPLIANCE_CHECKS)
                       - Z.of_nat (List.length failed))%Z;
     failed_checks := failed;
     results := results;
     recommendation := if all_passed then "CLEARED" else "REQUIRES_REMEDIATION" |}.

(** The result without the time stamps of the checks. *)
Definition timeless (r : compliance) : compliance :=
  mk_compliance (loan_id r) (compliance_passed r) (total_checks r)
    (passed_checks r) (failed_checks r)
    (map (fun kv =>
            (fst kv, mk_check_result (check_name (snd kv)) (passed (snd kv))
                       (findings (snd kv)) ""))
         (results r))
    (recommendation r).

(** The flag [k] of the loan data is set to the boolean [b]. *)
Definition flag (data : dict) (k : string) (b : bool) : Prop :=
  lookup data k = Some (JBool b).

End ComplianceValidator.

(** ** [ExceptionAnalyzerTool] *)

Module ExceptionAnalyzer.

Record analysis := mk_analysis {
  exception_type : string;
  issue : json;
  severity : string;
  impact_assessment : string;
  proposed_resolutions : list string;
  recommended_action : string;
  escalation_required : bool;
  sla_impact : bool }.

Definition resolutions : list (string * list (string * list string)) :=
  [ ("document",
     [ ("missing", [ "Request document from borrower"; "Set follow-up reminder";
                     "Escalate if SLA breached" ]);
       ("expired", [ "Request updated document"; "Verify if recent version exists" ]);
       ("illegible", [ "Request clearer copy"; "Accept if key information readable" ]);
       ("incomplete", [ "Request missing pages"; "Verify completeness requirements" ]) ]);
    ("compliance",
     [ ("failed_check", [ "Review findings"; "Request remediation";
                          "Escalate to compliance officer" ]);
       ("pending_review", [ "Expedite review"; "Provide additional documentation" ]);
       ("requires_override", [ "Document justification"; "Obtain management approval" ]) ]);
    ("verification",
     [ ("mismatch", [ "Investigate discrepancy"; "Request clarification from borrower" ]);
       ("unable_to_verify", [ "Try alternate verification method";
                              "Request additional proof" ]);
       ("fraud_flag", [ "Escalate immediately"; "Suspend processing";
                        "Notify fraud team" ]) ]);
    ("funding",
     [ ("insufficient_funds", [ "Verify funding source"; "Delay funding date" ]);
       ("wire_error", [ "Verify wire instructions"; "Resubmit wire request" ]);
       ("hold_required", [ "Identify hold reason"; "Resolve blocking issues" ]) ]) ].

(** [table.get(key, default)] for a key that is any value: a list or a
    dictionary cannot be hashed, another value that is not a string
    equals no key of the table. *)
Definition get_by_value {A} (table : list (string * A)) (key : json) (default : A)
  : result A :=
  match key with
  | JArr _ | JObj _ => Raise TypeError
  | JStr s => Ok (match lookup table s with Some v => v | None => default end)
  | _ => Ok default
  end.

Definition _run (exception_type : string) (details : dict) : result analysis :=
  let issue := get_default details "issue" (JStr "unknown") in
  let by_type :=
    match lookup resolutions exception_type with Some t => t | None => [] end in
  available_resolutions <- get_by_value by_type issue ["Escalate to supervisor"] ;;
  let severity :=
    if String.eqb exception_type "verification" && eq_str issue "fraud_flag"
    then "critical"
    else if String.eqb exception_type "compliance" && eq_str issue "failed_check"
    then "high"
    else if String.eqb exception_type "document" && eq_str issue "missing"
    then "low"
    else "medium" in
  Ok {| exception_type := exception_type;
        issue := issue;
        severity := severity;
        impact_assessment :=
          if in_strs severity ["high"; "critical"] then "Blocks funding"
          else "May delay funding";
        proposed_resolutions := available_resolutions;
        recommended_action :=
          match available_resolutions with
          | first :: _ => first
          | [] => "Escalate"
          end;
        escalation_required := in_strs severity ["high"; "critical"];
        sla_impact := negb (String.eqb severity "low") |}.

(** The issue tags that [resolutions] lists for a category. *)
Definition known_issue (exception_type tag : string) : bool :=
  match lookup resolutions exception_type with
  | Some table => mem table tag
  | None => false
  end.

End ExceptionAnalyzer.

(** ** Python [float] and mixed arithmetic *)

Module Float.
Local Open Scope Z_scope.

Definition prec := 53.
Definition emax := 1024.
Definition emin := 3 - emax - prec.

Definition add : float64 -> float64 -> float64 := SFadd prec emax.
Definition sub : float64 -> float64 -> float64 := SFsub prec emax.
Definition mul : float64 -> float64 -> float64 := SFmul prec emax.
Definition div : float64 -> float64 -> float64 := SFdiv prec emax.
Definition leb : float64 -> float64 -> bool := SFleb.
Definition ltb : float64 -> float64 -> bool := SFltb.

(** [x * 2^k] for [k >= 0], [x] otherwise. *)
Definition shl (x k : Z) : Z := x * 2 ^ Z.max 0 k.

(** The quotient of [a] by [b > 0] rounded to the nearest integer, a tie
    to the even one. *)
Definition div_nearest_even (a b : Z) : Z :=
  let q := a / b in
  match 2 * (a mod b) ?= b with
  | Lt => q
  | Gt => q + 1
  | Eq => if Z.even q then q else q + 1
  end.

(** Rounding [n/d] units of [2^emin] ([n, d > 0]) to [prec] bits: the
    number of bits that [n/d] has beyond [prec], and the mantissa that is
    left once they are rounded off, a tie going to the even mantissa. *)
Definition shift_of (n d : Z) : Z := Z.max 0 (Z.log2 (n / d) + 1 - prec).

Definition mantissa_of (n d : Z) : Z := div_nearest_even n (d * 2 ^ shift_of n d).

(** A mantissa rounded up to [2^prec] takes one more bit. *)
Definition carry (m shift : Z) : Z * Z :=
  if m =? 2 ^ prec then (2 ^ (prec - 1), shift + 1) else (m, shift).

Definition pack (s : bool) (ms : Z * Z) : float64 :=
  match fst ms with
  | Zpos p =>
      if snd ms + emin <=? emax - prec then S754_finite s p (snd ms + emin)
      else S754_infinity s
  | _ => S754_zero s
  end.

(** The binary64 number nearest to [n/d] units of [2^emin] ([n >= 0],
    [d > 0]) with sign [s]. *)
Definition round_units (s : bool) (n d : Z) : float64 :=
  if n <=? 0 then S754_zero s
  else pack s (carry (mantissa_of n d) (shift_of n d)).

(** The binary64 number nearest to [n/d]: what reading a decimal literal,
    converting an [int] and rounding to decimal places all end with. *)
Definition nearest (s : bool) (n d : Z) : float64 :=
  round_units s (n * 2 ^ (- emin)) d.

(** The numbers that have an exact value, and that value in units of
    [2^emin]; [of_units] is the number nearest to a signed count of units. *)
Definition is_finite (x : float64) : bool :=
  match x with
  | S754_finite _ _ _ | S754_zero _ => true
  | _ => false
  end.

Definition is_nan (x : float64) : bool :=
  match x with S754_nan => true | _ => false end.

Definition units_of (x : float64) : Z :=
  match x with
  | S754_finite s m e => (if s then -1 else 1) * (Zpos m * 2 ^ (e - emin))
  | _ => 0
  end.

Definition of_units (n : Z) : float64 :=
  if n =? 0 then S754_zero false else round_units (n <? 0) (Z.abs n) 1.

(** A number in the binary64 format: the mantissa of a finite one is
    normalized and its exponent in range. *)
Definition valid (x : float64) : bool := valid_binary prec emax x.

(** The sign of a zero does not count in a comparison. *)
Definition unsign (x : float64) : float64 :=
  match x with S754_zero _ => S754_zero false | _ => x end.

(** The sign of a number that is not zero. *)
Definition has_sign (s : bool) (x : float64) : Prop :=
  match x with
  | S754_zero _ => True
  | S754_infinity s' | S754_finite s' _ _ => s' = s
  | S754_nan => False
  end.

(** The number of hundredths nearest to a count of units. *)
Definition hundredths (u : Z) : Z := div_nearest_even (100 * u) (2 ^ (- emin)).

(** [float(n)] for an [int]: too large a value raises. *)
Definition of_int (n : Z) : result float64 :=
  match nearest (n <? 0) (Z.abs n) 1 with
  | S754_infinity _ => Raise OverflowError
  | x => Ok x
  end.

(** A literal such as [50000], [365] or [0.015], given as [n/d]. *)
Definition literal (n d : Z) : float64 := nearest false n d.

(** [round(x, 2)] on a float: the decimal with two places nearest to the
    exact value of [x], a tie to the even digit, read back as a float;
    infinities, NaN and zeros round to themselves. *)
Definition round2 (x : float64) : float64 :=
  match x with
  | S754_finite s m e =>
      nearest s (div_nearest_even (shl (100 * Zpos m) e) (shl 1 (- e))) 100
  | _ => x
  end.

(** The numbers among the values: [bool] is an [int]. *)
Inductive number := Int (n : Z) | Flt (x : float64).

Definition number_of (v : json) : result number :=
  match v with
  | JBool b => Ok (Int (if b then 1 else 0))
  | JInt n => Ok (Int n)
  | JFloat x => Ok (Flt x)
  | _ => Raise TypeError
  end.

(** [a + b] and [a - b]: two [int]s stay exact, an [int] next to a float
    is converted first. *)
Definition binop (fz : Z -> Z -> Z) (ff : float64 -> float64 -> float64)
  (a b : json) : result json :=
  x <- number_of a ;;
  y <- number_of b ;;
  match x, y with
  | Int m, Int n => Ok (JInt (fz m n))
  | Int m, Flt v => u <- of_int m ;; Ok (JFloat (ff u v))
  | Flt u, Int n => v <- of_int n ;; Ok (JFloat (ff u v))
  | Flt u, Flt v => Ok (JFloat (ff u v))
  end.

Definition py_add : json -> json -> result json := binop Z.add add.
Definition py_sub : json -> json -> result json := binop Z.sub sub.

(** [sum(values)]: the additions from left to right, starting from the
    [int] zero.  (From CPython 3.12 on the float path of [sum] also carries
    a correction term; it is zero whenever the additions are exact.) *)
Fixpoint py_sum_from (acc : json) (values : list json) : result json :=
  match values with
  | [] => Ok acc
  | v :: rest => acc' <- py_add acc v ;; py_sum_from acc' rest
  end.

Definition py_sum (values : list json) : result json := py_sum_from (JInt 0) values.

(** [round(v, 2)]: an [int] is returned as it is. *)
Definition py_round2 (v : json) : result json :=
  n <- number_of v ;;
  match n with
  | Int z => Ok (JInt z)
  | Flt x => Ok (JFloat (round2 x))
  end.

End Float.

(** ** [FundingCalculatorTool] *)

Module FundingCalculator.
Import Datetime Float.

Record funding := mk_funding {
  loan_amount : float64;
  interest_rate : float64;
  loan_type : string;
  fee_breakdown : dict;
  total_fees : json;
  prepaid_interest : float64;
  net_disbursement : json;
  funding_method : string;
  estimated_funding_date : string }.

Definition standard_fees (loan_amount : float64) : list (string * dict) :=
  [ ("mortgage",
     [ ("origination_fee", JFloat (mul loan_amount (literal 1 100)));
       ("appraisal_fee", JInt 500);
       ("title_insurance", JInt 1200);
       ("recording_fee", JInt 150) ]);
    ("personal",
     [ ("origination_fee", JFloat (mul loan_amount (literal 2 100)));
       ("processing_fee", JInt 100) ]);
    ("auto",
     [ ("origination_fee", JFloat (mul loan_amount (literal 15 1000)));
       ("documentation_fee", JInt 75) ]);
    ("business",
     [ ("origination_fee", JFloat (mul loan_amount (literal 2 100)));
       ("documentation_fee", JInt 500);
       ("ucc_filing_fee", JInt 200) ]) ].

(** [d.update(other)] *)
Definition update (d other : dict) : dict :=
  fold_left (fun acc kv => set acc (fst kv) (snd kv)) other d.

(** [(loan_amount * (interest_rate / 100)) / 365] *)
Definition daily_interest (loan_amount interest_rate : float64) : float64 :=
  div (mul loan_amount (div interest_rate (literal 100 1))) (literal 365 1).

Definition prepaid_days : float64 := literal 15 1.

(** [round(loan_amount - total_fees - prepaid_interest, 2)], the
    subtraction of the fees first. *)
Definition net_of (loan_amount : float64) (total_fees : json) (prepaid_interest : float64)
  : result json :=
  net_disbursement <- py_sub (JFloat loan_amount) total_fees ;;
  net <- py_sub net_disbursement (JFloat prepaid_interest) ;;
  py_round2 net.

Definition _run (now : clock) (loan_amount interest_rate : float64)
  (loan_type : string) (fee_data : dict) : result funding :=
  let standard := standard_fees loan_amount in
  let applicable_fees :=
    update (match lookup standard loan_type with
            | Some fees => fees
            | None => Settings.index standard "personal" []
            end) fee_data in
  total_fees <- py_sum (map snd applicable_fees) ;;
  net_disbursement <- py_sub (JFloat loan_amount) total_fees ;;
  let daily_interest := daily_interest loan_amount interest_rate in
  let prepaid_interest := mul daily_interest prepaid_days in
  rounded_fees <- py_round2 total_fees ;;
  net <- py_sub net_disbursement (JFloat prepaid_interest) ;;
  rounded_net <- py_round2 net ;;
  funding_date <- add_days (now 0%nat) 2 ;;
  Ok {| loan_amount := loan_amount;
        interest_rate := interest_rate;
        loan_type := loan_type;
        fee_breakdown := applicable_fees;
        total_fees := rounded_fees;
        prepaid_interest := round2 prepaid_interest;
        net_disbursement := rounded_net;
        funding_method := if ltb (literal 50000 1) loan_amount then "wire" else "ach";
        estimated_funding_date := strftime_ymd funding_date |}.

(** The result without the date derived from the time of the run. *)
Definition timeless (r : funding) : funding :=
  mk_funding (loan_amount r) (interest_rate r) (loan_type r) (fee_breakdown r)
    (total_fees r) (prepaid_interest r) (net_disbursement r) (funding_method r) "".

End FundingCalculator.

(** ** [CommunicationDrafterTool] *)

Module CommunicationDrafter.
Import Datetime Float.
Local Open Scope string_scope.

Record draft := mk_draft {
  communication_type : string;
  recipient : string;
  subject : string;
  body : string;
  priority : string;
  drafted_at : string }.

Definition nl : string := String (ascii_of_nat 10) EmptyString.

(** A text given line by line. *)
Definition text (lines : list string) : string := String.concat nl lines.

(** [s.strip()], for the white space of the ASCII range. *)
Definition is_space (c : ascii) : bool :=
  let n := nat_of_ascii c in
  (Nat.leb 9 n && Nat.leb n 13) || (Nat.leb 28 n && Nat.leb n 32).

Fixpoint lstrip (l : list ascii) : list ascii :=
  match l with
  | c :: rest => if is_space c then lstrip rest else l
  | [] => []
  end.

Definition strip (s : string) : string :=
  string_of_list_ascii (rev (lstrip (rev (lstrip (list_ascii_of_string s))))).

(** The decimal digits of an [int]. *)
Definition decimal (n : Z) : string := NilZero.string_of_int (Z.to_int n).

(** Commas between groups of three digits, counted from the right. *)
Fixpoint commas (reversed : list ascii) (seen : nat) : list ascii :=
  match reversed with
  | [] => []
  | c :: rest =>
      if Nat.eqb seen 3 then "," :: c :: commas rest 1
      else c :: commas rest (S seen)
  end%char.

Definition grouped (digits : string) : string :=
  string_of_list_ascii (rev (commas (rev (list_ascii_of_string digits)) 0)).

(** [format(x, ',.2f')] on a float. *)
Definition format_float_2f (x : float64) : string :=
  match x with
  | S754_nan => "nan"
  | S754_infinity s => if s then "-inf" else "inf"
  | S754_zero s => if s then "-0.00" else "0.00"
  | S754_finite s m e =>
      let n := div_nearest_even (shl (100 * Zpos m) e) (shl 1 (- e)) in
      (if s then "-" else "") ++ grouped (decimal (n / 100)) ++ "."
      ++ pad 2 (n mod 100)
  end.

(** [format(v, ',.2f')] on a value: a number only, an [int] as a float. *)
Definition format_2f (v : json) : result string :=
  match v with
  | JBool b => Ok (if b then "1.00" else "0.00")
  | JInt n => x <- of_int n ;; Ok (format_float_2f x)
  | JFloat x => Ok (format_float_2f x)
  | JStr _ => Raise ValueError
  | _ => Raise TypeError
  end.

(** The bytes of the bullet literal of the document request. *)
Definition bullet : string :=
  string_of_list_ascii (map ascii_of_nat [195; 162; 226; 130; 172; 194; 162; 32]%nat).

Section Templates.

(** [repr] of a float, a list or a dictionary, which the drafts print as
    Python prints them. *)
Variable repr_of : json -> string.

(** [str(v)], what a replacement field [{v}] prints. *)
Definition py_str (v : json) : string :=
  match v with
  | JStr s => s
  | JNull => "None"
  | JBool b => if b then "True" else "False"
  | JInt n => decimal n
  | _ => repr_of v
  end.

(** [[bullet + doc for doc in docs]] *)
Fixpoint bullets (docs : list json) : result (list string) :=
  match docs with
  | [] => Ok []
  | JStr doc :: rest => lines <- bullets rest ;; Ok ((bullet ++ doc) :: lines)
  | _ :: _ => Raise TypeError
  end.

Definition document_request (recipient_name : string) (ctx : dict) : result string :=
  docs <- iterate (get_default ctx "missing_documents" (JArr [JStr "Required document"])) ;;
  lines <- bullets docs ;;
  Ok (text
    [ "";
      "Dear " ++ recipient_name ++ ",";
      "";
      "We are processing your loan application and need the following document(s) to proceed:";
      "";
      String.concat nl lines;
      "";
      "Please submit these documents at your earliest convenience. You can:";
      "- Upload securely through our portal";
      "- Email to loans@example.com";
      "- Fax to (555) 123-4567";
      "";
      "If you have any questions, please contact us at (555) 987-6543.";
      "";
      "Thank you for your prompt attention to this matter.";
      "";
      "Best regards,";
      "Loan Operations Team";
      "" ]).

Definition status_update (recipient_name : string) (ctx : dict) : string :=
  text
    [ "";
      "Dear " ++ recipient_name ++ ",";
      "";
      "This is an update on your loan application (Loan #"
        ++ py_str (get_default ctx "loan_id" (JStr "N/A")) ++ "):";
      "";
      "Current Status: " ++ py_str (get_default ctx "status" (JStr "In Progress"));
      (if truthy (get ctx "next_steps")
       then "Next Steps: " ++ py_str (get_default ctx "next_steps" (JStr ""))
       else "");
      (if truthy (get ctx "funding_date")
       then "Estimated Funding Date: " ++ py_str (get_default ctx "funding_date" (JStr ""))
       else "");
      "";
      "We will keep you informed of any updates. If you have questions, please don't hesitate to reach out.";
      "";
      "Best regards,";
      "Loan Operations Team";
      "" ].

Definition funding_notice (recipient_name : string) (ctx : dict) : result string :=
  loan_amount <- format_2f (get_default ctx "loan_amount" (JInt 0)) ;;
  net_disbursement <- format_2f (get_default ctx "net_disbursement" (JInt 0)) ;;
  Ok (text
    [ "";
      "Dear " ++ recipient_name ++ ",";
      "";
      "Great news! Your loan (#" ++ py_str (get_default ctx "loan_id" (JStr "N/A"))
        ++ ") has been approved for funding.";
      "";
      "Funding Details:";
      "- Loan Amount: $" ++ loan_amount;
      "- Net Disbursement: $" ++ net_disbursement;
      "- Funding Method: "
        ++ py_str (get_default ctx "funding_method" (JStr "Wire Transfer"));
      "- Expected Funding Date: "
        ++ py_str (get_default ctx "funding_date" (JStr "Within 2 business days"));
      "";
      "Please ensure your receiving account information is accurate. Funds will be disbursed to:";
      "Account ending in: " ++ py_str (get_default ctx "account_last4" (JStr "****"));
      "";
      "Congratulations on your new loan!";
      "";
      "Best regards,";
      "Loan Operations Team";
      "" ]).

Definition exception_notice (recipient_name : string) (ctx : dict) : string :=
  text
    [ "";
      "Dear " ++ recipient_name ++ ",";
      "";
      "We've encountered an issue while processing your loan application that requires your attention:";
      "";
      "Issue: "
        ++ py_str (get_default ctx "issue_description" (JStr "Additional information needed"));
      "";
      "Action Required: "
        ++ py_str (get_default ctx "action_required" (JStr "Please contact us"));
      "";
      "This may affect your expected funding timeline. Please respond within "
        ++ py_str (get_default ctx "response_deadline" (JStr "48 hours"))
        ++ " to avoid delays.";
      "";
      "Contact us at (555) 987-6543 or reply to this message.";
      "";
      "Thank you for your cooperation.";
      "";
      "Best regards,";
      "Loan Operations Team";
      "" ].

(** The dictionary of subjects. *)
Definition subjects (ctx : dict) : list (string * string) :=
  [ ("document_request",
     "Action Required: Documents Needed for Loan #"
       ++ py_str (get_default ctx "loan_id" (JStr "")));
    ("status_update",
     "Loan Status Update - #" ++ py_str (get_default ctx "loan_id" (JStr "")));
    ("funding_notice", "Congratulations! Your Loan is Ready for Funding");
    ("exception_notice", "Action Required: Issue with Your Loan Application") ].

Definition _run (now : clock) (communication_type recipient_name : string) (ctx : dict)
  : result draft :=
  t1 <- document_request recipient_name ctx ;;
  let t2 := status_update recipient_name ctx in
  t3 <- funding_notice recipient_name ctx ;;
  let t4 := exception_notice recipient_name ctx in
  let templates :=
    [ ("document_request", t1); ("status_update", t2);
      ("funding_notice", t3); ("exception_notice", t4) ] in
  let draft :=
    match lookup templates communication_type with
    | Some t => t
    | None => Settings.index templates "status_update" ""
    end in
  Ok {| communication_type := communication_type;
        recipient := recipient_name;
        subject := match lookup (subjects ctx) communication_type with
                   | Some t => t
                   | None => "Loan Update"
                   end;
        body := strip draft;
        priority := if in_strs communication_type ["document_request"; "exception_notice"]
                    then "high" else "normal";
        drafted_at := isoformat (now 0%nat) |}.

End Templates.

(** The draft without the time stamp of the run. *)
Definition timeless (r : draft) : draft :=
  mk_draft (communication_type r) (recipient r) (subject r) (body r) (priority r) "".

(** The four communication types. *)
Definition known_type (communication_type : string) : bool :=
  in_strs communication_type
    ["document_request"; "status_update"; "funding_notice"; "exception_notice"].

End CommunicationDrafter.

(** ** [src/models/loan_file.py] *)

Module LoanFile.

Inductive DocumentStatus := PENDING | RECEIVED | VERIFIED | REJECTED | EXPIRED.

Inductive FundingStatus :=
| APPROVED | DOCUMENT_COLLECTION | VERIFICATION | COMPLIANCE_REVIEW
| EXCEPTION_HANDLING | READY_TO_FUND | FUNDED | SUSPENDED.

(** [status.value] *)
Definition document_status_value (s : DocumentStatus) : string :=
  match s with
  | PENDING => "pending" | RECEIVED => "received" | VERIFIED => "verified"
  | REJECTED => "rejected" | EXPIRED => "expired"
  end.

Definition funding_status_value (s : FundingStatus) : string :=
  match s with
  | APPROVED => "approved" | DOCUMENT_COLLECTION => "document_collection"
  | VERIFICATION => "verification" | COMPLIANCE_REVIEW => "compliance_review"
  | EXCEPTION_HANDLING => "exception_handling" | READY_TO_FUND => "ready_to_fund"
  | FUNDED => "funded" | SUSPENDED => "suspended"
  end.

(** [DocumentStatus(v)] and [FundingStatus(v)]: the member with that value,
    [ValueError] for any other value. *)
Definition document_status_of (v : json) : result DocumentStatus :=
  match find (fun m => eq_str v (document_status_value m))
             [PENDING; RECEIVED; VERIFIED; REJECTED; EXPIRED] with
  | Some m => Ok m
  | None => Raise ValueError
  end.

Definition funding_status_of (v : json) : result FundingStatus :=
  match find (fun m => eq_str v (funding_status_value m))
             [ APPROVED; DOCUMENT_COLLECTION; VERIFICATION; COMPLIANCE_REVIEW;
               EXCEPTION_HANDLING; READY_TO_FUND; FUNDED; SUSPENDED ] with
  | Some m => Ok m
  | None => Raise ValueError
  end.

(** A dataclass does not check the annotations of its fields: a field
    holds the value it is given.  A field is therefore a [json] value,
    [JNull] for [None]; the enumerations are built by their constructors
    and are typed. *)
Record Document := mk_Document {
  name : json;
  status : DocumentStatus;
  received_date : json;
  verified_date : json;
  verified_by : json;
  rejection_reason : json;
  expiration_date : json;
  notes : json }.

Record ComplianceCheck := mk_ComplianceCheck {
  check_name : json;
  passed : json;
  checked_date : json;
  checked_by : json;
  findings : json;
  requires_override : json }.

Record Exception := mk_Exception {
  exception_id : json;
  category : json;
  description : json;
  severity : json;
  created_date : json;
  resolved_date : json;
  resolution : json;
  assigned_to : json }.

Record LoanFile := mk_LoanFile {
  loan_id : json;
  borrower_name : json;
  borrower_email : json;
  borrower_phone : json;
  loan_type : json;
  loan_amount : json;
  interest_rate : json;
  term_months : json;
  approval_date : json;
  approval_conditions : json;
  underwriter : json;
  funding_status : FundingStatus;
  target_funding_date : json;
  actual_funding_date : json;
  documents : list (string * Document);
  compliance_checks : list (string * ComplianceCheck);
  exceptions : list Exception;
  communications : json;
  funding_amount : json;
  funding_method : json;
  disbursement_account : json }.

(** [v is not None] *)
Definition is_not_none (v : json) : bool :=
  match v with JNull => false | _ => true end.

Definition document_to_dict (v : Document) : json :=
  JObj [ ("name", name v);
         ("status", JStr (document_status_value (status v)));
         ("received_date", received_date v);
         ("verified_date", verified_date v) ].

Definition check_to_dict (v : ComplianceCheck) : json :=
  JObj [ ("check_name", check_name v);
         ("passed", passed v);
         ("findings", findings v) ].

Definition exception_to_dict (e : Exception) : json :=
  JObj [ ("id", exception_id e);
         ("category", category e);
         ("description", description e);
         ("severity", severity e);
         ("resolved", JBool (is_not_none (resolved_date e))) ].

Definition to_dict (self : LoanFile) : json :=
  JObj [ ("loan_id", loan_id self);
         ("borrower_name", borrower_name self);
         ("borrower_email", borrower_email self);
         ("borrower_phone", borrower_phone self);
         ("loan_type", loan_type self);
         ("loan_amount", loan_amount self);
         ("interest_rate", interest_rate self);
         ("term_months", term_months self);
         ("approval_date", approval_date self);
         ("approval_conditions", approval_conditions self);
         ("underwriter", underwriter self);
         ("funding_status", JStr (funding_status_value (funding_status self)));
         ("target_funding_date", target_funding_date self);
         ("actual_funding_date", actual_funding_date self);
         ("documents",
          JObj (map (fun kv => (fst kv, document_to_dict (snd kv))) (documents self)));
         ("compliance_checks",
          JObj (map (fun kv => (fst kv, check_to_dict (snd kv)))
                  (compliance_checks self)));
         ("exceptions", JArr (map exception_to_dict (exceptions self)));
         ("communications", communications self) ].

(** [v.get(k, default)] on an arbitrary value. *)
Definition get_method_default (v : json) (k : string) (default : json) : result json :=
  match v with
  | JObj o => Ok (get_default o k default)
  | _ => Raise AttributeError
  end.

(** [v.items()] *)
Definition items (v : json) : result dict :=
  match v with
  | JObj o => Ok o
  | _ => Raise AttributeError
  end.

(** [d[k]] *)
Definition getitem (d : dict) (k : string) : result json :=
  match lookup d k with
  | Some v => Ok v
  | None => Raise KeyError
  end.

Definition parse_document (doc_name : string) (doc_data : json) : result Document :=
  n <- get_method_default doc_data "name" (JStr doc_name) ;;
  sv <- get_method_default doc_data "status" (JStr "pending") ;;
  st <- document_status_of sv ;;
  rd <- get_method doc_data "received_date" ;;
  vd <- get_method doc_data "verified_date" ;;
  Ok (mk_Document n st rd vd JNull JNull JNull JNull).

Fixpoint parse_documents (entries : dict) (documents : list (string * Document))
  : result (list (string * Document)) :=
  match entries with
  | [] => Ok documents
  | (doc_name, doc_data) :: rest =>
      d <- parse_document doc_name doc_data ;;
      parse_documents rest (set documents doc_name d)
  end.

Definition parse_check (name : string) (check_data : json) : result ComplianceCheck :=
  n <- get_method_default check_data "check_name" (JStr name) ;;
  p <- get_method check_data "passed" ;;
  f <- get_method check_data "findings" ;;
  Ok (mk_ComplianceCheck n p JNull JNull f (JBool false)).

Fixpoint parse_checks (entries : dict) (checks : list (string * ComplianceCheck))
  : result (list (string * ComplianceCheck)) :=
  match entries with
  | [] => Ok checks
  | (name, check_data) :: rest =>
      c <- parse_check name check_data ;;
      parse_checks rest (set checks name c)
  end.

Definition parse_exception (exc_data : json) : result Exception :=
  i <- get_method_default exc_data "id" (JStr "") ;;
  c <- get_method_default exc_data "category" (JStr "") ;;
  d <- get_method_default exc_data "description" (JStr "") ;;
  s <- get_method_default exc_data "severity" (JStr "medium") ;;
  cd <- get_method_default exc_data "created_date" (JStr "") ;;
  rd <- get_method exc_data "resolved_date" ;;
  r <- get_method exc_data "resolution" ;;
  Ok (mk_Exception i c d s cd rd r JNull).

Fixpoint parse_exceptions (entries : list json) (exceptions : list Exception)
  : result (list Exception) :=
  match entries with
  | [] => Ok exceptions
  | exc_data :: rest =>
      e <- parse_exception exc_data ;;
      parse_exceptions rest (exceptions ++ [e])
  end.

(** [from_json] after [json.load(f)] has produced [data]. *)
Definition from_json (data : json) : result LoanFile :=
  docs <- get_method_default data "documents" (JObj []) ;;
  doc_items <- items docs ;;
  documents <- parse_documents doc_items [] ;;
  checks <- get_method_default data "compliance_checks" (JObj []) ;;
  check_items <- items checks ;;
  compliance_checks <- parse_checks check_items [] ;;
  excs <- get_method_default data "exceptions" (JArr []) ;;
  exc_items <- iterate excs ;;
  exceptions <- parse_exceptions exc_items [] ;;
  match data with
  | JObj d =>
      loan_id <- getitem d "loan_id" ;;
      borrower_name <- getitem d "borrower_name" ;;
      borrower_email <- getitem d "borrower_email" ;;
      let borrower_phone := get_default d "borrower_phone" (JStr "") in
      loan_type <- getitem d "loan_type" ;;
      loan_amount <- getitem d "loan_amount" ;;
      interest_rate <- getitem d "interest_rate" ;;
      term_months <- getitem d "term_months" ;;
      approval_date <- getitem d "approval_date" ;;
      let approval_conditions := get_default d "approval_conditions" (JArr []) in
      let underwriter := get_default d "underwriter" (JStr "") in
      funding_status <- funding_status_of (get_default d "funding_status" (JStr "approved")) ;;
      let target_funding_date := get d "target_funding_date" in
      Ok (mk_LoanFile loan_id borrower_name borrower_email borrower_phone
            loan_type loan_amount interest_rate term_months approval_date
            approval_conditions underwriter funding_status target_funding_date
            JNull documents compliance_checks exceptions
            (get_default d "communications" (JArr []))
            JNull JNull JNull)
  | _ => Raise AttributeError
  end.

(** What a reload keeps of a record: the fields that [to_dict] writes and
    [from_json] reads; every other field is back at its default. *)
Definition reloaded_document (v : Document) : Document :=
  mk_Document (name v) (status v) (received_date v) (verified_date v)
    JNull JNull JNull JNull.

Definition reloaded_check (v : ComplianceCheck) : ComplianceCheck :=
  mk_ComplianceCheck (check_name v) (passed v) JNull JNull (findings v) (JBool false).

Definition reloaded_exception (e : Exception) : Exception :=
  mk_Exception (exception_id e) (category e) (description e) (severity e)
    (JStr "") JNull JNull JNull.

Definition reloaded (self : LoanFile) : LoanFile :=
  mk_LoanFile (loan_id self) (borrower_name self) (borrower_email self)
    (borrower_phone self) (loan_type self) (loan_amount self)
    (interest_rate self) (term_months self) (approval_date self)
    (approval_conditions self) (underwriter self) (funding_status self)
    (target_funding_date self) JNull
    (map (fun kv => (fst kv, reloaded_document (snd kv))) (documents self))
    (map (fun kv => (fst kv, reloaded_check (snd kv))) (compliance_checks self))
    (map reloaded_exception (exceptions self))
    (communications self) JNull JNull JNull.

(** The keys of a dictionary are distinct. *)
Definition unique_keys {A} (d : list (string * A)) : Prop := NoDup (map fst d).

(** The fields that a reload cannot bring back hold the values that
    [from_json] leaves in them: the default of the dataclass, and [""]
    for the [created_date] of an exception.  These are the fields that
    [to_dict] leaves out, and [actual_funding_date], which [to_dict]
    writes and [from_json] does not read. *)
Definition document_defaults (v : Document) : Prop :=
  verified_by v = JNull /\ rejection_reason v = JNull /\
  expiration_date v = JNull /\ notes v = JNull.

Definition check_defaults (v : ComplianceCheck) : Prop :=
  checked_date v = JNull /\ checked_by v = JNull /\ requires_override v = JBool false.

Definition exception_defaults (e : Exception) : Prop :=
  created_date e = JStr "" /\ resolved_date e = JNull /\
  resolution e = JNull /\ assigned_to e = JNull.

Definition defaults (self : LoanFile) : Prop :=
  actual_funding_date self = JNull /\
  funding_amount self = JNull /\ funding_method self = JNull /\
  disbursement_account self = JNull /\
  Forall (fun kv => document_defaults (snd kv)) (documents self) /\
  Forall (fun kv => check_defaults (snd kv)) (compliance_checks self) /\
  Forall exception_defaults (exceptions self).

End LoanFile.

(** ** [EXCEPTION_CATEGORIES] of the settings *)

Module Categories.

(** [EXCEPTION_CATEGORIES] of [src/config/settings.py]. *)
Definition EXCEPTION_CATEGORIES : list (string * list string) :=
  [ ("document", ["missing"; "expired"; "illegible"; "incomplete"]);
    ("compliance", ["failed_check"; "pending_review"; "requires_override"]);
    ("verification", ["mismatch"; "unable_to_verify"; "fraud_flag"]);
    ("funding", ["insufficient_funds"; "wire_error"; "hold_required"]) ].

(** The issue [tag] is listed for the category. *)
Definition listed (exception_type tag : string) : bool :=
  match lookup EXCEPTION_CATEGORIES exception_type with
  | Some tags => in_strs tag tags
  | None => false
  end.

End Categories.

(** ** Dates of the calendar, checked by enumeration *)

Module Calendar.
Import Datetime.
Local Open Scope Z_scope.

(** A date of the proleptic Gregorian calendar that [datetime] accepts. *)
Definition date_ok (t : datetime) : bool :=
  (1 <=? year t) && (year t <=? MAXYEAR) && (1 <=? month t) && (month t <=? 12)
  && (1 <=? day t) && (day t <=? days_in_month (year t) (month t)).

(** The day number [n] of the first 400 years is turned into a date of
    these years and back into [n]. *)
Definition cycle_ok (n : Z) : bool :=
  let '(y, m, d) := ord2ymd n in
  (1 <=? y) && (y <=? 400) && ((y <=? 399) || (145731 <? n))
  && (1 <=? m) && (m <=? 12) && (1 <=? d) && (d <=? days_in_month y m)
  && (ymd2ord y m d =? n).

(** [check] holds on [count] numbers from [first] on. *)
Fixpoint all_ok (check : Z -> bool) (count : nat) (first : Z) : bool :=
  match count with
  | O => true
  | S count' => if check first then all_ok check count' (first + 1) else false
  end.

(** A year of four digits is printed with four digits that read back as
    the year. *)
Definition year_ok (y : Z) : bool :=
  match pad 4 y with
  | String a (String b (String c (String d EmptyString))) =>
      match digit a, digit b, digit c, digit d with
      | Some a, Some b, Some c, Some d => 1000 * a + 100 * b + 10 * c + d =? y
      | _, _, _, _ => false
      end
  | _ => false
  end.

End Calendar.

(** ** [src/crew.py]: what the crew tells its agents about a loan *)

Module Crew.
Import LoanFile Float CommunicationDrafter.
Local Open Scope string_scope.

(** [[name for name, doc in documents.items()
      if doc.status.value in ["pending", "expired"]]] *)
Definition missing_docs (self : LoanFile) : list string :=
  map fst
    (filter (fun kv =>
               in_strs (document_status_value (status (snd kv))) ["pending"; "expired"])
       (documents self)).

(** [[e for e in exceptions if not e.resolved_date]] *)
Definition active_exceptions (self : LoanFile) : list Exception :=
  filter (fun e => negb (truthy (resolved_date e))) (exceptions self).

(** The truth value of a list. *)
Definition not_empty {A} (l : list A) : bool :=
  match l with [] => false | _ :: _ => true end.

Definition _get_communication_needs (self : LoanFile) : string :=
  let needs : list string := [] in
  let missing_docs := missing_docs self in
  let needs :=
    if not_empty missing_docs
    then (needs ++ [("Document request needed for: "
                     ++ String.concat ", " missing_docs)%string])%list
    else needs in
  let active_exceptions := active_exceptions self in
  let needs :=
    if not_empty active_exceptions
    then (needs ++ [("Exception notices needed: "
                     ++ decimal (Z.of_nat (List.length active_exceptions))
                     ++ " active exceptions")%string])%list
    else needs in
  let needs := (needs ++ ["General status update on loan progress"])%list in
  if not_empty needs then String.concat nl needs else "Standard status update only".

(** [docs_status[name] = {...}] for every document of the record. *)
Definition docs_status (self : LoanFile) : dict :=
  fold_left
    (fun acc kv =>
       set acc (fst kv)
         (JObj [ ("status", JStr (document_status_value (status (snd kv))));
                 ("received_date", received_date (snd kv)) ]))
    (documents self) [].

(** [sep.join(v)]: the items of [v] must be strings. *)
Fixpoint strs (items : list json) : result (list string) :=
  match items with
  | [] => Ok []
  | JStr s :: rest => l <- strs rest ;; Ok (s :: l)
  | _ :: _ => Raise TypeError
  end.

Definition join (sep : string) (v : json) : result string :=
  items <- iterate v ;;
  l <- strs items ;;
  Ok (String.concat sep l).

Section Context.

(** [repr] of a float, a list or a dictionary, and
    [json.dumps(v, indent=2)]. *)
Variable repr_of : json -> string.
Variable dumps : json -> string.

Definition _get_loan_context (self : LoanFile) : result string :=
  let docs_status := docs_status self in
  loan_amount <- format_2f (loan_amount self) ;;
  conditions <- join ", " (approval_conditions self) ;;
  Ok (text
    [ "";
      "Loan ID: " ++ py_str repr_of (loan_id self);
      "Borrower: " ++ py_str repr_of (borrower_name self);
      "Email: " ++ py_str repr_of (borrower_email self);
      "Phone: " ++ py_str repr_of (borrower_phone self);
      "";
      "Loan Type: " ++ py_str repr_of (loan_type self);
      "Loan Amount: $" ++ loan_amount;
      "Interest Rate: " ++ py_str repr_of (interest_rate self) ++ "%";
      "Term: " ++ py_str repr_of (term_months self) ++ " months";
      "";
      "Approval Date: " ++ py_str repr_of (approval_date self);
      "Approval Conditions: " ++ (if String.eqb conditions "" then "None" else conditions);
      "Target Funding Date: "
        ++ py_str repr_of (or_ (target_funding_date self) (JStr "TBD"));
      "Current Status: " ++ funding_status_value (funding_status self);
      "";
      "Documents Status:";
      dumps (JObj docs_status);
      "";
      "Active Exceptions: "
        ++ decimal (Z.of_nat (List.length (active_exceptions self)));
      "" ]).

End Context.

End Crew.

(** ** A sample record *)

Module Samples.
Import LoanFile.

(** A mortgage with one pending document and one exception that was
    resolved. *)
Definition sample_file : LoanFile :=
  mk_LoanFile (JStr "LN-8") (JStr "Ada Lovelace") (JStr "ada@example.com")
    (JStr "555-0100") (JStr "mortgage") (JInt 250000) (JInt 6) (JInt 360)
    (JStr "2024-03-01") (JArr []) (JStr "") READY_TO_FUND JNull JNull
    [ ("tax_returns", mk_Document (JStr "tax_returns") PENDING JNull JNull JNull JNull
                        JNull JNull);
      ("proof_of_income", mk_Document (JStr "proof_of_income") VERIFIED
                            (JStr "2024-03-02") (JStr "2024-03-03") JNull JNull JNull
                            JNull) ]
    []
    [ mk_Exception (JStr "EX-1") (JStr "document") (JStr "Illegible pay stub")
        (JStr "low") (JStr "2024-03-04") (JStr "2024-03-06") (JStr "Clear copy received")
        JNull ]
    (JArr []) JNull JNull JNull.

End Samples.

(** ** [src/agents/ops_agents.py]: the choice of the language model *)

Module Agents.
Import Float.
Local Open Scope string_scope.

(** The process environment, [os.environ]. *)
Definition environ := list (string * string).

(** [os.getenv(name, default)] *)
Definition getenv (env : environ) (name default : string) : string :=
  match lookup env name with Some v => v | None => default end.

(** The model settings of [src/config/settings.py], read when the module
    is loaded. *)
Record settings := mk_settings {
  OPENAI_API_KEY : string;
  ANTHROPIC_API_KEY : string;
  OPENAI_MODEL : string;
  ANTHROPIC_MODEL : string;
  DEFAULT_LLM_PROVIDER : string }.

Definition load_settings (env : environ) : settings :=
  {| OPENAI_API_KEY := getenv env "OPENAI_API_KEY" "";
     ANTHROPIC_API_KEY := getenv env "ANTHROPIC_API_KEY" "";
     OPENAI_MODEL := getenv env "OPENAI_MODEL" "gpt-4o-mini";
     ANTHROPIC_MODEL := getenv env "ANTHROPIC_MODEL" "claude-3-haiku-20240307";
     DEFAULT_LLM_PROVIDER := getenv env "DEFAULT_LLM_PROVIDER" "openai" |}.

(** The arguments of [LLM(...)]. *)
Record LLM := mk_LLM { model : string; temperature : float64 }.

(** The truth value of a string. *)
Definition nonempty (s : string) : bool := negb (String.eqb s "").

(** [get_llm()]: the environment after the call and the model, or the
    exception. *)
Definition get_llm (s : settings) (env : environ) : result (environ * LLM) :=
  if String.eqb (DEFAULT_LLM_PROVIDER s) "anthropic" && nonempty (ANTHROPIC_API_KEY s) then
    Ok (set env "ANTHROPIC_API_KEY" (ANTHROPIC_API_KEY s),
        mk_LLM ("anthropic/" ++ ANTHROPIC_MODEL s) (literal 1 10))
  else if nonempty (OPENAI_API_KEY s) then
    Ok (set env "OPENAI_API_KEY" (OPENAI_API_KEY s),
        mk_LLM ("openai/" ++ OPENAI_MODEL s) (literal 1 10))
  else Raise ValueError.

End Agents.

(** ** The tools on any parsed argument

    [json.loads(arg) if arg else {}] leaves whatever JSON value the
    argument text holds: a dictionary, a list, a string, a number, a
    boolean or [None].  The functions of this module take that value; on
    a dictionary they are the [_run] of the tool's own module. *)

Module Tools.

(** [needle in hay] for two strings: [needle] occurs in [hay]. *)
Fixpoint starts_with (needle hay : string) : bool :=
  match needle, hay with
  | EmptyString, _ => true
  | String a needle', String b hay' => Ascii.eqb a b && starts_with needle' hay'
  | String _ _, EmptyString => false
  end.

Fixpoint occurs (needle hay : string) : bool :=
  starts_with needle hay ||
  match hay with
  | EmptyString => false
  | String _ hay' => occurs needle hay'
  end.

(** [doc in received]: a key of a dictionary, an element of a list, a
    part of a string; no other value can be searched. *)
Definition contains (received : json) (doc : string) : result bool :=
  match received with
  | JObj o => Ok (mem o doc)
  | JArr l => Ok (existsb (fun v => eq_str v doc) l)
  | JStr s => Ok (occurs doc s)
  | _ => Raise TypeError
  end.

(** [received[doc]] for a string [doc]: only a dictionary takes a string
    between the brackets. *)
Definition subscript (received : json) (doc : string) : result json :=
  match received with
  | JObj o => match lookup o doc with
              | Some v => Ok v
              | None => Raise KeyError
              end
  | _ => Raise TypeError
  end.

(** One turn of [for doc in required] in [DocumentCheckerTool._run]. *)
Definition check (received : json) (acc : DocumentChecker.audit) (doc : string)
  : result DocumentChecker.audit :=
  let missing := DocumentChecker.missing acc in
  let expired := DocumentChecker.expired acc in
  let pending_verification := DocumentChecker.pending_verification acc in
  present <- contains received doc ;;
  if negb present then
    Ok (DocumentChecker.mk_audit (missing ++ [doc]) expired pending_verification)
  else
    entry <- subscript received doc ;;
    status <- get_method entry "status" ;;
    if eq_str status "pending" then
      Ok (DocumentChecker.mk_audit (missing ++ [doc]) expired pending_verification)
    else if eq_str status "expired" then
      Ok (DocumentChecker.mk_audit missing (expired ++ [doc]) pending_verification)
    else if eq_str status "received" then
      Ok (DocumentChecker.mk_audit missing expired (pending_verification ++ [doc]))
    else Ok acc.

Fixpoint check_all (received : json) (docs : list string) (acc : DocumentChecker.audit)
  : result DocumentChecker.audit :=
  match docs with
  | [] => Ok acc
  | doc :: rest => acc' <- check received acc doc ;; check_all received rest acc'
  end.

Definition document_checker (loan_id loan_type : string) (documents_received : json)
  : result DocumentChecker.report :=
  let required := DocumentChecker.required loan_type in
  acc <- check_all documents_received required (DocumentChecker.mk_audit [] [] []) ;;
  let missing := DocumentChecker.missing acc in
  let expired := DocumentChecker.expired acc in
  Ok (DocumentChecker.mk_report loan_id loan_type (List.length required)
        missing expired (DocumentChecker.pending_verification acc)
        (DocumentChecker.is_empty missing && DocumentChecker.is_empty expired)
        (Settings.index Settings.SLA_THRESHOLDS "document_follow_up" 0%Z)
        (negb (DocumentChecker.is_empty missing) || negb (DocumentChecker.is_empty expired))).

(** The search found nothing. *)
Definition not_found (received : json) (doc : string) : bool :=
  match contains received doc with
  | Ok false => true
  | _ => false
  end.

(** The other tools start with [data.get(...)]: a value that is not a
    dictionary has no such method. *)
Definition get_of (v : json) : result dict :=
  match v with
  | JObj o => Ok o
  | _ => Raise AttributeError
  end.

Definition document_verifier (now : Datetime.clock) (document_name : string)
    (document_data : json) : result DocumentVerifier.verification :=
  data <- get_of document_data ;;
  DocumentVerifier._run now document_name data.

Definition exception_analyzer (exception_type : string) (exception_details : json)
  : result ExceptionAnalyzer.analysis :=
  details <- get_of exception_details ;;
  ExceptionAnalyzer._run exception_type details.

Definition communication_drafter (repr_of : json -> string) (now : Datetime.clock)
    (communication_type recipient_name : string) (context : json)
  : result CommunicationDrafter.draft :=
  ctx <- get_of context ;;
  CommunicationDrafter._run repr_of now communication_type recipient_name ctx.

(** A text of ASCII characters only. *)
Definition is_ascii (s : string) : bool :=
  forallb (fun c => Nat.ltb (nat_of_ascii c) 128) (list_ascii_of_string s).

End Tools.


(** * Properties *)

Lemma Ok_inj {A} (a b : A) : Ok a = Ok b -> a = b.
Proof. now intros [= ->]. Qed.

(** ** The document audit *)

Section DocumentAudit.
Import DocumentChecker.

Lemma step_classify received acc doc acc' :
  step received acc doc = Ok acc' ->
  exists b, classify received doc = Ok b /\
    missing acc' = missing acc ++ (if bucket_eqb b InMissing then [doc] else []) /\
    expired acc' = expired acc ++ (if bucket_eqb b InExpired then [doc] else []) /\
    pending_verification acc' =
      pending_verification acc ++ (if bucket_eqb b InPending then [doc] else []).
Proof.
  unfold step, classify.
  destruct (lookup received doc) as [entry|].
  - destruct entry; simpl; try discriminate.
    destruct (eq_str (get o "status") "pending");
      [|destruct (eq_str (get o "status") "expired");
        [|destruct (eq_str (get o "status") "received")]];
      intros [= <-]; eexists; (split; [reflexivity|]); simpl;
      rewrite ?app_nil_r; auto.
  - intros [= <-]. exists InMissing. simpl. rewrite ?app_nil_r. auto.
Qed.

Lemma loop_filter received docs : forall acc acc',
  loop received docs acc = Ok acc' ->
  Forall (fun d => is_ok (classify received d) = true) docs /\
  missing acc' = missing acc ++ filter (in_bucket received InMissing) docs /\
  expired acc' = expired acc ++ filter (in_bucket received InExpired) docs /\
  pending_verification acc' =
    pending_verification acc ++ filter (in_bucket received InPending) docs.
Proof.
  induction docs as [|d docs IH]; intros acc acc' H; simpl in H.
  - inversion H; subst. rewrite !app_nil_r. auto.
  - destruct (step received acc d) as [acc1|] eqn:Hs; simpl in H; [|discriminate].
    apply step_classify in Hs. destruct Hs as (b & Hc & Hm & He & Hp).
    apply IH in H. destruct H as (HF & Hm' & He' & Hp').
    split; [constructor; [rewrite Hc; reflexivity|assumption]|].
    assert (Hb : forall x, in_bucket received x d = bucket_eqb b x)
      by (intro x; unfold in_bucket; rewrite Hc; reflexivity).
    rewrite Hm', He', Hp', Hm, He, Hp. simpl. rewrite !Hb, <- !app_assoc.
    destruct b; simpl; auto.
Qed.

Lemma loop_total received docs : forall acc,
  Forall (fun d => is_ok (classify received d) = true) docs ->
  exists acc', loop received docs acc = Ok acc'.
Proof.
  induction docs as [|d docs IH]; intros acc HF; simpl.
  - eauto.
  - inversion HF as [|? ? Hd HF']; subst.
    unfold step, classify in *.
    destruct (lookup received d) as [entry|]; [|apply IH; assumption].
    destruct entry; simpl in Hd; try discriminate. simpl.
    destruct (eq_str _ "pending"); [apply IH; assumption|].
    destruct (eq_str _ "expired"); [apply IH; assumption|].
    destruct (eq_str _ "received"); apply IH; assumption.
Qed.

Lemma lookup_In {A} (d : list (string * A)) k v :
  lookup d k = Some v -> In (k, v) d.
Proof.
  induction d as [|[k' v'] d IH]; simpl; [discriminate|].
  destruct (String.eqb k' k) eqn:E.
  - apply String.eqb_eq in E. intros [= ->]. subst. auto.
  - auto.
Qed.

Lemma document_map_ok_classify received doc :
  document_map_ok received = true ->
  is_ok (classify received doc) = true.
Proof.
  intros Hok. unfold classify.
  destruct (lookup received doc) as [entry|] eqn:E; [|reflexivity].
  apply lookup_In in E.
  unfold document_map_ok in Hok. rewrite forallb_forall in Hok.
  apply Hok in E. unfold entry_ok in E. simpl in E.
  destruct entry; try discriminate. reflexivity.
Qed.

Lemma is_empty_nil {A} (l : list A) : is_empty l = true <-> l = [].
Proof. unfold is_empty. destruct l; simpl; split; intros; congruence. Qed.

Lemma eq_str_true v s : eq_str v s = true <-> v = JStr s.
Proof.
  destruct v; simpl; split; try discriminate.
  - intros H. apply String.eqb_eq in H. congruence.
  - intros [= ->]. apply String.eqb_refl.
Qed.

Lemma classify_missing received d :
  classify received d = Ok InMissing <->
  lookup received d = None \/ has_status received d "pending".
Proof.
  unfold classify, has_status.
  destruct (lookup received d) as [entry|].
  - split.
    + destruct entry; simpl; try discriminate.
      destruct (eq_str (get o "status") "pending") eqn:E.
      * apply eq_str_true in E. eauto.
      * destruct (eq_str _ "expired"); [discriminate|].
        destruct (eq_str _ "received"); discriminate.
    + intros [H|(o & [= ->] & Hs)]; [discriminate|].
      simpl. rewrite Hs. reflexivity.
  - split; auto.
Qed.

Lemma classify_expired received d :
  classify received d = Ok InExpired <-> has_status received d "expired".
Proof.
  unfold classify, has_status.
  destruct (lookup received d) as [entry|].
  - split.
    + destruct entry; simpl; try discriminate.
      destruct (eq_str (get o "status") "pending"); [discriminate|].
      destruct (eq_str (get o "status") "expired") eqn:E.
      * apply eq_str_true in E. eauto.
      * destruct (eq_str _ "received"); discriminate.
    + intros (o & [= ->] & Hs). simpl. rewrite Hs. reflexivity.
  - split; [discriminate|]. intros (o & H & _). discriminate.
Qed.

Lemma classify_pending received d :
  classify received d = Ok InPending <-> has_status received d "received".
Proof.
  unfold classify, has_status.
  destruct (lookup received d) as [entry|].
  - split.
    + destruct entry; simpl; try discriminate.
      destruct (eq_str (get o "status") "pending"); [discriminate|].
      destruct (eq_str (get o "status") "expired"); [discriminate|].
      destruct (eq_str (get o "status") "received") eqn:E; [|discriminate].
      apply eq_str_true in E. eauto.
    + intros (o & [= ->] & Hs). simpl. rewrite Hs. reflexivity.
  - split; [discriminate|]. intros (o & H & _). discriminate.
Qed.

(** With the five status tags only, the fall-through branch is taken by
    the verified and the rejected documents and by no other. *)
Lemma classify_none received d :
  document_map_ok received = true ->
  classify received d = Ok InNone <->
  has_status received d "verified" \/ has_status received d "rejected".
Proof.
  intros Hok. unfold classify, has_status.
  destruct (lookup received d) as [entry|] eqn:El.
  - apply lookup_In in El.
    unfold document_map_ok in Hok. rewrite forallb_forall in Hok.
    apply Hok in El. unfold entry_ok in El. simpl in El.
    destruct entry; try discriminate.
    destruct (get o "status") as [| | | |s| |] eqn:Es; try discriminate.
    split.
    + simpl. rewrite Es. simpl. unfold in_strs in El. simpl in El.
      destruct (String.eqb s "pending") eqn:E1; [discriminate|].
      destruct (String.eqb s "expired") eqn:E2; [discriminate|].
      destruct (String.eqb s "received") eqn:E3; [discriminate|].
      simpl in El.
      destruct (String.eqb s "verified") eqn:E4;
        [apply String.eqb_eq in E4; subst; eauto|].
      destruct (String.eqb s "rejected") eqn:E5;
        [apply String.eqb_eq in E5; subst; eauto|].
      discriminate.
    + intros [(o' & [= <-] & Hs)|(o' & [= <-] & Hs)];
        simpl; rewrite Hs; reflexivity.
  - split; [discriminate|]. intros [(o & H & _)|(o & H & _)]; discriminate.
Qed.

Lemma in_bucket_true received b d :
  in_bucket received b d = true <-> classify received d = Ok b.
Proof.
  unfold in_bucket. destruct (classify received d) as [b'|e].
  - destruct b', b; simpl; split; congruence.
  - split; discriminate.
Qed.

Lemma run_lists loan_id loan_type received r :
  _run loan_id loan_type received = Ok r ->
  Forall (fun d => is_ok (classify received d) = true) (required loan_type) /\
  missing_documents r = filter (in_bucket received InMissing) (required loan_type) /\
  expired_documents r = filter (in_bucket received InExpired) (required loan_type) /\
  pending_verification_documents r =
    filter (in_bucket received InPending) (required loan_type) /\
  collection_complete r =
    is_empty (missing_documents r) && is_empty (expired_documents r).
Proof.
  unfold _run.
  destruct (loop received (required loan_type) (mk_audit [] [] [])) as [acc|] eqn:E;
    simpl; [|discriminate].
  intros [= <-]. simpl.
  apply loop_filter in E. simpl in E. tauto.
Qed.

(** C1. For every loan type and document map on which the audit returns,
    a required document is listed as missing exactly when it is absent or
    pending, as expired exactly when its status is expired, as pending
    verification exactly when its status is received, and a verified or
    rejected one is in none of the lists; the lists hold required documents
    only and are pairwise disjoint; [collection_complete] holds exactly when
    the missing and expired lists are empty.  On a document map of the loan
    record (entries are dictionaries with one of the five status tags) the
    audit returns, and the required documents in none of the lists are
    exactly the verified and rejected ones. *)
Theorem document_audit_classification :
  forall loan_id loan_type received,
    (forall r, _run loan_id loan_type received = Ok r ->
       (forall d, In d (required loan_type) ->
          (In d (missing_documents r) <->
             lookup received d = None \/ has_status received d "pending") /\
          (In d (expired_documents r) <-> has_status received d "expired") /\
          (In d (pending_verification_documents r) <->
             has_status received d "received") /\
          (has_status received d "verified" \/ has_status received d "rejected" ->
             unlisted r d)) /\
       (forall d, In d (missing_documents r) \/ In d (expired_documents r) \/
                  In d (pending_verification_documents r) ->
                  In d (required loan_type)) /\
       disjoint (missing_documents r) (expired_documents r) /\
       disjoint (missing_documents r) (pending_verification_documents r) /\
       disjoint (expired_documents r) (pending_verification_documents r) /\
       (collection_complete r = true <->
          missing_documents r = [] /\ expired_documents r = [])) /\
    (document_map_ok received = true ->
       exists r, _run loan_id loan_type received = Ok r /\
         forall d, In d (required loan_type) ->
           (unlisted r d <->
              has_status received d "verified" \/ has_status received d "rejected")).
Proof.
  intros loan_id loan_type received.
  assert (Hlists : forall r, _run loan_id loan_type received = Ok r ->
            forall b d,
              In d (filter (in_bucket received b) (required loan_type)) <->
              In d (required loan_type) /\ classify received d = Ok b).
  { intros r _ b d. rewrite filter_In, in_bucket_true. tauto. }
  split.
  - intros r Hr. pose proof (Hlists r Hr) as HL.
    destruct (run_lists _ _ _ _ Hr) as (_ & Hm & He & Hp & Hc).
    unfold unlisted, disjoint. rewrite Hc, Hm, He, Hp.
    split; [|split; [|split; [|split; [|split]]]].
    + intros d Hd.
      rewrite !HL, classify_missing, classify_expired, classify_pending.
      split; [tauto|split; [tauto|split; [tauto|]]].
      intros Hv.
      split; [|split].
      * intros [_ [X|(o' & H3 & H4)]];
          destruct Hv as [(o & H1 & H2)|(o & H1 & H2)]; congruence.
      * intros [_ (o' & H3 & H4)];
          destruct Hv as [(o & H1 & H2)|(o & H1 & H2)]; congruence.
      * intros [_ (o' & H3 & H4)];
          destruct Hv as [(o & H1 & H2)|(o & H1 & H2)]; congruence.
    + intros d. rewrite !HL. tauto.
    + intros d. rewrite !HL. intros [[_ H1] [_ H2]]. congruence.
    + intros d. rewrite !HL. intros [[_ H1] [_ H2]]. congruence.
    + intros d. rewrite !HL. intros [[_ H1] [_ H2]]. congruence.
    + rewrite andb_true_iff, !is_empty_nil. tauto.
  - intros Hok.
    assert (HF : Forall (fun d => is_ok (classify received d) = true)
                   (required loan_type)).
    { apply Forall_forall. intros d _. apply document_map_ok_classify, Hok. }
    destruct (loop_total received _ (mk_audit [] [] []) HF) as [acc Hacc].
    unfold _run at 1. rewrite Hacc. simpl. eexists. split; [reflexivity|].
    intros d Hd.
    assert (Hr : _run loan_id loan_type received = Ok
      {| loan_id := loan_id; loan_type := loan_type;
         total_required := List.length (required loan_type);
         missing_documents := missing acc; expired_documents := expired acc;
         pending_verification_documents := pending_verification acc;
         collection_complete := is_empty (missing acc) && is_empty (expired acc);
         sla_hours_remaining := Settings.index Settings.SLA_THRESHOLDS "document_follow_up" 0%Z;
         action_required := negb (is_empty (missing acc)) || negb (is_empty (expired acc)) |}).
    { unfold _run. rewrite Hacc. reflexivity. }
    pose proof (Hlists _ Hr) as HL.
    destruct (run_lists _ _ _ _ Hr) as (_ & Hm & He & Hp & _).
    unfold unlisted. rewrite Hm, He, Hp, !HL.
    rewrite <- (classify_none received d Hok).
    pose proof (document_map_ok_classify received d Hok) as Hcl.
    destruct (classify received d) as [b|]; [|discriminate].
    destruct b; split; intro H; try discriminate; try reflexivity;
      try (repeat split; intros [_ X]; discriminate);
      destruct H as (H1 & H2 & H3); exfalso; eauto.
Qed.

Lemma document_audit_classification_witness :
  let received :=
    [ ("signed_application", JObj [("status", JStr "verified")]);
      ("proof_of_income", JObj [("status", JStr "received")]);
      ("bank_statements", JObj [("status", JStr "expired")]) ] in
  document_map_ok received = true /\
  (exists r, _run "LN-1" "personal" received = Ok r /\
     forall d, In d (required "personal") ->
       (unlisted r d <->
          has_status received d "verified" \/ has_status received d "rejected")) /\
  disjoint ["proof_of_identity"] ["bank_statements"].
Proof.
  intros received.
  pose proof (document_audit_classification "LN-1" "personal" received) as [H1 H2].
  split; [reflexivity|]. split; [apply H2; reflexivity|].
  exact (proj1 (proj2 (proj2 (H1 _ eq_refl)))).
Defined.

(** C9. A loan type outside the catalogue is audited against the personal
    list: the report is the one of a personal loan, except for the loan
    type it echoes. *)
Theorem unknown_loan_type_audits_as_personal :
  forall loan_id loan_type received,
    in_strs loan_type ["mortgage"; "personal"; "auto"; "business"] = false ->
    required loan_type =
      [ "signed_application"; "proof_of_income"; "bank_statements";
        "proof_of_identity" ] /\
    required loan_type = required "personal" /\
    _run loan_id loan_type received =
      (r <- _run loan_id "personal" received ;;
       Ok (mk_report (DocumentChecker.loan_id r) loan_type (total_required r)
             (missing_documents r) (expired_documents r)
             (pending_verification_documents r) (collection_complete r)
             (sla_hours_remaining r) (action_required r))).
Proof.
  intros loan_id loan_type received H.
  assert (Hreq : required loan_type = required "personal").
  { unfold in_strs, existsb in H.
    unfold required, Settings.REQUIRED_DOCUMENTS, lookup.
    rewrite !(String.eqb_sym _ loan_type).
    destruct (String.eqb loan_type "mortgage"); [discriminate|].
    destruct (String.eqb loan_type "personal"); [discriminate|].
    destruct (String.eqb loan_type "auto"); [discriminate|].
    destruct (String.eqb loan_type "business"); [discriminate|].
    reflexivity. }
  split; [rewrite Hreq; reflexivity|]. split; [assumption|].
  unfold _run. rewrite Hreq.
  destruct (loop received (required "personal") (mk_audit [] [] [])); reflexivity.
Qed.

Lemma unknown_loan_type_audits_as_personal_witness :
  required "student" = required "personal" /\
  _run "LN-2" "student" [] =
    Ok (mk_report "LN-2" "student" 4
          [ "signed_application"; "proof_of_income"; "bank_statements";
            "proof_of_identity" ] [] [] false 24%Z true).
Proof.
  pose proof (unknown_loan_type_audits_as_personal "LN-2" "student" [] eq_refl)
    as (_ & H1 & H2).
  split; [exact H1|]. rewrite H2. reflexivity.
Defined.

End DocumentAudit.

(** ** The document verification *)

Section DocumentVerification.
Import Datetime DocumentVerifier.
Local Open Scope Z_scope.

Lemma new_fields y m d hh mm ss us t :
  new y m d hh mm ss us = Ok t -> t = mk_datetime y m d hh mm ss us.
Proof.
  unfold new. destruct (_ && _); [|discriminate]. now intros [= <-].
Qed.

Lemma strptime_ymd_midnight s t :
  strptime_ymd s = Ok t ->
  s <> "" /\ hour t = 0 /\ minute t = 0 /\ second t = 0 /\ microsecond t = 0.
Proof.
  unfold strptime_ymd. intros H.
  split; [intros ->; discriminate|].
  repeat match type of H with
         | match ?x with _ => _ end = Ok _ => destruct x; try discriminate
         end.
  apply new_fields in H. subst t. simpl. auto.
Qed.

(** Against a date at midnight, [timedelta.days] is the difference of the
    two calendar days. *)
Lemma days_sub_midnight a b :
  time_ok a = true ->
  hour b = 0 -> minute b = 0 -> second b = 0 -> microsecond b = 0 ->
  days (sub a b) = toordinal a - toordinal b.
Proof.
  unfold time_ok, sub, delta, seconds_of_day. intros Ha Hh Hm Hs Hu.
  rewrite Hh, Hm, Hs, Hu. cbn [days].
  rewrite !andb_true_iff, !Z.leb_le in Ha.
  rewrite (Z.div_small (microsecond a - 0)) by lia.
  rewrite Z.div_small by lia. lia.
Qed.

Lemma check_expiration_cases now name data checks cn :
  check_expiration now name data checks = Ok cn ->
  fst cn = checks \/ fst cn = set checks "not_expired" (JBool false).
Proof.
  unfold check_expiration.
  destruct (date_sensitive name); [|intros [= <-]; auto].
  destruct (truthy _); [|intros [= <-]; auto].
  destruct (strptime _); simpl; [|discriminate].
  destruct (_ <? _); intros [= <-]; auto.
Qed.

Lemma falsy_keys_spec checks k :
  In k (falsy_keys checks) <-> exists v, In (k, v) checks /\ truthy v = false.
Proof.
  unfold falsy_keys. rewrite in_map_iff. split.
  - intros ([k' v] & <- & H). apply filter_In in H. simpl in H.
    exists v. rewrite negb_true_iff in H. tauto.
  - intros (v & H1 & H2). exists (k, v). rewrite filter_In. simpl.
    rewrite H2. auto.
Qed.

(** C7. When the verifier returns, its check vector has the six checks in
    order, [verification_passed] is their conjunction, the recommendation
    is VERIFIED when it holds and REQUIRES_ATTENTION otherwise, and
    [failed_checks] lists exactly the checks that are false.  For a
    date-sensitive document with a valid document date the verifier
    returns, and [not_expired] is false exactly when more than 90 days lie
    between that date and the evaluation time: [timedelta.days], which
    counts whole days, exceeds 90, that is, the evaluation day is more
    than 90 calendar days after the document date.  The verifier also
    returns for every document that is not date sensitive or states no
    date. *)
Theorem document_verification_checks :
  forall (now : clock) (name : string) (data : dict),
    (date_sensitive name = false \/ truthy (get data "document_date") = false ->
     exists r, _run now name data = Ok r) /\
    (forall r, _run now name data = Ok r ->
       (exists c1 c2 c3 c4 c5 c6,
          checks_performed r =
            [ ("document_present", c1); ("legible", c2); ("complete", c3);
              ("not_expired", c4); ("signatures_valid", c5);
              ("dates_consistent", c6) ] /\
          verification_passed r =
            truthy c1 && truthy c2 && truthy c3 && truthy c4 && truthy c5
            && truthy c6) /\
       recommendation r =
         (if verification_passed r then "VERIFIED" else "REQUIRES_ATTENTION")%string /\
       (forall k, In k (failed_checks r) <->
                  exists v, In (k, v) (checks_performed r) /\ truthy v = false)) /\
    (forall s d,
       date_sensitive name = true ->
       get data "document_date" = JStr s ->
       strptime_ymd s = Ok d ->
       exists r, _run now name data = Ok r /\
         (get (checks_performed r) "not_expired" = JBool false <->
            90 < days (sub (now 0%nat) d)) /\
         (get (checks_performed r) "not_expired" = JBool true <->
            days (sub (now 0%nat) d) <= 90) /\
         (time_ok (now 0%nat) = true ->
            (get (checks_performed r) "not_expired" = JBool false <->
               90 < toordinal (now 0%nat) - toordinal d))).
Proof.
  intros now name data. split; [|split].
  - unfold _run, check_expiration.
    intros [-> | H]; [eexists; reflexivity|]. rewrite H.
    destruct (date_sensitive name); eexists; reflexivity.
  - intros r. unfold _run.
    destruct (check_expiration now name data (initial_checks data))
      as [[checks ticks]|] eqn:E; simpl; [|discriminate].
    intros [= <-]. simpl.
    apply check_expiration_cases in E. simpl in E.
    split; [|split; [reflexivity|apply falsy_keys_spec]].
    destruct E as [-> | ->]; unfold initial_checks; simpl;
      do 6 eexists; (split; [reflexivity|]);
      unfold all_values; simpl;
      destruct (truthy (get_default data "pages_complete" (JBool true)));
      destruct (truthy (get_default data "signed" (JBool true))); reflexivity.
  - intros s d Hs Hd Hp.
    destruct (strptime_ymd_midnight _ _ Hp) as (Hne & Hh & Hm & Hsec & Hus).
    unfold _run, check_expiration. rewrite Hs, Hd. cbn [truthy].
    destruct (String.eqb s "") eqn:Es; [apply String.eqb_eq in Es; contradiction|].
    cbn [negb strptime]. rewrite Hp. cbn [bind].
    destruct (90 <? days (sub (now 0%nat) d)) eqn:E; cbn [bind];
      eexists; (split; [reflexivity|]);
      cbn [checks_performed initial_checks set String.eqb Ascii.eqb Bool.eqb];
      unfold get, get_default;
      cbn [lookup String.eqb Ascii.eqb Bool.eqb];
      [apply Z.ltb_lt in E|apply Z.ltb_ge in E];
      (split; [|split]);
      try (intros Hok; rewrite <- (days_sub_midnight _ _ Hok Hh Hm Hsec Hus));
      split; intros; try reflexivity; try discriminate; try lia.
Qed.

Lemma document_verification_checks_witness :
  let now : clock := fun _ => mk_datetime 2024 4 1 9 30 0 0 in
  let data := [ ("document_date", JStr "2024-01-01"); ("signed", JBool false) ] in
  exists r, _run now "proof_of_income" data = Ok r /\
    get (checks_performed r) "not_expired" = JBool false /\
    failed_checks r = ["not_expired"; "signatures_valid"]%string /\
    recommendation r = "REQUIRES_ATTENTION"%string.
Proof.
  intros now data.
  destruct (document_verification_checks now "proof_of_income" data) as (_ & H1 & H2).
  destruct (H2 "2024-01-01"%string (mk_datetime 2024 1 1 0 0 0 0)
              eq_refl eq_refl eq_refl) as (r & Hr & Hf & _ & _).
  exists r. split; [exact Hr|]. split; [apply Hf; reflexivity|].
  destruct (H1 r Hr) as (_ & Hrec & _).
  vm_compute in Hr. injection Hr as <-. split; reflexivity.
Defined.

(** C10. A date-sensitive document whose metadata has no [document_date]
    is never found expired: the verifier returns, [not_expired] stays true
    and is not among the failed checks, and the document is recommended
    VERIFIED as soon as its completeness and signature flags hold. *)
Theorem undated_document_never_expires :
  forall (now : clock) (name : string) (data : dict),
    date_sensitive name = true ->
    lookup data "document_date" = None ->
    exists r, _run now name data = Ok r /\
      get (checks_performed r) "not_expired" = JBool true /\
      ~ In "not_expired"%string (failed_checks r) /\
      (truthy (get_default data "pages_complete" (JBool true)) = true ->
       truthy (get_default data "signed" (JBool true)) = true ->
       verification_passed r = true /\ recommendation r = "VERIFIED"%string).
Proof.
  intros now name data Hs Hd.
  unfold _run, check_expiration, get, get_default. rewrite Hs, Hd. simpl.
  eexists. split; [reflexivity|]. simpl.
  split; [reflexivity|]. split.
  - unfold falsy_keys, initial_checks. simpl.
    destruct (truthy (get_default data "pages_complete" (JBool true)));
      destruct (truthy (get_default data "signed" (JBool true))); simpl;
      intuition discriminate.
  - unfold all_values, initial_checks, get_default. simpl.
    intros -> ->. auto.
Qed.

Lemma undated_document_never_expires_witness :
  exists r,
    _run (fun _ => mk_datetime 2024 4 1 9 30 0 0) "bank_statements" [] = Ok r /\
    get (checks_performed r) "not_expired" = JBool true /\
    recommendation r = "VERIFIED"%string.
Proof.
  destruct (undated_document_never_expires
              (fun _ => mk_datetime 2024 4 1 9 30 0 0) "bank_statements" []
              eq_refl eq_refl) as (r & Hr & Hn & _ & Hv).
  exists r. split; [exact Hr|]. split; [exact Hn|].
  apply Hv; reflexivity.
Defined.

End DocumentVerification.

(** ** The compliance validation *)

Section ComplianceValidation.
Import Datetime ComplianceValidator.

(** The seven entries of [results], in the order of the catalogue. *)
Lemma results_unfold now loan_id data :
  results (_run now loan_id data) =
    map (fun '(tick, check) =>
           (check, mk_check_result check (fst (evaluate data check))
                     (snd (evaluate data check)) (isoformat (now tick))))
        [ (0, "anti_money_laundering"); (1, "know_your_customer");
          (2, "truth_in_lending"); (3, "equal_credit_opportunity");
          (4, "fair_lending"); (5, "flood_insurance"); (6, "privacy_disclosure") ]%nat.
Proof.
  unfold _run, results, Settings.COMPLIANCE_CHECKS, loop. cbn [map].
  repeat match goal with
         | |- context [evaluate data ?c] =>
             let p := fresh "p" in
             let f := fresh "f" in
             destruct (evaluate data c) as [p f]
         end.
  reflexivity.
Qed.

Lemma failed_checks_spec now loan_id data k :
  In k (failed_checks (_run now loan_id data)) <->
  exists c, In (k, c) (results (_run now loan_id data)) /\ truthy (passed c) = false.
Proof.
  unfold _run at 1. cbn [failed_checks]. fold (results (_run now loan_id data)).
  rewrite in_map_iff. split.
  - intros ([k' c] & <- & H). apply filter_In in H. simpl in H.
    exists c. rewrite negb_true_iff in H. tauto.
  - intros (c & H1 & H2). exists (k, c). rewrite filter_In. simpl.
    rewrite H2. auto.
Qed.

(** C2. [compliance_passed] is the conjunction of the seven check
    results, a check is listed as failed exactly when its result is false,
    and the recommendation is CLEARED exactly when all checks pass.  A
    mortgage whose AML, KYC, TILA and flood-certificate flags are all true
    passes with no failed check; with the AML flag false instead, the one
    failed check is "anti_money_laundering", its findings are
    "AML flag detected - requires review", and compliance does not pass. *)
Theorem compliance_is_conjunction :
  forall (now : clock) (loan_id : string) (data : dict),
    let r := _run now loan_id data in
    (exists c1 c2 c3 c4 c5 c6 c7,
       results r =
         [ ("anti_money_laundering", c1); ("know_your_customer", c2);
           ("truth_in_lending", c3); ("equal_credit_opportunity", c4);
           ("fair_lending", c5); ("flood_insurance", c6);
           ("privacy_disclosure", c7) ] /\
       compliance_passed r =
         truthy (passed c1) && truthy (passed c2) && truthy (passed c3)
         && truthy (passed c4) && truthy (passed c5) && truthy (passed c6)
         && truthy (passed c7)) /\
    (forall k, In k (failed_checks r) <->
               exists c, In (k, c) (results r) /\ truthy (passed c) = false) /\
    (recommendation r = "CLEARED" <-> compliance_passed r = true) /\
    (recommendation r = "REQUIRES_REMEDIATION" <-> compliance_passed r = false) /\
    (get data "loan_type" = JStr "mortgage" ->
     flag data "kyc_verified" true -> flag data "tila_disclosed" true ->
     flag data "flood_cert_clear" true ->
     (flag data "aml_cleared" true ->
        compliance_passed r = true /\ failed_checks r = [] /\
        recommendation r = "CLEARED") /\
     (flag data "aml_cleared" false ->
        compliance_passed r = false /\
        failed_checks r = ["anti_money_laundering"] /\
        (exists c, lookup (results r) "anti_money_laundering" = Some c /\
                   passed c = JBool false /\
                   findings c = Some "AML flag detected - requires review") /\
        recommendation r = "REQUIRES_REMEDIATION")).
Proof.
  intros now loan_id data r.
  pose proof (results_unfold now loan_id data) as Hres. fold r in Hres.
  cbn [map] in Hres.
  assert (Hpass : compliance_passed r =
                  forallb (fun kv => truthy (passed (snd kv))) (results r))
    by reflexivity.
  assert (Hfail : failed_checks r =
                  map fst (filter (fun kv => negb (truthy (passed (snd kv))))
                             (results r)))
    by reflexivity.
  assert (Hrec : recommendation r =
                 if compliance_passed r then "CLEARED" else "REQUIRES_REMEDIATION")
    by reflexivity.
  split; [|split; [|split; [|split]]].
  - do 7 eexists. split; [exact Hres|].
    rewrite Hpass, Hres. cbn [forallb snd passed].
    repeat match goal with
           | |- context [truthy ?x] => destruct (truthy x)
           end; reflexivity.
  - apply failed_checks_spec.
  - rewrite Hrec. destruct (compliance_passed r); split; congruence.
  - rewrite Hrec. destruct (compliance_passed r); split; congruence.
  - intros Hty Hkyc Htila Hflood.
    rewrite Hrec, Hpass, Hfail, Hres.
    unfold evaluate, get, get_default, flag in *.
    cbn [String.eqb Ascii.eqb Bool.eqb].
    rewrite Hkyc, Htila, Hflood.
    destruct (lookup data "loan_type") as [ty|]; [|discriminate Hty]. subst ty.
    cbn [eq_str String.eqb Ascii.eqb Bool.eqb].
    split; intros Haml; rewrite Haml; cbn; repeat split.
    eexists. split; [reflexivity|]. split; reflexivity.
Qed.

Lemma compliance_is_conjunction_witness :
  let now : clock := fun _ => mk_datetime 2024 4 1 9 30 0 0 in
  let flags b :=
    [ ("loan_type", JStr "mortgage"); ("aml_cleared", JBool b);
      ("kyc_verified", JBool true); ("tila_disclosed", JBool true);
      ("flood_cert_clear", JBool true) ] in
  (compliance_passed (_run now "LN-3" (flags true)) = true /\
   failed_checks (_run now "LN-3" (flags true)) = []) /\
  (compliance_passed (_run now "LN-3" (flags false)) = false /\
   failed_checks (_run now "LN-3" (flags false)) = ["anti_money_laundering"]).
Proof.
  intros now flags. split.
  - destruct (compliance_is_conjunction now "LN-3" (flags true))
      as (_ & _ & _ & _ & H).
    destruct (H eq_refl eq_refl eq_refl eq_refl) as [H1 _].
    destruct (H1 eq_refl) as (Hp & Hf & _). split; assumption.
  - destruct (compliance_is_conjunction now "LN-3" (flags false))
      as (_ & _ & _ & _ & H).
    destruct (H eq_refl eq_refl eq_refl eq_refl) as [_ H2].
    destruct (H2 eq_refl) as (Hp & Hf & _). split; assumption.
Defined.

End ComplianceValidation.

(** ** The exception analysis *)

Section ExceptionAnalysis.
Import ExceptionAnalyzer.

Lemma available_resolutions_cases exception_type tag :
  let by_type :=
    match lookup resolutions exception_type with Some t => t | None => [] end in
  let available :=
    match lookup by_type tag with
    | Some v => v
    | None => ["Escalate to supervisor"]
    end in
  available <> [] /\
  (known_issue exception_type tag = false -> available = ["Escalate to supervisor"]) /\
  (exception_type = "verification" -> tag = "fraud_flag" ->
   available = ["Escalate immediately"; "Suspend processing"; "Notify fraud team"]).
Proof.
  unfold known_issue, mem, resolutions. cbn [lookup].
  destruct (String.eqb "document" exception_type) eqn:E1;
    [|destruct (String.eqb "compliance" exception_type) eqn:E2;
      [|destruct (String.eqb "verification" exception_type) eqn:E3;
        [|destruct (String.eqb "funding" exception_type) eqn:E4]]];
    cbn [lookup];
    repeat match goal with
           | |- context [String.eqb ?a tag] =>
               lazymatch a with
               | tag => fail
               | _ => let E := fresh "T" in destruct (String.eqb a tag) eqn:E
               end
           end;
    (split; [discriminate|split; [try discriminate; auto|]]);
    intros Ht Hi; subst; try reflexivity; discriminate.
Qed.

Lemma severity_cases exception_type tag (s : string) :
  s = (if String.eqb exception_type "verification" && String.eqb tag "fraud_flag"
       then "critical"
       else if String.eqb exception_type "compliance" && String.eqb tag "failed_check"
       then "high"
       else if String.eqb exception_type "document" && String.eqb tag "missing"
       then "low"
       else "medium") ->
  (s = "critical" <-> exception_type = "verification" /\ tag = "fraud_flag") /\
  (s = "high" <-> exception_type = "compliance" /\ tag = "failed_check") /\
  (s = "low" <-> exception_type = "document" /\ tag = "missing") /\
  (s = "medium" <->
     ~ (exception_type = "verification" /\ tag = "fraud_flag") /\
     ~ (exception_type = "compliance" /\ tag = "failed_check") /\
     ~ (exception_type = "document" /\ tag = "missing")) /\
  (s = "critical" \/ s = "high" \/ s = "low" \/ s = "medium").
Proof.
  assert (Hsev : forall a b, (String.eqb exception_type a && String.eqb tag b = true)
                             <-> exception_type = a /\ tag = b).
  { intros a b. rewrite andb_true_iff, !String.eqb_eq. tauto. }
  intros Hs.
  destruct (String.eqb exception_type "verification" && String.eqb tag "fraud_flag")
    eqn:C1;
    [|destruct (String.eqb exception_type "compliance" && String.eqb tag "failed_check")
        eqn:C2;
      [|destruct (String.eqb exception_type "document" && String.eqb tag "missing")
          eqn:C3]];
    subst s;
    repeat match goal with
           | H : _ && _ = true |- _ => apply Hsev in H
           | H : _ && _ = false |- _ => apply not_true_iff_false in H; rewrite Hsev in H
           end;
    intuition (try congruence).
Qed.

(** C4, with the impact statements as the code spells them.  For every
    category and issue tag the analysis returns; severity follows the
    fixed lookup (verification with fraud_flag is critical, compliance with
    failed_check is high, document with missing is low, anything else is
    medium); [escalation_required] holds exactly for high and critical,
    [sla_impact] exactly when severity is not low; the impact statement is
    "Blocks funding" for high and critical and "May delay funding"
    otherwise; the resolution list is not empty and starts with the
    recommended action; for verification with fraud_flag that action is
    "Escalate immediately"; an issue tag unknown for the category yields
    the one action "Escalate to supervisor" and severity medium. *)
Theorem exception_analysis_lookup :
  forall (exception_type : string) (details : dict) (tag : string),
    get_default details "issue" (JStr "unknown") = JStr tag ->
    exists r, _run exception_type details = Ok r /\
      issue r = JStr tag /\
      (severity r = "critical" <->
         exception_type = "verification" /\ tag = "fraud_flag") /\
      (severity r = "high" <->
         exception_type = "compliance" /\ tag = "failed_check") /\
      (severity r = "low" <-> exception_type = "document" /\ tag = "missing") /\
      (severity r = "medium" <->
         ~ (exception_type = "verification" /\ tag = "fraud_flag") /\
         ~ (exception_type = "compliance" /\ tag = "failed_check") /\
         ~ (exception_type = "document" /\ tag = "missing")) /\
      (escalation_required r = true <->
         severity r = "high" \/ severity r = "critical") /\
      (sla_impact r = true <-> severity r <> "low") /\
      impact_assessment r =
        (if escalation_required r then "Blocks funding" else "May delay funding") /\
      (exists rest, proposed_resolutions r = recommended_action r :: rest) /\
      (exception_type = "verification" -> tag = "fraud_flag" ->
         recommended_action r = "Escalate immediately") /\
      (known_issue exception_type tag = false ->
         proposed_resolutions r = ["Escalate to supervisor"] /\
         severity r = "medium").
Proof.
  intros exception_type details tag Hissue.
  unfold _run. rewrite Hissue. cbn [get_by_value bind eq_str].
  eexists. split; [reflexivity|].
  cbn [issue severity escalation_required sla_impact impact_assessment
       proposed_resolutions recommended_action].
  destruct (available_resolutions_cases exception_type tag) as (Hne & Hunk & Hfraud).
  cbv zeta in Hne, Hunk, Hfraud.
  set (available := match lookup _ tag with Some v => v | None => _ end) in *.
  set (s := if _ && _ then "critical" else _).
  destruct (severity_cases exception_type tag s eq_refl)
    as (Hc & Hh & Hl & Hm & Hs).
  clearbody available s.
  assert (Hknown : known_issue exception_type tag = false -> s = "medium").
  { intros Hk. apply Hm. repeat split; intros [-> ->]; discriminate Hk. }
  assert (Hesc : in_strs s ["high"; "critical"] = true <->
                 s = "high" \/ s = "critical").
  { unfold in_strs. cbn [existsb]. rewrite !orb_true_iff, !String.eqb_eq.
    intuition discriminate. }
  assert (Hsla : negb (String.eqb s "low") = true <-> s <> "low").
  { rewrite negb_true_iff. apply String.eqb_neq. }
  split; [reflexivity|].
  split; [exact Hc|]. split; [exact Hh|]. split; [exact Hl|]. split; [exact Hm|].
  split; [exact Hesc|]. split; [exact Hsla|]. split; [reflexivity|].
  split; [|split].
  - destruct available as [|a rest]; [contradiction|]. eexists; reflexivity.
  - intros H1 H2. rewrite (Hfraud H1 H2). reflexivity.
  - intros Hk. split; [apply Hunk|apply Hknown]; exact Hk.
Qed.

Lemma exception_analysis_lookup_witness :
  exists r,
    _run "verification" [("issue", JStr "fraud_flag")] = Ok r /\
    severity r = "critical" /\ escalation_required r = true /\
    recommended_action r = "Escalate immediately" /\
    impact_assessment r = "Blocks funding".
Proof.
  destruct (exception_analysis_lookup "verification" [("issue", JStr "fraud_flag")]
              "fraud_flag" eq_refl)
    as (r & Hr & _ & Hc & _ & _ & _ & He & _ & Hi & _ & Hf & _).
  exists r. split; [exact Hr|].
  assert (Hs : severity r = "critical") by (apply Hc; auto).
  assert (Hesc : escalation_required r = true) by (apply He; auto).
  split; [exact Hs|]. split; [exact Hesc|]. split; [apply Hf; reflexivity|].
  rewrite Hi, Hesc. reflexivity.
Defined.

(** The impact statements of the analysis start with a capital letter:
    the lower-case wording is not what a critical exception reports. *)
Lemma exception_impact_statement_is_capitalised :
  exists r,
    _run "verification" [("issue", JStr "fraud_flag")] = Ok r /\
    severity r = "critical" /\
    impact_assessment r <> "blocks funding".
Proof.
  eexists. split; [reflexivity|]. split; [reflexivity|]. discriminate.
Qed.

End ExceptionAnalysis.

(** ** Serializing and reloading the loan record *)

Section RoundTrip.
Import LoanFile.

Lemma set_fresh {A} (d : list (string * A)) k v :
  lookup d k = None -> set d k v = d ++ [(k, v)].
Proof.
  induction d as [|[k' v'] d IH]; simpl; [reflexivity|].
  destruct (String.eqb k' k); [discriminate|].
  intros H. rewrite IH by assumption. reflexivity.
Qed.

Lemma lookup_app_fresh {A} (d : list (string * A)) k v k' :
  lookup d k' = None -> k <> k' -> lookup (d ++ [(k, v)]) k' = None.
Proof.
  induction d as [|[k0 v0] d IH]; simpl.
  - intros _ Hk. apply String.eqb_neq in Hk. rewrite Hk. reflexivity.
  - destruct (String.eqb k0 k'); [discriminate|]. auto.
Qed.

Lemma document_status_of_value st :
  document_status_of (JStr (document_status_value st)) = Ok st.
Proof. destruct st; reflexivity. Qed.

Lemma funding_status_of_value st :
  funding_status_of (JStr (funding_status_value st)) = Ok st.
Proof. destruct st; reflexivity. Qed.

Lemma parse_document_to_dict k v :
  parse_document k (document_to_dict v) = Ok (reloaded_document v).
Proof.
  unfold parse_document, document_to_dict, get_method_default, get_method, get,
    get_default.
  cbn [lookup String.eqb Ascii.eqb Bool.eqb bind].
  rewrite document_status_of_value. reflexivity.
Qed.

Lemma parse_check_to_dict k v :
  parse_check k (check_to_dict v) = Ok (reloaded_check v).
Proof. reflexivity. Qed.

Lemma parse_exception_to_dict e :
  parse_exception (exception_to_dict e) = Ok (reloaded_exception e).
Proof. reflexivity. Qed.

Lemma parse_documents_to_dict docs : forall acc,
  unique_keys docs ->
  (forall k, In k (map fst docs) -> lookup acc k = None) ->
  parse_documents (map (fun kv => (fst kv, document_to_dict (snd kv))) docs) acc =
    Ok (acc ++ map (fun kv => (fst kv, reloaded_document (snd kv))) docs).
Proof.
  unfold unique_keys.
  induction docs as [|[k v] docs IH]; intros acc Hnd Hacc;
    cbn [map parse_documents fst snd].
  - rewrite app_nil_r. reflexivity.
  - simpl in Hnd. inversion Hnd as [|? ? Hk Hnd']; subst.
    rewrite parse_document_to_dict. cbn [bind].
    rewrite set_fresh by (apply Hacc; simpl; auto).
    rewrite IH; [rewrite <- app_assoc; reflexivity|assumption|].
    intros k' Hk'. apply lookup_app_fresh.
    + apply Hacc. simpl. auto.
    + intros ->. contradiction.
Qed.

Lemma parse_checks_to_dict checks : forall acc,
  unique_keys checks ->
  (forall k, In k (map fst checks) -> lookup acc k = None) ->
  parse_checks (map (fun kv => (fst kv, check_to_dict (snd kv))) checks) acc =
    Ok (acc ++ map (fun kv => (fst kv, reloaded_check (snd kv))) checks).
Proof.
  unfold unique_keys.
  induction checks as [|[k v] checks IH]; intros acc Hnd Hacc;
    cbn [map parse_checks fst snd].
  - rewrite app_nil_r. reflexivity.
  - simpl in Hnd. inversion Hnd as [|? ? Hk Hnd']; subst.
    rewrite parse_check_to_dict. cbn [bind].
    rewrite set_fresh by (apply Hacc; simpl; auto).
    rewrite IH; [rewrite <- app_assoc; reflexivity|assumption|].
    intros k' Hk'. apply lookup_app_fresh.
    + apply Hacc. simpl. auto.
    + intros ->. contradiction.
Qed.

Lemma parse_exceptions_to_dict excs : forall acc,
  parse_exceptions (map exception_to_dict excs) acc =
    Ok (acc ++ map reloaded_exception excs).
Proof.
  induction excs as [|e excs IH]; intros acc; cbn [map parse_exceptions].
  - rewrite app_nil_r. reflexivity.
  - rewrite parse_exception_to_dict. cbn [bind].
    rewrite IH, <- app_assoc. reflexivity.
Qed.

Lemma map_fixed {A} (f : A -> A) (l : list A) :
  map f l = l <-> Forall (fun x => f x = x) l.
Proof.
  induction l as [|x l IH]; cbn [map].
  - split; constructor.
  - split.
    + intros [= Hx Hl]. constructor; [exact Hx|apply IH; exact Hl].
    + intros H. inversion H as [|? ? Hx Hl]; subst. rewrite Hx.
      f_equal. apply IH. exact Hl.
Qed.

Lemma Forall_iff {A} (P Q : A -> Prop) (l : list A) :
  (forall x, P x <-> Q x) -> (Forall P l <-> Forall Q l).
Proof.
  intros H. split; intros HF; eapply Forall_impl; try exact HF;
    intros x Hx; apply H; exact Hx.
Qed.

(** A record is its own reloaded form exactly when the fields that a
    reload cannot bring back hold their defaults. *)
Lemma reloaded_fixed r : reloaded r = r <-> defaults r.
Proof.
  unfold defaults.
  rewrite (Forall_iff (fun kv => document_defaults (snd kv))
             (fun kv : string * Document => (fst kv, reloaded_document (snd kv)) = kv)).
  2: { intros [k v]. destruct v. unfold document_defaults, reloaded_document. cbn.
       split.
       - intros (-> & -> & -> & ->). reflexivity.
       - intros [= -> -> -> ->]. auto. }
  rewrite (Forall_iff (fun kv => check_defaults (snd kv))
             (fun kv : string * ComplianceCheck => (fst kv, reloaded_check (snd kv)) = kv)).
  2: { intros [k v]. destruct v. unfold check_defaults, reloaded_check. cbn.
       split.
       - intros (-> & -> & ->). reflexivity.
       - intros [= -> -> ->]. auto. }
  rewrite (Forall_iff exception_defaults (fun e => reloaded_exception e = e)).
  2: { intros e. destruct e. unfold exception_defaults, reloaded_exception. cbn.
       split.
       - intros (-> & -> & -> & ->). reflexivity.
       - intros [= -> -> -> ->]. auto. }
  rewrite <- !map_fixed.
  destruct r. unfold reloaded. cbn. split.
  - intros [= -> -> -> -> -> -> ->]. auto 10.
  - intros (-> & -> & -> & -> & -> & -> & ->). reflexivity.
Qed.

(** C5, as the two functions allow it.  Reloading the dictionary that
    [to_dict] writes returns the record with the serialized fields
    unchanged: name, status, received and verified date of every document;
    name, result and findings of every compliance check; id, category,
    description and severity of every exception; the loan's own fields.
    Every other field is back at its default ([""] for the creation
    date of an exception): the fields that [to_dict] leaves out, and
    [actual_funding_date], which [to_dict] writes and [from_json] does
    not read.  So the record is reproduced as it is exactly when all
    these fields hold their defaults. *)
Theorem reload_keeps_serialized_fields :
  forall r : LoanFile,
    unique_keys (documents r) ->
    unique_keys (compliance_checks r) ->
    from_json (to_dict r) = Ok (reloaded r) /\
    (reloaded r = r -> from_json (to_dict r) = Ok r) /\
    (from_json (to_dict r) = Ok r <-> defaults r).
Proof.
  intros r Hd Hc.
  cut (from_json (to_dict r) = Ok (reloaded r) /\
       (reloaded r = r -> from_json (to_dict r) = Ok r)).
  { intros [H1 H2]. split; [exact H1|]. split; [exact H2|].
    rewrite <- reloaded_fixed. split.
    - intros H. rewrite H1 in H. apply Ok_inj in H. exact H.
    - exact H2. }
  assert (H : from_json (to_dict r) = Ok (reloaded r)).
  { unfold from_json, to_dict, get_method_default, get_default, items, iterate,
      getitem, get, get_default.
    cbn [lookup String.eqb Ascii.eqb Bool.eqb bind].
    rewrite parse_documents_to_dict by (auto; intros; reflexivity).
    cbn [bind].
    rewrite parse_checks_to_dict by (auto; intros; reflexivity).
    cbn [bind].
    rewrite parse_exceptions_to_dict. cbn [bind].
    rewrite funding_status_of_value. reflexivity. }
  split; [exact H|]. intros E. rewrite E in H. exact H.
Qed.

Lemma reload_keeps_serialized_fields_witness :
  let r :=
    mk_LoanFile (JStr "LN-4") (JStr "Ada") (JStr "ada@example.com") (JStr "555")
      (JStr "personal") (JInt 25000) (JInt 7) (JInt 36) (JStr "2024-02-01")
      (JArr []) (JStr "uw") READY_TO_FUND (JStr "2024-03-01") JNull
      [ ("signed_application",
         mk_Document (JStr "signed_application") VERIFIED (JStr "2024-02-02")
           (JStr "2024-02-03") JNull JNull JNull JNull) ]
      [ ("fair_lending",
         mk_ComplianceCheck (JStr "fair_lending") (JBool true) JNull JNull JNull
           (JBool false)) ]
      [] (JArr []) JNull JNull JNull in
  from_json (to_dict r) = Ok r.
Proof.
  intros r.
  assert (Hd : unique_keys (documents r))
    by (repeat constructor; simpl; tauto).
  assert (Hc : unique_keys (compliance_checks r))
    by (repeat constructor; simpl; tauto).
  exact (proj1 (proj2 (reload_keeps_serialized_fields r Hd Hc)) eq_refl).
Defined.

(** An exception's creation and resolution timestamps are not written by
    [to_dict]: the reloaded record has lost them. *)
Lemma reload_loses_exception_timestamps :
  let e :=
    mk_Exception (JStr "EXC-1") (JStr "document") (JStr "Missing tax return")
      (JStr "low") (JStr "2024-03-01T10:00:00") (JStr "2024-03-04T16:30:00")
      (JStr "Received from borrower") JNull in
  let r :=
    mk_LoanFile (JStr "LN-5") (JStr "Ada") (JStr "ada@example.com") (JStr "555")
      (JStr "personal") (JInt 25000) (JInt 7) (JInt 36) (JStr "2024-02-01")
      (JArr []) (JStr "uw") APPROVED JNull JNull [] [] [e] (JArr [])
      JNull JNull JNull in
  exists r', from_json (to_dict r) = Ok r' /\
    map created_date (exceptions r') = [JStr ""] /\
    map resolved_date (exceptions r') = [JNull] /\
    map created_date (exceptions r') <> map created_date (exceptions r) /\
    r' <> r.
Proof.
  intros e r. eexists. split; [reflexivity|].
  split; [reflexivity|]. split; [reflexivity|]. split; discriminate.
Qed.

End RoundTrip.

(** ** The communication drafts *)


Section CommunicationDrafts.
Import Datetime CommunicationDrafter.
Local Open Scope string_scope.

Variable repr_of : json -> string.

Lemma priority_cases ctype :
  let p := if in_strs ctype ["document_request"; "exception_notice"]
           then "high" else "normal" in
  (p = "high" <-> ctype = "document_request" \/ ctype = "exception_notice") /\
  (p = "normal" <-> ~ (ctype = "document_request" \/ ctype = "exception_notice")).
Proof.
  unfold in_strs. cbn [existsb]. rewrite orb_false_r.
  destruct (String.eqb ctype "document_request") eqn:E1;
    [apply String.eqb_eq in E1|apply String.eqb_neq in E1];
    (destruct (String.eqb ctype "exception_notice") eqn:E2;
     [apply String.eqb_eq in E2|apply String.eqb_neq in E2]);
    cbn [orb]; intuition discriminate.
Qed.

(** C6, with the fallback as the code has it.  When the drafter returns,
    subject and body are those of the template of the communication type;
    for a type outside the four the body is the status update's and the
    subject is the fixed "Loan Update"; the priority is "high" exactly for
    document requests and exception notices and "normal" otherwise.  The
    drafter returns whenever the two templates that can fail, the document
    request and the funding notice, are rendered. *)
Theorem draft_follows_template :
  forall (now : clock) (ctype recipient_name : string) (ctx : dict),
    (forall r, _run repr_of now ctype recipient_name ctx = Ok r ->
       (priority r = "high" <->
          ctype = "document_request" \/ ctype = "exception_notice") /\
       (priority r = "normal" <->
          ~ (ctype = "document_request" \/ ctype = "exception_notice")) /\
       (ctype = "document_request" ->
          (exists t, document_request recipient_name ctx = Ok t /\ body r = strip t) /\
          subject r = "Action Required: Documents Needed for Loan #"
                      ++ py_str repr_of (get_default ctx "loan_id" (JStr ""))) /\
       (ctype = "status_update" ->
          body r = strip (status_update repr_of recipient_name ctx) /\
          subject r = "Loan Status Update - #"
                      ++ py_str repr_of (get_default ctx "loan_id" (JStr ""))) /\
       (ctype = "funding_notice" ->
          (exists t, funding_notice repr_of recipient_name ctx = Ok t /\
                     body r = strip t) /\
          subject r = "Congratulations! Your Loan is Ready for Funding") /\
       (ctype = "exception_notice" ->
          body r = strip (exception_notice repr_of recipient_name ctx) /\
          subject r = "Action Required: Issue with Your Loan Application") /\
       (known_type ctype = false ->
          body r = strip (status_update repr_of recipient_name ctx) /\
          subject r = "Loan Update")) /\
    (is_ok (document_request recipient_name ctx) = true ->
     is_ok (funding_notice repr_of recipient_name ctx) = true ->
     exists r, _run repr_of now ctype recipient_name ctx = Ok r).
Proof.
  intros now ctype recipient_name ctx. unfold _run. split.
  - intros r.
    destruct (document_request recipient_name ctx) as [t1|]; [|discriminate].
    destruct (funding_notice repr_of recipient_name ctx) as [t3|]; [|discriminate].
    cbn [bind]. intros H. apply Ok_inj in H. subst r. cbn [priority body subject].
    destruct (priority_cases ctype) as [Hhigh Hnormal]. cbv zeta in Hhigh, Hnormal.
    split; [exact Hhigh|]. split; [exact Hnormal|].
    split; [|split; [|split; [|split]]]; try (intros ->; split; eauto; reflexivity).
    unfold known_type, in_strs, subjects, existsb. unfold lookup.
    rewrite !(String.eqb_sym _ ctype).
    destruct (String.eqb ctype "document_request"); [discriminate|].
    destruct (String.eqb ctype "status_update"); [discriminate|].
    destruct (String.eqb ctype "funding_notice"); [discriminate|].
    destruct (String.eqb ctype "exception_notice"); [discriminate|].
    intros _. split; reflexivity.
  - destruct (document_request recipient_name ctx) as [t1|]; [|discriminate].
    destruct (funding_notice repr_of recipient_name ctx) as [t3|]; [|discriminate].
    cbn [bind]. eauto.
Qed.

End CommunicationDrafts.

Section CommunicationDraftSamples.
Import Datetime CommunicationDrafter.
Local Open Scope string_scope.

Lemma draft_follows_template_witness :
  exists r,
    _run (fun _ => "") (fun _ => mk_datetime 2024 4 1 9 30 0 0)
      "exception_notice" "Ada" [("issue_description", JStr "Pay stub is unreadable")]
    = Ok r /\
    priority r = "high" /\
    subject r = "Action Required: Issue with Your Loan Application".
Proof.
  destruct (draft_follows_template (fun _ => "")
              (fun _ => mk_datetime 2024 4 1 9 30 0 0)
              "exception_notice" "Ada"
              [("issue_description", JStr "Pay stub is unreadable")])
    as [H1 H2].
  destruct (H2 eq_refl eq_refl) as [r Hr]. exists r. split; [exact Hr|].
  destruct (H1 r Hr) as (Hp & _ & _ & _ & _ & He & _).
  split; [apply Hp; auto|apply He; reflexivity].
Defined.

(** For a type outside the four the subject is not the one of a status
    update, although the body is. *)
Lemma unknown_type_subject_is_not_status_update :
  let run ctype :=
    _run (fun _ => "") (fun _ => mk_datetime 2024 4 1 9 30 0 0) ctype "Ada" [] in
  exists r r',
    run "reminder" = Ok r /\ run "status_update" = Ok r' /\
    body r = body r' /\
    subject r = "Loan Update" /\
    subject r' = "Loan Status Update - #" /\
    subject r <> subject r'.
Proof.
  intros run. do 2 eexists.
  split; [reflexivity|]. split; [reflexivity|]. split; [reflexivity|].
  split; [reflexivity|]. split; [reflexivity|]. discriminate.
Qed.

End CommunicationDraftSamples.

(** ** Floating-point arithmetic: rounding keeps the order *)

Section FloatArithmetic.
Import Float.
Local Open Scope Z_scope.


Lemma div_nearest_even_cases a b :
  0 < b ->
  let q := a / b in let r := a mod b in
  a = b * q + r /\ 0 <= r < b /\
  ((2 * r < b /\ div_nearest_even a b = q) \/
   (2 * r > b /\ div_nearest_even a b = q + 1) \/
   (2 * r = b /\ div_nearest_even a b = (if Z.even q then q else q + 1))).
Proof.
  intros Hb q r. unfold div_nearest_even. fold q r.
  split; [apply Z.div_mod; lia|]. split; [apply Z.mod_pos_bound; lia|].
  destruct (Z.compare_spec (2 * r) b); [right; right|left|right; left]; split; auto; lia.
Qed.

Lemma div_floor_mono a1 b1 a2 b2 :
  0 < b1 -> 0 < b2 -> a1 * b2 <= a2 * b1 -> a1 / b1 <= a2 / b2.
Proof.
  intros H1 H2 H.
  apply Z.div_le_lower_bound; [lia|].
  pose proof (Z.mul_div_le a1 b1 H1).
  nia.
Qed.

Lemma div_nearest_even_mono a1 b1 a2 b2 :
  0 < b1 -> 0 < b2 -> a1 * b2 <= a2 * b1 ->
  div_nearest_even a1 b1 <= div_nearest_even a2 b2.
Proof.
  intros H1 H2 H.
  pose proof (div_floor_mono _ _ _ _ H1 H2 H) as Hq.
  destruct (div_nearest_even_cases a1 b1 H1) as (E1 & R1 & C1).
  destruct (div_nearest_even_cases a2 b2 H2) as (E2 & R2 & C2).
  set (q1 := a1 / b1) in *. set (r1 := a1 mod b1) in *.
  set (q2 := a2 / b2) in *. set (r2 := a2 mod b2) in *.
  destruct (Z.eq_dec q1 q2) as [Eq|Nq].
  - assert (Hr : r1 * b2 <= r2 * b1) by nia.
    destruct (Z.even q1) eqn:Ev1; rewrite Eq in *; rewrite ?Ev1 in *;
      destruct C1 as [[? ->]|[[? ->]|[? ->]]];
      destruct C2 as [[? ->]|[[? ->]|[? ->]]]; try lia; nia.
  - destruct (Z.even q1); destruct (Z.even q2);
      destruct C1 as [[? ->]|[[? ->]|[? ->]]];
      destruct C2 as [[? ->]|[[? ->]|[? ->]]]; lia.
Qed.

Lemma div_nearest_even_exact m b : 0 < b -> div_nearest_even (m * b) b = m.
Proof.
  intros Hb. unfold div_nearest_even.
  rewrite Z.mod_mul, Z.div_mul by lia.
  destruct (Z.compare_spec (2 * 0) b); lia.
Qed.

Lemma div_nearest_even_scale a b c :
  0 < b -> 0 < c -> div_nearest_even (a * c) (b * c) = div_nearest_even a b.
Proof.
  intros Hb Hc. unfold div_nearest_even.
  rewrite Z.div_mul_cancel_r by lia.
  rewrite Zmult_mod_distr_r.
  replace (2 * (a mod b * c)) with ((2 * (a mod b)) * c) by ring.
  rewrite <- Zmult_compare_compat_r by lia. reflexivity.
Qed.

Lemma div_nearest_even_ge m a b : 0 < b -> m * b <= a -> m <= div_nearest_even a b.
Proof.
  intros Hb H. rewrite <- (div_nearest_even_exact m b Hb).
  apply div_nearest_even_mono; nia.
Qed.

Lemma div_nearest_even_le m a b : 0 < b -> a <= m * b -> div_nearest_even a b <= m.
Proof.
  intros Hb H.
  apply Z.le_trans with (div_nearest_even (m * b) b);
    [apply div_nearest_even_mono; nia|rewrite div_nearest_even_exact; lia].
Qed.

Lemma shift_of_nonneg n d : 0 <= shift_of n d.
Proof. unfold shift_of. lia. Qed.

Lemma shift_of_upper n d :
  0 < n -> 0 < d -> n < d * 2 ^ (shift_of n d + prec).
Proof.
  intros Hn Hd. unfold shift_of.
  assert (Hq : 0 <= n / d) by (apply Z.div_pos; lia).
  assert (Hlt : n / d < 2 ^ (Z.log2 (n / d) + 1)).
  { destruct (Z.eq_dec (n / d) 0) as [->|Hz]; [reflexivity|].
    replace (Z.log2 (n / d) + 1) with (Z.succ (Z.log2 (n / d))) by lia.
    apply Z.log2_spec. lia. }
  assert (Hle : 2 ^ (Z.log2 (n / d) + 1) <=
                2 ^ (Z.max 0 (Z.log2 (n / d) + 1 - prec) + prec)).
  { apply Z.pow_le_mono_r; [lia|]. unfold prec. lia. }
  assert (Hn' : n < d * (n / d + 1)).
  { pose proof (Z.mod_pos_bound n d Hd). pose proof (Z.div_mod n d). nia. }
  nia.
Qed.

Lemma shift_of_lower n d :
  0 < n -> 0 < d -> 0 < shift_of n d ->
  d * 2 ^ (shift_of n d + prec - 1) <= n.
Proof.
  intros Hn Hd. unfold shift_of. intros Hs.
  assert (Hq : 0 < n / d).
  { destruct (Z.eq_dec (n / d) 0) as [E|E].
    - rewrite E in Hs. simpl in Hs. unfold prec in Hs. lia.
    - pose proof (Z.div_pos n d). lia. }
  replace (Z.max 0 (Z.log2 (n / d) + 1 - prec) + prec - 1) with (Z.log2 (n / d)) by lia.
  pose proof (Z.log2_spec (n / d) Hq) as [Hl _].
  pose proof (Z.mul_div_le n d Hd). nia.
Qed.

Lemma shift_of_mono n1 d1 n2 d2 :
  0 < d1 -> 0 < d2 -> n1 * d2 <= n2 * d1 -> shift_of n1 d1 <= shift_of n2 d2.
Proof.
  intros H1 H2 H. unfold shift_of.
  pose proof (div_floor_mono _ _ _ _ H1 H2 H).
  pose proof (Z.log2_le_mono (n1 / d1) (n2 / d2)). lia.
Qed.

Lemma mantissa_of_upper n d :
  0 < n -> 0 < d -> 0 <= mantissa_of n d <= 2 ^ prec.
Proof.
  intros Hn Hd. unfold mantissa_of.
  pose proof (shift_of_nonneg n d) as Hs.
  assert (Hp : 0 < 2 ^ shift_of n d) by (apply Z.pow_pos_nonneg; lia).
  split.
  - apply div_nearest_even_ge; nia.
  - apply div_nearest_even_le; [nia|].
    pose proof (shift_of_upper n d Hn Hd) as Hu.
    rewrite Z.pow_add_r in Hu by (unfold prec; lia). nia.
Qed.

Lemma mantissa_of_lower n d :
  0 < n -> 0 < d -> 0 < shift_of n d -> 2 ^ (prec - 1) <= mantissa_of n d.
Proof.
  intros Hn Hd Hs. unfold mantissa_of.
  assert (Hp : 0 < 2 ^ shift_of n d) by (apply Z.pow_pos_nonneg; lia).
  apply div_nearest_even_ge; [nia|].
  pose proof (shift_of_lower n d Hn Hd Hs) as Hl.
  replace (shift_of n d + prec - 1) with (shift_of n d + (prec - 1)) in Hl by lia.
  rewrite Z.pow_add_r in Hl by (unfold prec; lia). nia.
Qed.

Lemma mantissa_of_mono n1 d1 n2 d2 :
  0 < d1 -> 0 < d2 -> n1 * d2 <= n2 * d1 -> shift_of n1 d1 = shift_of n2 d2 ->
  mantissa_of n1 d1 <= mantissa_of n2 d2.
Proof.
  intros H1 H2 H E. unfold mantissa_of. rewrite E.
  assert (Hp : 0 < 2 ^ shift_of n2 d2)
    by (apply Z.pow_pos_nonneg; [lia|apply shift_of_nonneg]).
  apply div_nearest_even_mono; nia.
Qed.

Lemma carry_bounds n d :
  0 < n -> 0 < d ->
  let ms := carry (mantissa_of n d) (shift_of n d) in
  0 <= fst ms < 2 ^ prec /\ 0 <= snd ms /\
  (0 < snd ms -> 2 ^ (prec - 1) <= fst ms).
Proof.
  intros Hn Hd. unfold carry.
  pose proof (mantissa_of_upper n d Hn Hd) as Hu.
  pose proof (shift_of_nonneg n d) as Hs.
  pose proof (mantissa_of_lower n d Hn Hd) as Hl.
  assert (Hpow : 2 ^ (prec - 1) < 2 ^ prec) by (apply Z.pow_lt_mono_r; unfold prec; lia).
  assert (Hpos : 0 < 2 ^ (prec - 1)) by (apply Z.pow_pos_nonneg; unfold prec; lia).
  destruct (Z.eqb_spec (mantissa_of n d) (2 ^ prec)); cbn [fst snd]; lia.
Qed.

Lemma carry_lex n1 d1 n2 d2 :
  0 < n1 -> 0 < d1 -> 0 < n2 -> 0 < d2 -> n1 * d2 <= n2 * d1 ->
  let ms1 := carry (mantissa_of n1 d1) (shift_of n1 d1) in
  let ms2 := carry (mantissa_of n2 d2) (shift_of n2 d2) in
  snd ms1 < snd ms2 \/ (snd ms1 = snd ms2 /\ fst ms1 <= fst ms2).
Proof.
  intros Hn1 Hd1 Hn2 Hd2 H. unfold carry.
  pose proof (shift_of_mono _ _ _ _ Hd1 Hd2 H) as Hs.
  pose proof (mantissa_of_upper n1 d1 Hn1 Hd1) as Hu1.
  pose proof (mantissa_of_upper n2 d2 Hn2 Hd2) as Hu2.
  pose proof (mantissa_of_lower n2 d2 Hn2 Hd2) as Hl2.
  pose proof (shift_of_nonneg n1 d1) as Hs1.
  pose proof (mantissa_of_mono _ _ _ _ Hd1 Hd2 H) as Hm.
  assert (Hpow : 2 ^ (prec - 1) < 2 ^ prec) by (apply Z.pow_lt_mono_r; unfold prec; lia).
  destruct (Z.eqb_spec (mantissa_of n1 d1) (2 ^ prec));
    destruct (Z.eqb_spec (mantissa_of n2 d2) (2 ^ prec)); cbn [fst snd]; lia.
Qed.

Lemma leb_pack_false m1 s1 m2 s2 :
  0 <= m1 -> (s1 < s2 /\ 0 < m2) \/ (s1 = s2 /\ m1 <= m2) ->
  SFleb (pack false (m1, s1)) (pack false (m2, s2)) = true.
Proof.
  intros H1 H. unfold pack, SFleb, SFcompare. cbn [fst snd].
  destruct m1 as [|p1|p1]; destruct m2 as [|p2|p2]; try lia; try reflexivity;
    repeat match goal with
           | |- context [?a <=? ?b] => destruct (Z.leb_spec a b)
           end; try reflexivity; try lia.
  - destruct (Z.compare_spec (s1 + emin) (s2 + emin)); try reflexivity; try lia.
    assert (Hp : (p1 <= p2)%positive) by lia.
    unfold Pos.le in Hp. fold (Pos.compare p1 p2).
    destruct (Pos.compare p1 p2); try reflexivity. contradiction.
Qed.

Lemma leb_pack_true m1 s1 m2 s2 :
  0 <= m1 -> (s1 < s2 /\ 0 < m2) \/ (s1 = s2 /\ m1 <= m2) ->
  SFleb (pack true (m2, s2)) (pack true (m1, s1)) = true.
Proof.
  intros H1 H. unfold pack, SFleb, SFcompare. cbn [fst snd].
  destruct m1 as [|p1|p1]; destruct m2 as [|p2|p2]; try lia; try reflexivity;
    repeat match goal with
           | |- context [?a <=? ?b] => destruct (Z.leb_spec a b)
           end; try reflexivity; try lia.
  - destruct (Z.compare_spec (s2 + emin) (s1 + emin)); try reflexivity; try lia.
    assert (Hp : (p1 <= p2)%positive) by lia.
    fold (Pos.compare p2 p1). rewrite Pos.compare_antisym.
    unfold Pos.le in Hp.
    destruct (Pos.compare p1 p2); try reflexivity. contradiction.
Qed.

(** Rounding keeps the order of the exact values. *)
Lemma round_units_mono n1 d1 n2 d2 :
  0 < d1 -> 0 < d2 -> n1 * d2 <= n2 * d1 ->
  SFleb (round_units false n1 d1) (round_units false n2 d2) = true /\
  SFleb (round_units true n2 d2) (round_units true n1 d1) = true.
Proof.
  intros Hd1 Hd2 H. unfold round_units.
  destruct (Z.leb_spec n1 0) as [Hn1|Hn1].
  - destruct (Z.leb_spec n2 0) as [Hn2|Hn2]; [split; reflexivity|].
    destruct (carry_bounds n2 d2 Hn2 Hd2) as (Hb & _ & _).
    destruct (carry _ _) as [m2 s2]. cbn [fst snd] in Hb.
    unfold pack, SFleb, SFcompare. cbn [fst snd].
    destruct m2; try lia; try (split; reflexivity).
    destruct (_ <=? _); split; reflexivity.
  - assert (Hn2 : 0 < n2) by nia.
    destruct (Z.leb_spec n2 0) as [Hn2'|_]; [lia|].
    pose proof (carry_lex _ _ _ _ Hn1 Hd1 Hn2 Hd2 H) as Hlex.
    destruct (carry_bounds n1 d1 Hn1 Hd1) as (Hb1 & Hs1 & Hl1).
    destruct (carry_bounds n2 d2 Hn2 Hd2) as (Hb2 & Hs2 & Hl2).
    cbv zeta in *.
    destruct (carry (mantissa_of n1 d1) (shift_of n1 d1)) as [m1 s1].
    destruct (carry (mantissa_of n2 d2) (shift_of n2 d2)) as [m2 s2].
    cbn [fst snd] in *.
    assert (Hpos : 0 < 2 ^ (prec - 1)) by (apply Z.pow_pos_nonneg; unfold prec; lia).
    split; [apply leb_pack_false|apply leb_pack_true]; lia.
Qed.

Lemma digits2_pos_log2 p : Zpos (digits2_pos p) = Z.log2 (Zpos p) + 1.
Proof.
  assert (H : forall q, digits2_pos q = Pos.size q).
  { induction q; simpl; congruence. }
  rewrite H. destruct p; simpl; lia.
Qed.

Lemma fexp_eq x : fexp prec emax x = Z.max (x - prec) emin.
Proof. reflexivity. Qed.

Lemma log2_bounds m k :
  0 < m -> (Z.log2 m + 1 <= k <-> m < 2 ^ k) .
Proof.
  intros Hm. split; intros H.
  - destruct (Z.log2_spec m Hm) as [_ Hu].
    apply Z.lt_le_trans with (2 ^ Z.succ (Z.log2 m)); [assumption|].
    apply Z.pow_le_mono_r; lia.
  - destruct (Z_lt_le_dec k (Z.log2 m + 1)) as [Hlt|]; [|lia].
    destruct (Z.log2_spec m Hm) as [Hl _].
    assert (0 <= k \/ k < 0) as [Hk|Hk] by lia.
    + assert (2 ^ k <= 2 ^ Z.log2 m) by (apply Z.pow_le_mono_r; lia). lia.
    + rewrite Z.pow_neg_r in H by lia. lia.
Qed.

Lemma valid_bounds s m e :
  valid (S754_finite s m e) = true ->
  emin <= e <= emax - prec /\ Zpos m < 2 ^ prec /\
  (emin < e -> 2 ^ (prec - 1) <= Zpos m) /\
  Z.max 0 (Z.log2 (Zpos m) + 1 + (e - emin) - prec) = e - emin.
Proof.
  unfold valid, valid_binary, bounded, canonical_mantissa.
  rewrite andb_true_iff, Z.eqb_eq, Z.leb_le, fexp_eq, digits2_pos_log2.
  intros [Hc He].
  assert (Hm : 0 < Zpos m) by lia.
  assert (Hl : Z.log2 (Zpos m) + 1 <= prec) by lia.
  split; [lia|]. split; [apply log2_bounds; assumption|]. split; [|lia].
  intros Hlt.
  assert (Hd : Z.log2 (Zpos m) = prec - 1) by lia.
  rewrite <- Hd. apply Z.log2_spec. lia.
Qed.

(** A finite number is the nearest one to its own value. *)
Lemma round_units_exact s m e :
  valid (S754_finite s m e) = true ->
  round_units s (Zpos m * 2 ^ (e - emin)) 1 = S754_finite s m e.
Proof.
  intros Hv. destruct (valid_bounds s m e Hv) as ((He1 & He2) & Hm & _ & Hs).
  assert (Hp : 0 < 2 ^ (e - emin)) by (apply Z.pow_pos_nonneg; lia).
  unfold round_units.
  destruct (Z.leb_spec (Zpos m * 2 ^ (e - emin)) 0) as [H0|_]; [nia|].
  assert (Hshift : shift_of (Zpos m * 2 ^ (e - emin)) 1 = e - emin).
  { unfold shift_of. rewrite Z.div_1_r, Z.log2_mul_pow2 by lia. rewrite <- Hs at 2.
    f_equal. lia. }
  assert (Hmant : mantissa_of (Zpos m * 2 ^ (e - emin)) 1 = Zpos m).
  { unfold mantissa_of. rewrite Hshift, Z.mul_1_l.
    apply div_nearest_even_exact. assumption. }
  rewrite Hshift, Hmant. unfold carry.
  destruct (Z.eqb_spec (Zpos m) (2 ^ prec)) as [E|_]; [lia|].
  unfold pack. cbn [fst snd].
  replace (e - emin + emin) with e by lia.
  destruct (Z.leb_spec e (emax - prec)); [reflexivity|lia].
Qed.

Lemma canonical_lt m1 e1 m2 e2 :
  emin <= e1 -> m1 < 2 ^ prec -> 2 ^ (prec - 1) <= m2 -> e1 < e2 ->
  m1 * 2 ^ (e1 - emin) < m2 * 2 ^ (e2 - emin).
Proof.
  intros He1 Hm1 Hm2 He.
  assert (Hp1 : 0 < 2 ^ (e1 - emin)) by (apply Z.pow_pos_nonneg; lia).
  assert (Hpp : 2 ^ prec = 2 * 2 ^ (prec - 1)).
  { replace prec with (Z.succ (prec - 1)) at 1 by lia.
    rewrite Z.pow_succ_r by (unfold prec; lia). reflexivity. }
  assert (Hp2 : 2 * 2 ^ (e1 - emin) <= 2 ^ (e2 - emin)).
  { replace (2 * 2 ^ (e1 - emin)) with (2 ^ (Z.succ (e1 - emin)))
      by (rewrite Z.pow_succ_r by lia; reflexivity).
    apply Z.pow_le_mono_r; lia. }
  assert (Hq : 0 < 2 ^ (prec - 1)) by (apply Z.pow_pos_nonneg; unfold prec; lia).
  nia.
Qed.

Lemma compare_units x y :
  valid x = true -> valid y = true -> is_finite x = true -> is_finite y = true ->
  SFcompare x y = Some (units_of x ?= units_of y).
Proof.
  intros Hx Hy Fx Fy.
  destruct x as [sx| | |sx mx ex]; try discriminate;
    destruct y as [sy| | |sy my ey]; try discriminate.
  - reflexivity.
  - destruct (valid_bounds _ _ _ Hy) as ((He1 & _) & _).
    assert (Hp : 0 < 2 ^ (ey - emin)) by (apply Z.pow_pos_nonneg; lia).
    unfold units_of, SFcompare. f_equal. symmetry.
    destruct sy; [apply Z.compare_gt_iff|apply Z.compare_lt_iff]; nia.
  - destruct (valid_bounds _ _ _ Hx) as ((He1 & _) & _).
    assert (Hp : 0 < 2 ^ (ex - emin)) by (apply Z.pow_pos_nonneg; lia).
    unfold units_of, SFcompare. f_equal. symmetry.
    destruct sx; [apply Z.compare_lt_iff|apply Z.compare_gt_iff]; nia.
  - destruct (valid_bounds _ _ _ Hx) as ((Hx1 & _) & Hx2 & Hx3 & _).
    destruct (valid_bounds _ _ _ Hy) as ((Hy1 & _) & Hy2 & Hy3 & _).
    assert (Hpx : 0 < 2 ^ (ex - emin)) by (apply Z.pow_pos_nonneg; lia).
    assert (Hpy : 0 < 2 ^ (ey - emin)) by (apply Z.pow_pos_nonneg; lia).
    unfold units_of, SFcompare. f_equal. symmetry.
    destruct sx, sy.
    + destruct (Z.compare_spec ex ey) as [E|E|E].
      * subst ey. fold (Pos.compare mx my). rewrite <- Pos.compare_antisym.
        change (Pos.compare my mx) with (Zpos my ?= Zpos mx).
        destruct (Z.compare_spec (Zpos my) (Zpos mx));
          [apply Z.compare_eq_iff|apply Z.compare_lt_iff|apply Z.compare_gt_iff]; nia.
      * apply Z.compare_gt_iff.
        pose proof (canonical_lt (Zpos mx) ex (Zpos my) ey). lia.
      * apply Z.compare_lt_iff.
        pose proof (canonical_lt (Zpos my) ey (Zpos mx) ex). lia.
    + apply Z.compare_lt_iff. nia.
    + apply Z.compare_gt_iff. nia.
    + destruct (Z.compare_spec ex ey) as [E|E|E].
      * subst ey. fold (Pos.compare mx my).
        change (Pos.compare mx my) with (Zpos mx ?= Zpos my).
        destruct (Z.compare_spec (Zpos mx) (Zpos my));
          [apply Z.compare_eq_iff|apply Z.compare_lt_iff|apply Z.compare_gt_iff]; nia.
      * apply Z.compare_lt_iff.
        pose proof (canonical_lt (Zpos mx) ex (Zpos my) ey). lia.
      * apply Z.compare_gt_iff.
        pose proof (canonical_lt (Zpos my) ey (Zpos mx) ex). lia.
Qed.

Lemma leb_units x y :
  valid x = true -> valid y = true -> is_finite x = true -> is_finite y = true ->
  (SFleb x y = true <-> units_of x <= units_of y).
Proof.
  intros Hx Hy Fx Fy. unfold SFleb. rewrite (compare_units x y) by assumption.
  destruct (Z.compare_spec (units_of x) (units_of y)); split; intros; try lia;
    try reflexivity; discriminate.
Qed.

Lemma round_units_valid s n d :
  0 < d -> valid (round_units s n d) = true /\ is_nan (round_units s n d) = false.
Proof.
  intros Hd. unfold round_units.
  destruct (Z.leb_spec n 0) as [Hn|Hn]; [split; reflexivity|].
  destruct (carry_bounds n d Hn Hd) as ((Hm0 & Hm1) & Hs & Hl).
  destruct (carry _ _) as [m sh]. cbn [fst snd] in *.
  unfold pack. cbn [fst snd].
  destruct m as [|p|p]; [split; reflexivity| |lia].
  destruct (Z.leb_spec (sh + emin) (emax - prec)) as [He|He]; [|split; reflexivity].
  split; [|reflexivity].
  unfold valid, valid_binary, bounded, canonical_mantissa.
  rewrite andb_true_iff, Z.eqb_eq, Z.leb_le, fexp_eq, digits2_pos_log2.
  split; [|assumption].
  assert (Hp : 0 < Zpos p) by lia.
  assert (Hu : Z.log2 (Zpos p) + 1 <= prec) by (apply log2_bounds; lia).
  destruct (Z.eq_dec sh 0) as [->|Hsh]; [lia|].
  assert (Hlow : prec - 1 <= Z.log2 (Zpos p)).
  { apply Z.log2_le_pow2; [lia|]. apply Hl. lia. }
  lia.
Qed.

Lemma iter_pos_nat {A} (f : A -> A) p x :
  iter_pos f p x = Nat.iter (Pos.to_nat p) f x.
Proof.
  revert x. induction p as [p IH|p IH|]; intros x; cbn [iter_pos].
  - rewrite !IH, Pos2Nat.inj_xI.
    replace (S (2 * Pos.to_nat p))%nat with (Pos.to_nat p + S (Pos.to_nat p))%nat by lia.
    rewrite Nat.iter_add, Nat.iter_succ_r. reflexivity.
  - rewrite !IH, Pos2Nat.inj_xO.
    replace (2 * Pos.to_nat p)%nat with (Pos.to_nat p + Pos.to_nat p)%nat by lia.
    rewrite Nat.iter_add. reflexivity.
  - reflexivity.
Qed.

Lemma shr_1_spec m r s :
  0 <= m ->
  shr_1 {| shr_m := m; shr_r := r; shr_s := s |} =
    {| shr_m := m / 2; shr_r := Z.odd m; shr_s := r || s |}.
Proof.
  intros Hm. unfold shr_1.
  destruct m as [|p|p]; [reflexivity| |lia].
  destruct p as [p|p|].
  - f_equal. apply Z.div_unique with 1; lia.
  - f_equal. apply Z.div_unique with 0; lia.
  - reflexivity.
Qed.

(** The record after [k+1] shifts of [m]. *)
Lemma shr_iter k m :
  0 <= m ->
  Nat.iter (S k) shr_1 {| shr_m := m; shr_r := false; shr_s := false |} =
    {| shr_m := m / 2 ^ (Z.of_nat k + 1);
       shr_r := Z.odd (m / 2 ^ Z.of_nat k);
       shr_s := negb (m mod 2 ^ Z.of_nat k =? 0) |}.
Proof.
  intros Hm. induction k as [|k IH].
  - unfold Nat.iter; cbn [nat_rect]. rewrite shr_1_spec by assumption. simpl Z.of_nat.
    rewrite Z.pow_0_r, Z.div_1_r, Z.mod_1_r. reflexivity.
  - change (Nat.iter (S (S k)) shr_1 ?x) with (shr_1 (Nat.iter (S k) shr_1 x)).
    rewrite IH.
    assert (Hp : 0 < 2 ^ Z.of_nat k) by (apply Z.pow_pos_nonneg; lia).
    rewrite shr_1_spec by (apply Z.div_pos; [lia|apply Z.pow_pos_nonneg; lia]).
    rewrite Nat2Z.inj_succ.
    replace (Z.succ (Z.of_nat k)) with (Z.of_nat k + 1) by lia.
    f_equal.
    + rewrite Z.div_div by lia. f_equal.
      rewrite (Z.pow_add_r 2 (Z.of_nat k + 1) 1) by lia. reflexivity.
    + rewrite (Z.pow_add_r 2 (Z.of_nat k) 1), Z.pow_1_r by lia.
      rewrite Z.rem_mul_r by lia.
      rewrite Zodd_mod.
      destruct (Z.eqb_spec (m mod 2 ^ Z.of_nat k) 0) as [E|E];
        destruct (Z.eqb_spec ((m / 2 ^ Z.of_nat k) mod 2) 1) as [E'|E'];
        pose proof (Z.mod_pos_bound (m / 2 ^ Z.of_nat k) 2);
        pose proof (Z.mod_pos_bound m (2 ^ Z.of_nat k));
        simpl; symmetry; rewrite ?negb_true_iff, ?negb_false_iff, ?Z.eqb_neq, ?Z.eqb_eq;
        nia.
Qed.

Lemma round_shr k m :
  0 <= m ->
  let mrs := Nat.iter (S k) shr_1 {| shr_m := m; shr_r := false; shr_s := false |} in
  round_nearest_even (shr_m mrs) (loc_of_shr_record mrs) =
    div_nearest_even m (2 ^ (Z.of_nat k + 1)).
Proof.
  intros Hm mrs. unfold mrs. rewrite shr_iter by assumption.
  unfold loc_of_shr_record, round_nearest_even, div_nearest_even. cbn [shr_m].
  assert (Hp : 0 < 2 ^ Z.of_nat k) by (apply Z.pow_pos_nonneg; lia).
  rewrite (Z.pow_add_r 2 (Z.of_nat k) 1), Z.pow_1_r by lia.
  rewrite Z.rem_mul_r by lia.
  rewrite Zodd_mod.
  pose proof (Z.mod_pos_bound (m / 2 ^ Z.of_nat k) 2).
  pose proof (Z.mod_pos_bound m (2 ^ Z.of_nat k)).
  destruct (Z.eqb_spec (m mod 2 ^ Z.of_nat k) 0) as [E|E];
    destruct (Z.eqb_spec ((m / 2 ^ Z.of_nat k) mod 2) 1) as [E'|E']; cbn [negb];
    match goal with
    | |- context [?a ?= ?b] => destruct (Z.compare_spec a b)
    end; try reflexivity; nia.
Qed.

Lemma round_stage mz ez :
  0 < mz ->
  let n := Z.max (Z.log2 mz + 1 + ez - prec) emin - ez in
  round_nearest_even (shr_m (fst (shr_fexp prec emax mz ez loc_Exact)))
    (loc_of_shr_record (fst (shr_fexp prec emax mz ez loc_Exact))) =
    div_nearest_even mz (2 ^ Z.max 0 n) /\
  snd (shr_fexp prec emax mz ez loc_Exact) = ez + Z.max 0 n.
Proof.
  intros Hm n. unfold shr_fexp, shr. rewrite fexp_eq.
  destruct mz as [|p|p]; try lia.
  cbn [Zdigits2]. rewrite digits2_pos_log2. fold n.
  cbn [shr_record_of_loc].
  destruct n as [|q|q] eqn:En; cbn [fst snd].
  - cbn [round_nearest_even loc_of_shr_record shr_m]. split; [|lia].
    change (Z.max 0 0) with 0. rewrite Z.pow_0_r.
    rewrite <- (Z.mul_1_r (Zpos p)) at 2. rewrite div_nearest_even_exact; lia.
  - rewrite iter_pos_nat.
    destruct (Pos.to_nat q) as [|k] eqn:Ek; [lia|].
    rewrite round_shr by lia.
    replace (Z.max 0 (Zpos q)) with (Z.of_nat k + 1) by lia.
    split; [reflexivity|lia].
  - cbn [round_nearest_even loc_of_shr_record shr_m]. split; [|lia].
    replace (Z.max 0 (Zneg q)) with 0 by lia. rewrite Z.pow_0_r.
    rewrite <- (Z.mul_1_r (Zpos p)) at 2. rewrite div_nearest_even_exact; lia.
Qed.

Lemma shl_align_spec m e e' :
  let d := Z.max 0 (e - e') in
  Zpos (fst (shl_align m e e')) = Zpos m * 2 ^ d /\
  snd (shl_align m e e') = e - d.
Proof.
  unfold shl_align.
  destruct (e' - e) as [|q|q] eqn:E; cbn [fst snd].
  - replace (Z.max 0 (e - e')) with 0 by lia. rewrite Z.pow_0_r. lia.
  - replace (Z.max 0 (e - e')) with 0 by lia. rewrite Z.pow_0_r. lia.
  - replace (Z.max 0 (e - e')) with (Zpos q) by lia.
    split; [|lia].
    change (Pos.iter xO m q) with (shift_pos q m).
    rewrite shift_pos_correct. change (Z.pow_pos 2 q) with (2 ^ Zpos q). lia.
Qed.

(** Rounding a mantissa and an exponent, as the additions and the
    subtractions do, gives the number nearest to the exact value. *)
Lemma binary_round_units s m e :
  emin <= e ->
  binary_round prec emax s m e = round_units s (Zpos m * 2 ^ (e - emin)) 1.
Proof.
  intros He.
  set (dg := Z.log2 (Zpos m) + 1).
  set (E := Z.max (dg + e - prec) emin).
  assert (Hdg : 0 < dg) by (pose proof (Z.log2_nonneg (Zpos m)); lia).
  assert (HE : emin <= E) by lia.
  assert (Hpe : 0 < 2 ^ (e - emin)) by (apply Z.pow_pos_nonneg; lia).
  (* the right-hand side *)
  assert (Hshift : shift_of (Zpos m * 2 ^ (e - emin)) 1 = E - emin).
  { unfold shift_of. rewrite Z.div_1_r, Z.log2_mul_pow2 by lia. fold dg. lia. }
  (* the left-hand side, first stage *)
  unfold binary_round. rewrite fexp_eq, digits2_pos_log2. fold dg E.
  destruct (shl_align_spec m e E) as [Hmz Hez].
  destruct (shl_align m e E) as [mz ez]. cbn [fst snd] in Hmz, Hez.
  set (d := Z.max 0 (e - E)) in *.
  assert (Hpd : 0 < 2 ^ d) by (apply Z.pow_pos_nonneg; lia).
  assert (Hlog : Z.log2 (Zpos mz) + 1 + ez = dg + e).
  { rewrite Hmz, Z.log2_mul_pow2 by lia. fold dg. lia. }
  unfold binary_round_aux.
  destruct (round_stage (Zpos mz) ez ltac:(lia)) as [Hr He'].
  rewrite Hlog in Hr, He'. fold E in Hr, He'.
  destruct (shr_fexp prec emax (Zpos mz) ez loc_Exact) as [mrs e'].
  cbn [fst snd] in Hr, He'. rewrite Hr, He'. clear Hr He' mrs e'.
  set (n := Z.max 0 (E - ez)).
  assert (Hen : ez + n = E) by lia.
  assert (Hpn : 0 < 2 ^ n) by (apply Z.pow_pos_nonneg; lia).
  assert (Hmant : div_nearest_even (Zpos mz) (2 ^ n) =
                  mantissa_of (Zpos m * 2 ^ (e - emin)) 1).
  { unfold mantissa_of. rewrite Hshift, Z.mul_1_l, Hmz.
    assert (Hpz : 0 < 2 ^ (ez - emin)) by (apply Z.pow_pos_nonneg; lia).
    rewrite <- (div_nearest_even_scale (Zpos m * 2 ^ d) (2 ^ n) (2 ^ (ez - emin)))
      by lia.
    f_equal.
    - rewrite <- Z.mul_assoc, <- Z.pow_add_r by lia. do 2 f_equal. lia.
    - rewrite <- Z.pow_add_r by lia. f_equal. lia. }
  rewrite Hmant, Hen.
  (* the second stage against the carry *)
  unfold round_units.
  destruct (Z.leb_spec (Zpos m * 2 ^ (e - emin)) 0) as [H0|Hn0]; [nia|].
  pose proof (mantissa_of_upper _ 1 Hn0 ltac:(lia)) as [Hm0 Hm1].
  pose proof (mantissa_of_lower _ 1 Hn0 ltac:(lia)) as Hml.
  rewrite Hshift in *.
  set (m1 := mantissa_of (Zpos m * 2 ^ (e - emin)) 1) in *.
  assert (Hm1pos : 0 < m1).
  { destruct (Z.eq_dec E emin) as [Eq|Neq].
    - assert (n = 0) by lia. assert (Hd0 : ez = emin) by lia.
      rewrite <- Hmant. replace n with 0 by lia.
      rewrite Z.pow_0_r. rewrite <- (Z.mul_1_r (Zpos mz)).
      rewrite div_nearest_even_exact; lia.
    - assert (0 < 2 ^ (prec - 1)) by (apply Z.pow_pos_nonneg; unfold prec; lia).
      lia. }
  destruct (round_stage m1 E Hm1pos) as [Hr2 He2].
  unfold carry.
  destruct (Z.eqb_spec m1 (2 ^ prec)) as [Ec|Nc].
  - (* one more shift *)
    rewrite Ec in Hr2, He2 |- *.
    rewrite Z.log2_pow2 in Hr2, He2 by (unfold prec; lia).
    replace (Z.max 0 (Z.max (prec + 1 + E - prec) emin - E)) with 1 in Hr2, He2 by lia.
    revert Hr2 He2. unfold shr_fexp, shr. rewrite fexp_eq.
    change (Zdigits2 (2 ^ prec)) with (prec + 1).
    replace (Z.max (prec + 1 + E - prec) emin - E) with 1 by lia.
    cbn [fst snd iter_pos shr_record_of_loc]. intros _ _.
    unfold pack. cbn [fst snd].
    replace (E - emin + 1 + emin) with (E + 1) by lia.
    reflexivity.
  - (* no shift *)
    assert (Hlt : m1 < 2 ^ prec) by lia.
    assert (Hl1 : Z.log2 m1 + 1 <= prec) by (apply log2_bounds; lia).
    revert Hr2 He2. unfold shr_fexp, shr. rewrite fexp_eq.
    destruct m1 as [|p1|p1]; try lia. cbn [Zdigits2]. rewrite digits2_pos_log2.
    assert (Hz : Z.max (Z.log2 (Zpos p1) + 1 + E - prec) emin - E <= 0) by lia.
    destruct (Z.max (Z.log2 (Zpos p1) + 1 + E - prec) emin - E) as [|q|q]; try lia;
      cbn [fst snd shr_record_of_loc shr_m]; intros _ _;
      unfold pack; cbn [fst snd];
      replace (E - emin + emin) with E by lia; reflexivity.
Qed.

Lemma leb_unsign x y : SFleb x y = SFleb (unsign x) (unsign y).
Proof. destruct x as [[]| | |]; destruct y as [[]| | |]; reflexivity. Qed.

Lemma unsign_valid x y :
  unsign x = unsign y -> valid y = true /\ is_nan y = false ->
  valid x = true /\ is_nan x = false.
Proof.
  destruct x as [[]| | |]; destruct y as [[]| | |]; simpl; intros E H;
    try discriminate; try (split; reflexivity); try (injection E as -> -> ->; exact H);
    try (injection E as ->; exact H); exact H.
Qed.

Lemma round_units_sign s n d : has_sign s (round_units s n d).
Proof.
  unfold round_units, pack.
  destruct (n <=? 0); [exact I|].
  destruct (fst _); try exact I.
  destruct (_ <=? _); reflexivity.
Qed.

Lemma leb_signs x y : has_sign true x -> has_sign false y -> SFleb x y = true.
Proof.
  destruct x as [[]|[]| |[] ? ?]; destruct y as [[]|[]| |[] ? ?]; simpl;
    intros Hx Hy; try discriminate; try contradiction; reflexivity.
Qed.

Lemma of_units_valid n : valid (of_units n) = true /\ is_nan (of_units n) = false.
Proof.
  unfold of_units. destruct (n =? 0); [split; reflexivity|].
  apply round_units_valid. lia.
Qed.

Lemma of_units_mono n1 n2 :
  n1 <= n2 -> SFleb (of_units n1) (of_units n2) = true.
Proof.
  intros H. unfold of_units.
  destruct (Z.eqb_spec n1 0) as [E1|E1]; destruct (Z.eqb_spec n2 0) as [E2|E2].
  - reflexivity.
  - destruct (Z.ltb_spec n2 0); [lia|].
    change (S754_zero false) with (round_units false 0 1).
    apply round_units_mono; lia.
  - destruct (Z.ltb_spec n1 0); [|lia].
    rewrite leb_unsign. change (unsign (S754_zero false)) with (unsign (S754_zero true)).
    rewrite <- leb_unsign.
    change (S754_zero true) with (round_units true 0 1).
    apply round_units_mono; lia.
  - destruct (Z.ltb_spec n1 0); destruct (Z.ltb_spec n2 0); try lia.
    + apply round_units_mono; lia.
    + apply leb_signs; apply round_units_sign.
    + apply round_units_mono; lia.
Qed.

Lemma of_units_exact x :
  valid x = true -> is_finite x = true -> unsign (of_units (units_of x)) = unsign x.
Proof.
  intros Hv Hf. destruct x as [s| | |s m e]; try discriminate; [reflexivity|].
  destruct (valid_bounds _ _ _ Hv) as ((He & _) & _).
  assert (Hp : 0 < 2 ^ (e - emin)) by (apply Z.pow_pos_nonneg; lia).
  unfold of_units, units_of.
  destruct (Z.eqb_spec ((if s then -1 else 1) * (Zpos m * 2 ^ (e - emin))) 0) as [E|E];
    [destruct s; nia|].
  f_equal.
  destruct s.
  - destruct (Z.ltb_spec (-1 * (Zpos m * 2 ^ (e - emin))) 0); [|nia].
    replace (Z.abs (-1 * (Zpos m * 2 ^ (e - emin)))) with (Zpos m * 2 ^ (e - emin)) by nia.
    apply round_units_exact, Hv.
  - destruct (Z.ltb_spec (1 * (Zpos m * 2 ^ (e - emin))) 0); [nia|].
    replace (Z.abs (1 * (Zpos m * 2 ^ (e - emin)))) with (Zpos m * 2 ^ (e - emin)) by nia.
    apply round_units_exact, Hv.
Qed.

Lemma valid_opp s m e :
  valid (S754_finite s m e) = true -> valid (S754_finite (negb s) m e) = true.
Proof. exact (fun H => H). Qed.

(** A subtraction returns the number nearest to the exact difference. *)
Lemma sub_units x y :
  valid x = true -> valid y = true -> is_finite x = true -> is_finite y = true ->
  unsign (sub x y) = unsign (of_units (units_of x - units_of y)).
Proof.
  intros Hx Hy Fx Fy.
  destruct x as [sx| | |sx mx ex]; try discriminate;
    destruct y as [sy| | |sy my ey]; try discriminate.
  - destruct sx, sy; reflexivity.
  - change (sub (S754_zero sx) (S754_finite sy my ey)) with (S754_finite (negb sy) my ey).
    rewrite <- (of_units_exact (S754_finite (negb sy) my ey)) by (auto using valid_opp).
    do 2 f_equal. unfold units_of. destruct sy; simpl negb; cbv iota; lia.
  - change (sub (S754_finite sx mx ex) (S754_zero sy)) with (S754_finite sx mx ex).
    rewrite <- (of_units_exact (S754_finite sx mx ex)) by auto.
    do 2 f_equal. unfold units_of. lia.
  - destruct (valid_bounds _ _ _ Hx) as ((Hex & _) & _).
    destruct (valid_bounds _ _ _ Hy) as ((Hey & _) & _).
    unfold sub, SFsub.
    set (ez := Z.min ex ey).
    destruct (shl_align_spec mx ex ez) as [Hmx _].
    destruct (shl_align_spec my ey ez) as [Hmy _].
    replace (Z.max 0 (ex - ez)) with (ex - ez) in Hmx by lia.
    replace (Z.max 0 (ey - ez)) with (ey - ez) in Hmy by lia.
    set (M := cond_Zopp sx (Zpos (fst (shl_align mx ex ez)))
              - cond_Zopp sy (Zpos (fst (shl_align my ey ez)))).
    assert (HM : units_of (S754_finite sx mx ex) - units_of (S754_finite sy my ey)
                 = M * 2 ^ (ez - emin)).
    { unfold M, units_of. rewrite Hmx, Hmy.
      replace (ex - emin) with ((ex - ez) + (ez - emin)) by lia.
      replace (ey - emin) with ((ey - ez) + (ez - emin)) by lia.
      rewrite !Z.pow_add_r by lia.
      destruct sx, sy; unfold cond_Zopp; ring. }
    rewrite HM.
    assert (Hp : 0 < 2 ^ (ez - emin)) by (apply Z.pow_pos_nonneg; lia).
    unfold binary_normalize, of_units.
    destruct M as [|p|p].
    + reflexivity.
    + destruct (Z.eqb_spec (Zpos p * 2 ^ (ez - emin)) 0); [nia|].
      destruct (Z.ltb_spec (Zpos p * 2 ^ (ez - emin)) 0); [nia|].
      rewrite binary_round_units by lia.
      replace (Z.abs (Zpos p * 2 ^ (ez - emin))) with (Zpos p * 2 ^ (ez - emin)) by nia.
      reflexivity.
    + destruct (Z.eqb_spec (Zneg p * 2 ^ (ez - emin)) 0); [nia|].
      destruct (Z.ltb_spec (Zneg p * 2 ^ (ez - emin)) 0); [|nia].
      rewrite binary_round_units by lia.
      replace (Z.abs (Zneg p * 2 ^ (ez - emin))) with (Zpos p * 2 ^ (ez - emin)) by nia.
      reflexivity.
Qed.

Lemma sub_valid x y :
  valid x = true -> valid y = true -> is_finite x = true -> is_finite y = true ->
  valid (sub x y) = true /\ is_nan (sub x y) = false.
Proof.
  intros Hx Hy Fx Fy.
  apply (unsign_valid _ _ (sub_units x y Hx Hy Fx Fy)), of_units_valid.
Qed.

(** Subtraction grows with its first operand and falls with its second. *)
Lemma sub_mono x1 y1 x2 y2 :
  valid x1 = true -> valid y1 = true -> is_finite x1 = true -> is_finite y1 = true ->
  valid x2 = true -> valid y2 = true -> is_finite x2 = true -> is_finite y2 = true ->
  SFleb x1 x2 = true -> SFleb y2 y1 = true ->
  SFleb (sub x1 y1) (sub x2 y2) = true.
Proof.
  intros Hx1 Hy1 Fx1 Fy1 Hx2 Hy2 Fx2 Fy2 Hx Hy.
  apply leb_units in Hx; try assumption.
  apply leb_units in Hy; try assumption.
  rewrite leb_unsign, !sub_units, <- leb_unsign by assumption.
  apply of_units_mono. lia.
Qed.

Lemma leb_neg_infinity x : is_nan x = false -> SFleb (S754_infinity true) x = true.
Proof. destruct x as [?|[]| |? ? ?]; simpl; intros; try discriminate; reflexivity. Qed.

Lemma leb_pos_infinity x : is_nan x = false -> SFleb x (S754_infinity false) = true.
Proof. destruct x as [?|[]| |? ? ?]; simpl; intros; try discriminate; reflexivity. Qed.

(** Subtracting a finite number keeps the order, infinities included. *)
Lemma sub_mono_left x1 x2 p :
  valid x1 = true -> valid x2 = true -> is_nan x1 = false -> is_nan x2 = false ->
  valid p = true -> is_finite p = true ->
  SFleb x1 x2 = true -> SFleb (sub x1 p) (sub x2 p) = true.
Proof.
  intros H1 H2 N1 N2 Hp Fp H.
  assert (Hleb : SFleb p p = true).
  { apply leb_units; auto. lia. }
  destruct (is_finite x1) eqn:F1; destruct (is_finite x2) eqn:F2.
  - apply sub_mono; assumption.
  - destruct x2 as [?|s2| |? ? ?]; try discriminate.
    assert (s2 = false) as ->.
    { destruct s2; [|reflexivity]. destruct x1 as [?|[]| |[] ? ?]; discriminate. }
    replace (sub (S754_infinity false) p) with (S754_infinity false)
      by (destruct p as [?|?| |? ? ?]; try discriminate; reflexivity).
    apply leb_pos_infinity, sub_valid; assumption.
  - destruct x1 as [?|s1| |? ? ?]; try discriminate.
    assert (s1 = true) as ->.
    { destruct s1; [reflexivity|]. destruct x2 as [?|[]| |[] ? ?]; discriminate. }
    replace (sub (S754_infinity true) p) with (S754_infinity true)
      by (destruct p as [?|?| |? ? ?]; try discriminate; reflexivity).
    apply leb_neg_infinity, sub_valid; assumption.
  - destruct x1 as [?|s1| |? ? ?]; try discriminate.
    destruct x2 as [?|s2| |? ? ?]; try discriminate.
    replace (sub (S754_infinity s1) p) with (S754_infinity s1)
      by (destruct p as [?|?| |? ? ?]; try discriminate; reflexivity).
    replace (sub (S754_infinity s2) p) with (S754_infinity s2)
      by (destruct p as [?|?| |? ? ?]; try discriminate; reflexivity).
    exact H.
Qed.

Lemma sub_valid_left x p :
  valid x = true -> is_nan x = false -> valid p = true -> is_finite p = true ->
  valid (sub x p) = true /\ is_nan (sub x p) = false.
Proof.
  intros Hx Nx Hp Fp. destruct (is_finite x) eqn:Fx.
  - apply sub_valid; assumption.
  - destruct x as [?|s| |? ? ?]; try discriminate.
    destruct p as [?|?| |? ? ?]; try discriminate; split; reflexivity.
Qed.

Lemma round2_units s m e :
  emin <= e ->
  round2 (S754_finite s m e) =
    round_units s (hundredths (Zpos m * 2 ^ (e - emin)) * 2 ^ (- emin)) 100.
Proof.
  intros He. unfold round2, nearest, hundredths.
  apply (f_equal (fun k => round_units s (k * 2 ^ (- emin)) 100)).
  unfold shl.
  assert (H1 : 0 < 2 ^ (e - emin)) by (apply Z.pow_pos_nonneg; lia).
  assert (H2 : 0 < 2 ^ (- emin)) by (apply Z.pow_pos_nonneg; unfold emin, emax, prec; lia).
  destruct (Z_le_dec 0 e) as [Hpos|Hneg].
  - replace (Z.max 0 e) with e by lia. replace (Z.max 0 (- e)) with 0 by lia.
    rewrite Z.pow_0_r, Z.mul_1_l.
    rewrite <- (div_nearest_even_scale (100 * Zpos m * 2 ^ e) 1 (2 ^ (- emin))) by lia.
    f_equal; try lia.
    replace (e - emin) with (e + - emin) by lia.
    rewrite Z.pow_add_r by (unfold emin, emax, prec; lia). ring.
  - replace (Z.max 0 e) with 0 by lia. replace (Z.max 0 (- e)) with (- e) by lia.
    rewrite Z.pow_0_r, Z.mul_1_r, Z.mul_1_l.
    rewrite <- (div_nearest_even_scale (100 * Zpos m) (2 ^ (- e)) (2 ^ (e - emin))) by
      (try apply Z.pow_pos_nonneg; lia).
    f_equal; try ring.
    rewrite <- Z.pow_add_r by lia. f_equal. lia.
Qed.

Lemma round2_valid x :
  valid x = true -> is_nan x = false ->
  valid (round2 x) = true /\ is_nan (round2 x) = false.
Proof.
  intros Hx Nx. destruct x as [?|?| |s m e]; try discriminate; try (split; reflexivity).
  unfold round2, nearest. apply round_units_valid. lia.
Qed.

Lemma hundredths_mono u1 u2 : u1 <= u2 -> hundredths u1 <= hundredths u2.
Proof.
  intros H. unfold hundredths.
  assert (H2 : 0 < 2 ^ (- emin)) by (apply Z.pow_pos_nonneg; unfold emin, emax, prec; lia).
  apply div_nearest_even_mono; nia.
Qed.

(** The order of the numbers is transitive. *)
Lemma leb_trans x y z :
  valid x = true -> valid y = true -> valid z = true ->
  is_nan x = false -> is_nan y = false -> is_nan z = false ->
  SFleb x y = true -> SFleb y z = true -> SFleb x z = true.
Proof.
  intros Vx Vy Vz Nx Ny Nz Hxy Hyz.
  destruct (is_finite x && is_finite y && is_finite z) eqn:F.
  - rewrite !andb_true_iff in F. destruct F as [[Fx Fy] Fz].
    apply leb_units in Hxy; auto. apply leb_units in Hyz; auto.
    apply leb_units; auto. lia.
  - clear Vx Vy Vz.
    destruct x as [sx|[]| |[] mx ex]; destruct y as [sy|[]| |[] my ey];
      destruct z as [sz|[]| |[] mz ez];
      try discriminate F; try discriminate Hxy; try discriminate Hyz; reflexivity.
Qed.

(** Rounding to two decimal places keeps the order. *)
Lemma round2_mono x1 x2 :
  valid x1 = true -> valid x2 = true -> is_nan x1 = false -> is_nan x2 = false ->
  SFleb x1 x2 = true -> SFleb (round2 x1) (round2 x2) = true.
Proof.
  intros H1 H2 N1 N2 H.
  assert (H2p : 0 < 2 ^ (- emin)) by (apply Z.pow_pos_nonneg; unfold emin, emax, prec; lia).
  assert (Hneg : forall x, valid x = true -> is_nan x = false ->
            SFleb (round2 (S754_infinity true)) (round2 x) = true).
  { intros x Hx Nx. apply leb_neg_infinity, round2_valid; assumption. }
  assert (Hpos : forall x, valid x = true -> is_nan x = false ->
            SFleb (round2 x) (round2 (S754_infinity false)) = true).
  { intros x Hx Nx. apply leb_pos_infinity, round2_valid; assumption. }
  destruct x1 as [s1|[]| |s1 m1 e1]; try discriminate;
    destruct x2 as [s2|[]| |s2 m2 e2]; try discriminate;
    try exact H; try (apply Hneg; assumption); try (apply Hpos; assumption);
    try (destruct s1; discriminate); try (destruct s2; discriminate).
  - (* zero, finite *)
    destruct s2; [discriminate|].
    destruct (valid_bounds _ _ _ H2) as ((He & _) & _).
    rewrite round2_units by assumption.
    generalize (round_units_sign false
      (hundredths (Zpos m2 * 2 ^ (e2 - emin)) * 2 ^ (- emin)) 100).
    cbn [round2].
    destruct (round_units _ _ _) as [?|[]| |[] ? ?]; destruct s1; simpl; intros;
      try discriminate; try contradiction; reflexivity.
  - (* finite, zero *)
    destruct s1; [|discriminate].
    destruct (valid_bounds _ _ _ H1) as ((He & _) & _).
    rewrite round2_units by assumption.
    generalize (round_units_sign true
      (hundredths (Zpos m1 * 2 ^ (e1 - emin)) * 2 ^ (- emin)) 100).
    cbn [round2].
    destruct (round_units _ _ _) as [?|[]| |[] ? ?]; destruct s2; simpl; intros;
      try discriminate; try contradiction; reflexivity.
  - (* finite, finite *)
    destruct (valid_bounds _ _ _ H1) as ((He1 & _) & _).
    destruct (valid_bounds _ _ _ H2) as ((He2 & _) & _).
    assert (Hp1 : 0 < 2 ^ (e1 - emin)) by (apply Z.pow_pos_nonneg; lia).
    assert (Hp2 : 0 < 2 ^ (e2 - emin)) by (apply Z.pow_pos_nonneg; lia).
    apply leb_units in H; try assumption; try reflexivity.
    unfold units_of in H.
    rewrite !round2_units by assumption.
    destruct s1, s2.
    + apply round_units_mono; try lia.
      pose proof (hundredths_mono (Zpos m2 * 2 ^ (e2 - emin)) (Zpos m1 * 2 ^ (e1 - emin))).
      nia.
    + apply leb_signs; apply round_units_sign.
    + nia.
    + apply round_units_mono; try lia.
      pose proof (hundredths_mono (Zpos m1 * 2 ^ (e1 - emin)) (Zpos m2 * 2 ^ (e2 - emin))).
      nia.
Qed.


End FloatArithmetic.

(** ** The funding computation *)

Section FundingComputation.
Import Datetime Float FundingCalculator.
Local Open Scope string_scope.

Lemma leb_refl_finite x :
  valid x = true -> is_finite x = true -> SFleb x x = true.
Proof. intros Hv Hf. apply leb_units; auto. lia. Qed.

(** Lower fees and lower prepaid interest never lower the disbursement. *)
Lemma net_of_mono a f1 f2 p1 p2 :
  valid a = true -> is_finite a = true ->
  valid f1 = true -> is_finite f1 = true ->
  valid f2 = true -> is_finite f2 = true ->
  valid p1 = true -> is_finite p1 = true ->
  valid p2 = true -> is_finite p2 = true ->
  leb f1 f2 = true -> leb p1 p2 = true ->
  exists n1 n2,
    net_of a (JFloat f1) p1 = Ok (JFloat n1) /\
    net_of a (JFloat f2) p2 = Ok (JFloat n2) /\
    leb n2 n1 = true.
Proof.
  intros Ha Fa Hf1 Ff1 Hf2 Ff2 Hp1 Fp1 Hp2 Fp2 Hf Hp.
  exists (round2 (sub (sub a f1) p1)), (round2 (sub (sub a f2) p2)).
  split; [reflexivity|]. split; [reflexivity|].
  destruct (sub_valid a f1 Ha Hf1 Fa Ff1) as [V1 N1].
  destruct (sub_valid a f2 Ha Hf2 Fa Ff2) as [V2 N2].
  assert (Hs : SFleb (sub a f2) (sub a f1) = true).
  { apply sub_mono; auto. apply leb_refl_finite; assumption. }
  destruct (sub_valid_left (sub a f1) p1 V1 N1 Hp1 Fp1) as [V1' N1'].
  destruct (sub_valid_left (sub a f2) p2 V2 N2 Hp2 Fp2) as [V2' N2'].
  destruct (sub_valid_left (sub a f2) p1 V2 N2 Hp1 Fp1) as [V3' N3'].
  unfold leb. apply round2_mono; auto.
  (* first the prepaid interest, then the fees *)
  assert (Hstep1 : SFleb (sub (sub a f2) p2) (sub (sub a f2) p1) = true).
  { destruct (is_finite (sub a f2)) eqn:F2.
    - apply sub_mono; auto. apply leb_refl_finite; assumption.
    - destruct (sub a f2) as [?|s| |? ? ?]; try discriminate.
      destruct p1 as [?|?| |? ? ?]; try discriminate;
        destruct p2 as [?|?| |? ? ?]; try discriminate; destruct s; reflexivity. }
  assert (Hstep2 : SFleb (sub (sub a f2) p1) (sub (sub a f1) p1) = true).
  { apply sub_mono_left; auto. }
  (* the order is transitive on numbers that are not NaN *)
  revert Hstep1 Hstep2 V1' V2' V3' N1' N2' N3'.
  generalize (sub (sub a f2) p2) (sub (sub a f2) p1) (sub (sub a f1) p1).
  intros x y z Hxy Hyz Vz Vx Vy Nz Nx Ny.
  apply (leb_trans x y z); assumption.
Qed.

Lemma run_formulas now loan_amount interest_rate loan_type fee_data r :
  _run now loan_amount interest_rate loan_type fee_data = Ok r ->
  exists total,
    py_sum (map snd (fee_breakdown r)) = Ok total /\
    py_round2 total = Ok (total_fees r) /\
    prepaid_interest r =
      round2 (mul (daily_interest loan_amount interest_rate) (literal 15 1)) /\
    net_of loan_amount total
      (mul (daily_interest loan_amount interest_rate) (literal 15 1))
      = Ok (net_disbursement r) /\
    funding_method r =
      (if ltb (literal 50000 1) loan_amount then "wire" else "ach").
Proof.
  unfold _run, net_of, prepaid_days.
  destruct (py_sum _) as [total|] eqn:Es; [|discriminate]. cbn [bind].
  destruct (py_sub (JFloat loan_amount) total) as [nd|] eqn:En; [|discriminate].
  cbn [bind].
  destruct (py_round2 total) as [rf|] eqn:Er; [|discriminate]. cbn [bind].
  destruct (py_sub nd _) as [net|] eqn:En'; [|discriminate]. cbn [bind].
  destruct (py_round2 net) as [rn|] eqn:Er'; [|discriminate]. cbn [bind].
  destruct (add_days _ _) as [fd|]; [|discriminate]. cbn [bind].
  intros H. apply Ok_inj in H. subst r.
  cbn [fee_breakdown total_fees prepaid_interest net_disbursement funding_method].
  exists total.
  split; [exact Es|]. split; [exact Er|]. split; [reflexivity|].
  split; [|reflexivity].
  rewrite En. cbn [bind]. rewrite En'. cbn [bind]. exact Er'.
Qed.

Lemma sum_standard_fees x (ints : list Z) :
  forallb (fun n => is_ok (of_int n)) (0%Z :: ints) = true ->
  exists total, py_sum (JFloat x :: map JInt ints) = Ok (JFloat total).
Proof.
  cbn [forallb]. rewrite andb_true_iff. intros [H0 H].
  unfold py_sum. cbn [py_sum_from py_add binop number_of bind].
  destruct (of_int 0) as [z|]; [|discriminate]. cbn [bind].
  generalize (add z x). clear H0.
  induction ints as [|n ints IH]; intros acc; cbn [map py_sum_from].
  - eauto.
  - cbn [forallb] in H. rewrite andb_true_iff in H. destruct H as [Hn H].
    unfold py_add at 1. cbn [binop number_of bind].
    destruct (of_int n); [|discriminate]. cbn [bind]. apply IH, H.
Qed.

(** Without fee overrides the calculator returns for every amount, rate
    and type, as long as the funding date exists. *)
Lemma run_returns now loan_amount interest_rate loan_type :
  is_ok (add_days (now 0%nat) 2) = true ->
  exists r, _run now loan_amount interest_rate loan_type [] = Ok r.
Proof.
  intros Hdate. unfold _run, update. cbn zeta. cbn [fold_left].
  match goal with
  | |- context [py_sum ?values] =>
      assert (Hsum : exists total, py_sum values = Ok (JFloat total))
  end.
  { unfold standard_fees, lookup.
    destruct (String.eqb "mortgage" loan_type);
      [|destruct (String.eqb "personal" loan_type);
        [|destruct (String.eqb "auto" loan_type);
          [|destruct (String.eqb "business" loan_type)]]].
    - apply (sum_standard_fees _ [500; 1200; 150]%Z). vm_compute. reflexivity.
    - apply (sum_standard_fees _ [100]%Z). vm_compute. reflexivity.
    - apply (sum_standard_fees _ [75]%Z). vm_compute. reflexivity.
    - apply (sum_standard_fees _ [500; 200]%Z). vm_compute. reflexivity.
    - apply (sum_standard_fees _ [100]%Z). vm_compute. reflexivity. }
  destruct Hsum as [total ->]. cbn [bind py_sub binop number_of py_round2].
  destruct (add_days (now 0%nat) 2); [|discriminate]. cbn [bind]. eauto.
Qed.

(** C3.  Whenever the calculator returns: the daily interest is
    [amount * (rate / 100) / 365] and the prepaid interest fifteen times
    that, reported to two decimals; the net disbursement is the amount less
    the summed fees less the prepaid interest, rounded to two decimals; the
    funding method is "wire" exactly when the amount exceeds 50000 and
    "ach" otherwise.  With the amount fixed, the net disbursement never
    grows when the total fees or the prepaid interest grow.  For the amount
    100000, the rate 6.0 and the type "personal" the origination fee is
    2000, the processing fee 100, the total 2100, the daily interest
    16.438356164383563, the prepaid interest 246.58, the net disbursement
    97653.42 and the method "wire".  Without fee overrides the calculator
    returns for every amount, rate and type. *)
Theorem funding_net_disbursement :
  forall (now : clock) (loan_amount interest_rate : float64) (loan_type : string)
         (fee_data : dict),
    (is_ok (add_days (now 0%nat) 2) = true ->
     exists r, _run now loan_amount interest_rate loan_type [] = Ok r) /\
    (forall r, _run now loan_amount interest_rate loan_type fee_data = Ok r ->
       daily_interest loan_amount interest_rate =
         div (mul loan_amount (div interest_rate (literal 100 1))) (literal 365 1) /\
       (exists total,
          py_sum (map snd (fee_breakdown r)) = Ok total /\
          py_round2 total = Ok (total_fees r) /\
          prepaid_interest r =
            round2 (mul (daily_interest loan_amount interest_rate) (literal 15 1)) /\
          net_of loan_amount total
            (mul (daily_interest loan_amount interest_rate) (literal 15 1))
            = Ok (net_disbursement r)) /\
       (funding_method r = "wire" <-> ltb (literal 50000 1) loan_amount = true) /\
       (funding_method r = "ach" <-> ltb (literal 50000 1) loan_amount = false)) /\
    (forall f1 f2 p1 p2,
       valid loan_amount = true -> is_finite loan_amount = true ->
       valid f1 = true -> is_finite f1 = true ->
       valid f2 = true -> is_finite f2 = true ->
       valid p1 = true -> is_finite p1 = true ->
       valid p2 = true -> is_finite p2 = true ->
       leb f1 f2 = true -> leb p1 p2 = true ->
       exists n1 n2,
         net_of loan_amount (JFloat f1) p1 = Ok (JFloat n1) /\
         net_of loan_amount (JFloat f2) p2 = Ok (JFloat n2) /\
         leb n2 n1 = true) /\
    (is_ok (add_days (now 0%nat) 2) = true ->
     exists r,
       _run now (literal 100000 1) (literal 6 1) "personal" [] = Ok r /\
       fee_breakdown r =
         [ ("origination_fee", JFloat (literal 2000 1)); ("processing_fee", JInt 100) ] /\
       total_fees r = JFloat (literal 2100 1) /\
       daily_interest (literal 100000 1) (literal 6 1) =
         literal 16438356164383563 1000000000000000 /\
       prepaid_interest r = literal 24658 100 /\
       net_disbursement r = JFloat (literal 9765342 100) /\
       funding_method r = "wire").
Proof.
  intros now loan_amount interest_rate loan_type fee_data.
  split; [apply run_returns|]. split; [|split].
  - intros r Hr.
    destruct (run_formulas _ _ _ _ _ _ Hr) as (total & H1 & H2 & H3 & H4 & H5).
    split; [reflexivity|]. split; [exists total; auto|].
    rewrite H5.
    destruct (ltb _ _); split; split; intros; try reflexivity; discriminate.
  - intros f1 f2 p1 p2. apply net_of_mono.
  - intros Hdate. unfold _run.
    destruct (add_days (now 0%nat) 2) as [fd|]; [|discriminate].
    eexists. split; [vm_compute; reflexivity|].
    repeat split; vm_compute; reflexivity.
Qed.

Lemma funding_net_disbursement_witness :
  let now : clock := fun _ => mk_datetime 2024 4 1 9 30 0 0 in
  (exists r,
     _run now (literal 100000 1) (literal 6 1) "personal" [] = Ok r /\
     net_disbursement r = JFloat (literal 9765342 100) /\
     estimated_funding_date r = "2024-04-03") /\
  (exists n1 n2,
     net_of (literal 100000 1) (JFloat (literal 2100 1)) (literal 24658 100)
       = Ok (JFloat n1) /\
     net_of (literal 100000 1) (JFloat (literal 2600 1)) (literal 24658 100)
       = Ok (JFloat n2) /\
     leb n2 n1 = true).
Proof.
  intros now.
  destruct (funding_net_disbursement now (literal 100000 1) (literal 6 1)
              "personal" []) as (_ & H1 & H2 & H3).
  split.
  - destruct (H3 eq_refl) as (r & Hr & _ & _ & _ & _ & Hn & _).
    exists r. split; [exact Hr|]. split; [exact Hn|].
    vm_compute in Hr. apply Ok_inj in Hr. subst r. reflexivity.
  - apply H2; reflexivity.
Defined.

End FundingComputation.

(** ** Two runs at different times *)

Section TwoRuns.
Import Datetime.
Local Open Scope string_scope.

Lemma verifier_same_day now1 now2 name data :
  DocumentVerifier.date_sensitive name = false \/
  truthy (get data "document_date") = false \/
  (time_ok (now1 0%nat) = true /\ time_ok (now2 0%nat) = true /\
   toordinal (now1 0%nat) = toordinal (now2 0%nat)) ->
  map_result DocumentVerifier.timeless (DocumentVerifier._run now1 name data) =
  map_result DocumentVerifier.timeless (DocumentVerifier._run now2 name data).
Proof.
  intros H. unfold DocumentVerifier._run, DocumentVerifier.check_expiration.
  destruct (DocumentVerifier.date_sensitive name); [|reflexivity].
  destruct (truthy (get data "document_date")); [|reflexivity].
  destruct H as [H|[H|(T1 & T2 & Hd)]]; try discriminate.
  destruct (strptime (get data "document_date")) as [d|] eqn:E; [|reflexivity].
  cbn [bind].
  assert (Hm : hour d = 0%Z /\ minute d = 0%Z /\ second d = 0%Z /\ microsecond d = 0%Z).
  { unfold strptime in E. destruct (get data "document_date"); try discriminate.
    apply (strptime_ymd_midnight _ _ E). }
  destruct Hm as (Hh & Hmi & Hs & Hu).
  rewrite (days_sub_midnight (now1 0%nat) d T1 Hh Hmi Hs Hu).
  rewrite (days_sub_midnight (now2 0%nat) d T2 Hh Hmi Hs Hu).
  rewrite Hd. destruct (_ <? _)%Z; reflexivity.
Qed.

Lemma timeless_results (l : list (string * ComplianceValidator.check_result)) :
  let erase := fun kv : string * ComplianceValidator.check_result =>
    (fst kv,
     ComplianceValidator.mk_check_result
       (ComplianceValidator.check_name (snd kv))
       (ComplianceValidator.passed (snd kv))
       (ComplianceValidator.findings (snd kv)) "") in
  forallb (fun kv => truthy (ComplianceValidator.passed (snd kv))) l =
    forallb (fun kv => truthy (ComplianceValidator.passed (snd kv))) (map erase l) /\
  map fst (filter (fun kv => negb (truthy (ComplianceValidator.passed (snd kv)))) l) =
    map fst (filter (fun kv => negb (truthy (ComplianceValidator.passed (snd kv))))
               (map erase l)).
Proof.
  intros erase. induction l as [|[k c] l [IH1 IH2]]; [split; reflexivity|].
  cbn [map forallb filter fst snd ComplianceValidator.passed erase].
  rewrite IH1. split; [reflexivity|].
  destruct (truthy (ComplianceValidator.passed c)); cbn [negb map fst];
    rewrite IH2; reflexivity.
Qed.

Lemma compliance_any_time now1 now2 loan_id data :
  ComplianceValidator.timeless (ComplianceValidator._run now1 loan_id data) =
  ComplianceValidator.timeless (ComplianceValidator._run now2 loan_id data).
Proof.
  assert (R : map (fun kv : string * ComplianceValidator.check_result =>
                     (fst kv,
                      ComplianceValidator.mk_check_result
                        (ComplianceValidator.check_name (snd kv))
                        (ComplianceValidator.passed (snd kv))
                        (ComplianceValidator.findings (snd kv)) ""))
                  (ComplianceValidator.results
                     (ComplianceValidator._run now1 loan_id data)) =
              map (fun kv : string * ComplianceValidator.check_result =>
                     (fst kv,
                      ComplianceValidator.mk_check_result
                        (ComplianceValidator.check_name (snd kv))
                        (ComplianceValidator.passed (snd kv))
                        (ComplianceValidator.findings (snd kv)) ""))
                  (ComplianceValidator.results
                     (ComplianceValidator._run now2 loan_id data))).
  { rewrite !results_unfold. reflexivity. }
  destruct (timeless_results
              (ComplianceValidator.results (ComplianceValidator._run now1 loan_id data)))
    as [P1 F1].
  destruct (timeless_results
              (ComplianceValidator.results (ComplianceValidator._run now2 loan_id data)))
    as [P2 F2].
  cbv zeta in P1, F1, P2, F2.
  unfold ComplianceValidator.timeless.
  change (ComplianceValidator.compliance_passed
            (ComplianceValidator._run now1 loan_id data))
    with (forallb (fun kv => truthy (ComplianceValidator.passed (snd kv)))
            (ComplianceValidator.results (ComplianceValidator._run now1 loan_id data))).
  change (ComplianceValidator.compliance_passed
            (ComplianceValidator._run now2 loan_id data))
    with (forallb (fun kv => truthy (ComplianceValidator.passed (snd kv)))
            (ComplianceValidator.results (ComplianceValidator._run now2 loan_id data))).
  change (ComplianceValidator.failed_checks
            (ComplianceValidator._run now1 loan_id data))
    with (map fst (filter (fun kv => negb (truthy (ComplianceValidator.passed (snd kv))))
            (ComplianceValidator.results (ComplianceValidator._run now1 loan_id data)))).
  change (ComplianceValidator.failed_checks
            (ComplianceValidator._run now2 loan_id data))
    with (map fst (filter (fun kv => negb (truthy (ComplianceValidator.passed (snd kv))))
            (ComplianceValidator.results (ComplianceValidator._run now2 loan_id data)))).
  change (ComplianceValidator.passed_checks
            (ComplianceValidator._run now1 loan_id data))
    with (7 - Z.of_nat (List.length
            (map fst (filter (fun kv => negb (truthy (ComplianceValidator.passed (snd kv))))
               (ComplianceValidator.results
                  (ComplianceValidator._run now1 loan_id data))))))%Z.
  change (ComplianceValidator.passed_checks
            (ComplianceValidator._run now2 loan_id data))
    with (7 - Z.of_nat (List.length
            (map fst (filter (fun kv => negb (truthy (ComplianceValidator.passed (snd kv))))
               (ComplianceValidator.results
                  (ComplianceValidator._run now2 loan_id data))))))%Z.
  change (ComplianceValidator.recommendation
            (ComplianceValidator._run now1 loan_id data))
    with (if forallb (fun kv => truthy (ComplianceValidator.passed (snd kv)))
               (ComplianceValidator.results (ComplianceValidator._run now1 loan_id data))
          then "CLEARED" else "REQUIRES_REMEDIATION").
  change (ComplianceValidator.recommendation
            (ComplianceValidator._run now2 loan_id data))
    with (if forallb (fun kv => truthy (ComplianceValidator.passed (snd kv)))
               (ComplianceValidator.results (ComplianceValidator._run now2 loan_id data))
          then "CLEARED" else "REQUIRES_REMEDIATION").
  rewrite P1, P2, F1, F2, R. reflexivity.
Qed.

Lemma funding_any_time now1 now2 loan_amount interest_rate loan_type fee_data :
  is_ok (add_days (now1 0%nat) 2) = true ->
  is_ok (add_days (now2 0%nat) 2) = true ->
  map_result FundingCalculator.timeless
    (FundingCalculator._run now1 loan_amount interest_rate loan_type fee_data) =
  map_result FundingCalculator.timeless
    (FundingCalculator._run now2 loan_amount interest_rate loan_type fee_data).
Proof.
  intros H1 H2. unfold FundingCalculator._run.
  destruct (Float.py_sum _) as [total|]; [|reflexivity]. cbn [bind].
  destruct (Float.py_sub _ total) as [nd|]; [|reflexivity]. cbn [bind].
  destruct (Float.py_round2 total) as [rf|]; [|reflexivity]. cbn [bind].
  destruct (Float.py_sub nd _) as [net|]; [|reflexivity]. cbn [bind].
  destruct (Float.py_round2 net) as [rn|]; [|reflexivity]. cbn [bind].
  destruct (add_days (now1 0%nat) 2); [|discriminate].
  destruct (add_days (now2 0%nat) 2); [|discriminate].
  reflexivity.
Qed.

Lemma drafter_any_time repr_of now1 now2 ctype recipient_name ctx :
  map_result CommunicationDrafter.timeless
    (CommunicationDrafter._run repr_of now1 ctype recipient_name ctx) =
  map_result CommunicationDrafter.timeless
    (CommunicationDrafter._run repr_of now2 ctype recipient_name ctx).
Proof.
  unfold CommunicationDrafter._run.
  destruct (CommunicationDrafter.document_request _ _); [|reflexivity].
  destruct (CommunicationDrafter.funding_notice _ _ _); reflexivity.
Qed.

(** With a document date that parses, the two runs differ in nothing but
    the verdict on it. *)
Lemma verifier_same_verdict now1 now2 name data d :
  DocumentVerifier.date_sensitive name = true ->
  truthy (get data "document_date") = true ->
  strptime (get data "document_date") = Ok d ->
  (map_result DocumentVerifier.timeless (DocumentVerifier._run now1 name data) =
   map_result DocumentVerifier.timeless (DocumentVerifier._run now2 name data) <->
   (90 <? days (sub (now1 0%nat) d))%Z = (90 <? days (sub (now2 0%nat) d))%Z).
Proof.
  intros Hs Ht Hp. unfold DocumentVerifier._run, DocumentVerifier.check_expiration.
  rewrite Hs, Ht, Hp. cbn [bind].
  destruct (90 <? days (sub (now1 0%nat) d))%Z, (90 <? days (sub (now2 0%nat) d))%Z;
    cbn [bind map_result]; split; try reflexivity; try discriminate;
    intros H; exfalso; apply Ok_inj in H;
    apply (f_equal DocumentVerifier.checks_performed) in H;
    cbn [DocumentVerifier.timeless DocumentVerifier.checks_performed] in H;
    unfold DocumentVerifier.initial_checks in H; cbn in H; discriminate.
Qed.

(** C8, as far as the clock allows.  The document checker and the
    exception analyzer never read the clock.  For any two clocks, the
    compliance validator, the funding calculator (when the funding date
    exists in both runs) and the communication drafter return the same
    result once the time fields ([checked_date], [estimated_funding_date],
    [drafted_at]) are set aside.  The document verifier returns the same
    result up to [verification_date] when the document is not date
    sensitive, or has no document date, or the two runs read the clock on
    the same calendar day.  For a date-sensitive document whose document
    date parses, it does so exactly when the two runs give the same
    verdict on the date: more than 90 days old in both, or in neither. *)
Theorem stage_outputs_up_to_clock :
  forall now1 now2 : clock,
    (forall name data,
       DocumentVerifier.date_sensitive name = false \/
       truthy (get data "document_date") = false \/
       (time_ok (now1 0%nat) = true /\ time_ok (now2 0%nat) = true /\
        toordinal (now1 0%nat) = toordinal (now2 0%nat)) ->
       map_result DocumentVerifier.timeless (DocumentVerifier._run now1 name data) =
       map_result DocumentVerifier.timeless (DocumentVerifier._run now2 name data)) /\
    (forall name data d,
       DocumentVerifier.date_sensitive name = true ->
       truthy (get data "document_date") = true ->
       strptime (get data "document_date") = Ok d ->
       (map_result DocumentVerifier.timeless (DocumentVerifier._run now1 name data) =
        map_result DocumentVerifier.timeless (DocumentVerifier._run now2 name data) <->
        (90 <? days (sub (now1 0%nat) d))%Z = (90 <? days (sub (now2 0%nat) d))%Z)) /\
    (forall loan_id data,
       ComplianceValidator.timeless (ComplianceValidator._run now1 loan_id data) =
       ComplianceValidator.timeless (ComplianceValidator._run now2 loan_id data)) /\
    (forall loan_amount interest_rate loan_type fee_data,
       is_ok (add_days (now1 0%nat) 2) = true ->
       is_ok (add_days (now2 0%nat) 2) = true ->
       map_result FundingCalculator.timeless
         (FundingCalculator._run now1 loan_amount interest_rate loan_type fee_data) =
       map_result FundingCalculator.timeless
         (FundingCalculator._run now2 loan_amount interest_rate loan_type fee_data)) /\
    (forall repr_of ctype recipient_name ctx,
       map_result CommunicationDrafter.timeless
         (CommunicationDrafter._run repr_of now1 ctype recipient_name ctx) =
       map_result CommunicationDrafter.timeless
         (CommunicationDrafter._run repr_of now2 ctype recipient_name ctx)).
Proof.
  intros now1 now2.
  split; [intros; apply verifier_same_day; assumption|].
  split; [intros; apply verifier_same_verdict; assumption|].
  split; [intros; apply compliance_any_time|].
  split; [intros; apply funding_any_time; assumption|].
  intros; apply drafter_any_time.
Qed.

Lemma stage_outputs_up_to_clock_witness :
  let morning : clock := fun _ => mk_datetime 2024 3 31 9 30 0 0 in
  let evening : clock := fun _ => mk_datetime 2024 3 31 21 45 10 5 in
  let earlier : clock := fun _ => mk_datetime 2024 2 1 9 30 0 0 in
  let data := [("document_date", JStr "2024-01-01")] in
  map_result DocumentVerifier.timeless
    (DocumentVerifier._run morning "proof_of_income" data) =
  map_result DocumentVerifier.timeless
    (DocumentVerifier._run evening "proof_of_income" data) /\
  map_result DocumentVerifier.timeless
    (DocumentVerifier._run earlier "proof_of_income" data) =
  map_result DocumentVerifier.timeless
    (DocumentVerifier._run evening "proof_of_income" data) /\
  map_result FundingCalculator.timeless
    (FundingCalculator._run morning (Float.literal 100000 1) (Float.literal 6 1)
       "personal" []) =
  map_result FundingCalculator.timeless
    (FundingCalculator._run evening (Float.literal 100000 1) (Float.literal 6 1)
       "personal" []).
Proof.
  intros morning evening earlier data.
  destruct (stage_outputs_up_to_clock morning evening) as (Hv & _ & _ & Hf & _).
  destruct (stage_outputs_up_to_clock earlier evening) as (_ & Hd & _).
  split; [|split].
  - apply Hv. right. right. repeat split; reflexivity.
  - apply (Hd "proof_of_income" data (mk_datetime 2024 1 1 0 0 0 0));
      reflexivity.
  - apply Hf; reflexivity.
Defined.

(** The verdict of the document verifier depends on the day of the run: a
    document of 1 January 2024 is fresh on 31 March and expired on 1 April. *)
Lemma verifier_verdict_depends_on_clock :
  let march : clock := fun _ => mk_datetime 2024 3 31 9 30 0 0 in
  let april : clock := fun _ => mk_datetime 2024 4 1 9 30 0 0 in
  let data := [("document_date", JStr "2024-01-01")] in
  exists r1 r2,
    DocumentVerifier._run march "proof_of_income" data = Ok r1 /\
    DocumentVerifier._run april "proof_of_income" data = Ok r2 /\
    DocumentVerifier.verification_passed r1 = true /\
    DocumentVerifier.verification_passed r2 = false /\
    DocumentVerifier.timeless r1 <> DocumentVerifier.timeless r2.
Proof.
  intros march april data. do 2 eexists.
  split; [reflexivity|]. split; [reflexivity|].
  split; [reflexivity|]. split; [reflexivity|]. discriminate.
Qed.

End TwoRuns.

(** * Further properties of the code *)

(** ** The audit report: what it reads, when it fails, how it counts *)

Section AuditReport.
Import DocumentChecker.

Lemma step_agree received1 received2 acc doc :
  lookup received1 doc = lookup received2 doc ->
  step received1 acc doc = step received2 acc doc.
Proof. unfold step. intros ->. reflexivity. Qed.

Lemma loop_agree received1 received2 docs : forall acc,
  (forall d, In d docs -> lookup received1 d = lookup received2 d) ->
  loop received1 docs acc = loop received2 docs acc.
Proof.
  induction docs as [|d docs IH]; intros acc H; [reflexivity|].
  cbn [loop]. rewrite (step_agree received1 received2) by (apply H; left; reflexivity).
  destruct (step received2 acc d) as [acc'|e]; [|reflexivity].
  cbn [bind]. apply IH. intros d' Hd'. apply H. right. exact Hd'.
Qed.

(** X1. The audit reads the entries of the required documents and no
    other: two document maps that agree on the required documents of the
    loan type get the same report, or the same exception. *)
Theorem audit_reads_required_entries_only :
  forall loan_id loan_type received1 received2,
    (forall d, In d (required loan_type) ->
       lookup received1 d = lookup received2 d) ->
    _run loan_id loan_type received1 = _run loan_id loan_type received2.
Proof.
  intros loan_id loan_type received1 received2 H. unfold _run.
  rewrite (loop_agree received1 received2 _ _ H). reflexivity.
Qed.

Lemma audit_reads_required_entries_only_witness :
  _run "LN-3" "auto" [("tax_returns", JInt 7)] = _run "LN-3" "auto" [].
Proof.
  apply audit_reads_required_entries_only.
  intros d Hd. cbn in Hd.
  repeat (destruct Hd as [<-|Hd]; [reflexivity|]). contradiction.
Defined.

Lemma classify_ok received d :
  is_ok (classify received d) = true <->
  lookup received d = None \/ exists o, lookup received d = Some (JObj o).
Proof.
  unfold classify. destruct (lookup received d) as [entry|].
  - destruct entry; cbn; split; try discriminate; eauto;
      intros [H|[o H]]; discriminate.
  - cbn. split; auto.
Qed.

Lemma step_raises received acc doc e :
  step received acc doc = Raise e ->
  e = AttributeError /\ is_ok (classify received doc) = false.
Proof.
  unfold step, classify. destruct (lookup received doc) as [entry|]; [|discriminate].
  destruct entry; cbn; try (intros [= <-]; auto).
  all: destruct (eq_str _ "pending"); [discriminate|].
  all: destruct (eq_str _ "expired"); [discriminate|].
  all: destruct (eq_str _ "received"); discriminate.
Qed.

Lemma loop_raises received docs : forall acc e,
  loop received docs acc = Raise e ->
  e = AttributeError /\ exists d, In d docs /\ is_ok (classify received d) = false.
Proof.
  induction docs as [|d docs IH]; intros acc e H; cbn [loop] in H; [discriminate|].
  destruct (step received acc d) as [acc'|e'] eqn:Hs; cbn [bind] in H.
  - apply IH in H. destruct H as (He & d' & Hd' & Hc). split; [exact He|].
    exists d'. split; [right; exact Hd'|exact Hc].
  - injection H as ->. apply step_raises in Hs. destruct Hs as [He Hc].
    split; [exact He|]. exists d. split; [left; reflexivity|exact Hc].
Qed.

Lemma required_cases loan_type :
  required loan_type = required "mortgage" \/ required loan_type = required "personal" \/
  required loan_type = required "auto" \/ required loan_type = required "business".
Proof.
  unfold required, Settings.REQUIRED_DOCUMENTS, lookup.
  destruct (String.eqb "mortgage" loan_type); [left; reflexivity|].
  destruct (String.eqb "personal" loan_type); [right; left; reflexivity|].
  destruct (String.eqb "auto" loan_type); [right; right; left; reflexivity|].
  destruct (String.eqb "business" loan_type); [right; right; right; reflexivity|].
  right; left; reflexivity.
Qed.

Lemma required_NoDup loan_type : NoDup (required loan_type).
Proof.
  destruct (required_cases loan_type) as [-> | [-> | [-> | ->]]];
    repeat (constructor; [cbn; intuition discriminate|]); constructor.
Qed.

Lemma required_not_empty loan_type : required loan_type <> [].
Proof.
  destruct (required_cases loan_type) as [-> | [-> | [-> | ->]]]; discriminate.
Qed.

Lemma buckets_NoDup (f g h : string -> bool) (l : list string) :
  NoDup l ->
  (forall x, f x = true -> g x = false /\ h x = false) ->
  (forall x, g x = true -> h x = false) ->
  NoDup (filter f l ++ filter g l ++ filter h l) /\
  (List.length (filter f l ++ filter g l ++ filter h l) <= List.length l)%nat.
Proof.
  intros Hl Hf Hg.
  assert (Hperm : forall l : list string,
            NoDup l ->
            NoDup (filter f l ++ filter g l ++ filter h l) /\
            incl (filter f l ++ filter g l ++ filter h l) l).
  { clear l Hl. intros l Hl. split.
    - apply NoDup_app; [apply NoDup_filter; exact Hl| |].
      + apply NoDup_app; [apply NoDup_filter; exact Hl|apply NoDup_filter; exact Hl|].
        intros x Hx Hx'. apply filter_In in Hx, Hx'.
        destruct Hx as [_ Hx], Hx' as [_ Hx']. apply Hg in Hx. congruence.
      + intros x Hx Hx'. apply filter_In in Hx. destruct Hx as [_ Hx].
        apply Hf in Hx. destruct Hx as [Hx1 Hx2].
        apply in_app_or in Hx'. destruct Hx' as [Hx'|Hx'];
          apply filter_In in Hx'; destruct Hx' as [_ Hx']; congruence.
    - intros x Hx. apply in_app_or in Hx. destruct Hx as [Hx|Hx];
        [|apply in_app_or in Hx; destruct Hx as [Hx|Hx]];
        apply filter_In in Hx; tauto. }
  destruct (Hperm l Hl) as [Hnd Hincl]. split; [exact Hnd|].
  apply NoDup_incl_length; assumption.
Qed.

(** X3. The counts of a report are consistent: [total_required] is the
    length of the catalogue list, no document is reported twice, be it in
    one list or in two, so the three lists together hold at most
    [total_required] names, [action_required] is the negation of
    [collection_complete], and the SLA is the 24 hours of the document
    follow-up. *)
Theorem audit_report_counts :
  forall loan_id loan_type received r,
    _run loan_id loan_type received = Ok r ->
    total_required r = List.length (required loan_type) /\
    NoDup (missing_documents r ++ expired_documents r
           ++ pending_verification_documents r) /\
    (List.length (missing_documents r) + List.length (expired_documents r)
     + List.length (pending_verification_documents r) <= total_required r)%nat /\
    action_required r = negb (collection_complete r) /\
    sla_hours_remaining r = 24%Z.
Proof.
  intros loan_id loan_type received r Hr.
  destruct (run_lists _ _ _ _ Hr) as (_ & Hm & He & Hp & Hc).
  assert (Hfields : total_required r = List.length (required loan_type) /\
                    action_required r = negb (collection_complete r) /\
                    sla_hours_remaining r = 24%Z).
  { revert Hr. unfold _run.
    destruct (loop received (required loan_type) (mk_audit [] [] [])) as [acc|];
      cbn [bind]; [|discriminate].
    intros H. apply Ok_inj in H. subst r.
    cbn [total_required action_required collection_complete sla_hours_remaining].
    split; [reflexivity|]. split; [|reflexivity].
    destruct (is_empty (missing acc)), (is_empty (expired acc)); reflexivity. }
  destruct Hfields as (Ht & Ha & Hs).
  destruct (buckets_NoDup (in_bucket received InMissing) (in_bucket received InExpired)
              (in_bucket received InPending) (required loan_type)
              (required_NoDup loan_type)) as [Hnd Hlen].
  { intros x Hx. apply in_bucket_true in Hx. unfold in_bucket. rewrite Hx. auto. }
  { intros x Hx. apply in_bucket_true in Hx. unfold in_bucket. rewrite Hx. auto. }
  rewrite Hm, He, Hp, Ht. split; [reflexivity|]. split; [exact Hnd|].
  split; [|split; [exact Ha|exact Hs]].
  rewrite !length_app in Hlen. lia.
Qed.

Lemma audit_report_counts_witness :
  let received :=
    [ ("vehicle_title", JObj [("status", JStr "expired")]);
      ("proof_of_income", JObj [("status", JStr "verified")]) ] in
  exists r,
    _run "LN-4" "auto" received = Ok r /\
    total_required r = 5%nat /\ action_required r = negb (collection_complete r).
Proof.
  intros received.
  destruct (_run "LN-4" "auto" received) as [r|e] eqn:E; [|discriminate E].
  exists r. split; [reflexivity|].
  destruct (audit_report_counts "LN-4" "auto" received r E) as (H1 & _ & _ & H2 & _).
  split; [exact H1|exact H2].
Defined.

(** X4. [collection_complete] holds exactly when every required document
    has an entry whose status is neither "pending" nor "expired": a status
    outside the five tags, or no status at all, counts as collected.  On
    an empty document map every required document is missing, for any
    loan type, and the collection is not complete. *)
Theorem collection_complete_characterised :
  forall loan_id loan_type received,
    (forall r, _run loan_id loan_type received = Ok r ->
       (collection_complete r = true <->
          forall d, In d (required loan_type) ->
            exists o, lookup received d = Some (JObj o) /\
                      get o "status" <> JStr "pending" /\
                      get o "status" <> JStr "expired")) /\
    (exists r, _run loan_id loan_type [] = Ok r /\
       missing_documents r = required loan_type /\
       expired_documents r = [] /\ pending_verification_documents r = [] /\
       collection_complete r = false /\ action_required r = true).
Proof.
  intros loan_id loan_type received. split.
  - intros r Hr. destruct (run_lists _ _ _ _ Hr) as (HF & Hm & He & _ & Hc).
    rewrite Forall_forall in HF.
    rewrite Hc, andb_true_iff, !is_empty_nil, Hm, He. split.
    + intros [H1 H2] d Hd.
      pose proof (HF d Hd) as Hok. apply classify_ok in Hok.
      assert (N1 : classify received d <> Ok InMissing).
      { intros E. apply in_bucket_true in E.
        assert (X : In d (filter (in_bucket received InMissing) (required loan_type)))
          by (apply filter_In; auto).
        rewrite H1 in X. exact X. }
      assert (N2 : classify received d <> Ok InExpired).
      { intros E. apply in_bucket_true in E.
        assert (X : In d (filter (in_bucket received InExpired) (required loan_type)))
          by (apply filter_In; auto).
        rewrite H2 in X. exact X. }
      rewrite classify_missing in N1. rewrite classify_expired in N2.
      destruct Hok as [Hn|[o Ho]]; [exfalso; auto|].
      exists o. split; [exact Ho|]. unfold has_status in N1, N2.
      split; intros E; [apply N1; right|apply N2]; eauto.
    + intros H.
      assert (Hnone : forall b, b = InMissing \/ b = InExpired ->
                filter (in_bucket received b) (required loan_type) = []).
      { intros b Hb.
        destruct (filter (in_bucket received b) (required loan_type)) as [|d l] eqn:E;
          [reflexivity|exfalso].
        assert (X : In d (filter (in_bucket received b) (required loan_type)))
          by (rewrite E; left; reflexivity).
        apply filter_In in X. destruct X as [Hd Hb'].
        apply in_bucket_true in Hb'.
        destruct (H d Hd) as (o & Ho & Np & Ne).
        destruct Hb as [-> | ->].
        - apply classify_missing in Hb'.
          destruct Hb' as [Hn|(o' & Ho' & Hs)]; congruence.
        - apply classify_expired in Hb'. destruct Hb' as (o' & Ho' & Hs). congruence. }
      split; apply Hnone; auto.
  - unfold _run.
    assert (Hloop : forall docs acc,
              loop [] docs acc =
                Ok (mk_audit (missing acc ++ docs) (expired acc) (pending_verification acc))).
    { induction docs as [|d docs IH]; intros acc; cbn [loop step lookup bind].
      - rewrite app_nil_r. destruct acc; reflexivity.
      - rewrite IH. cbn [missing expired pending_verification].
        rewrite <- app_assoc. reflexivity. }
    rewrite Hloop. cbn [bind missing expired pending_verification app].
    eexists. split; [reflexivity|].
    cbn [missing_documents expired_documents pending_verification_documents
         collection_complete action_required].
    pose proof (required_not_empty loan_type) as Hne.
    destruct (required loan_type) as [|d l]; [contradiction|].
    repeat split.
Qed.

Lemma collection_complete_characterised_witness :
  let received :=
    [ ("signed_application", JObj []);
      ("proof_of_income", JObj [("status", JStr "Verified")]);
      ("bank_statements", JObj [("status", JNull)]);
      ("proof_of_identity", JObj [("status", JStr "rejected")]) ] in
  exists r, _run "LN-5" "personal" received = Ok r /\ collection_complete r = true.
Proof.
  intros received. eexists. split; [reflexivity|].
  apply (proj1 (collection_complete_characterised "LN-5" "personal" received)); 
    [reflexivity|].
  intros d Hd. cbn in Hd.
  repeat (destruct Hd as [<-|Hd];
          [eexists; split; [reflexivity|split; discriminate]|]).
  contradiction.
Defined.

End AuditReport.

(** ** The audit of a value that is no dictionary *)

Section AuditOfAnyValue.
Import DocumentChecker Tools.

Lemma check_dict received acc doc :
  check (JObj received) acc doc = step received acc doc.
Proof.
  unfold check, step, contains, subscript, mem. cbv zeta.
  destruct (lookup received doc) as [entry|]; reflexivity.
Qed.

Lemma check_all_dict received docs : forall acc,
  check_all (JObj received) docs acc = loop received docs acc.
Proof.
  induction docs as [|d docs IH]; intros acc; [reflexivity|].
  cbn [check_all loop]. rewrite check_dict.
  destruct (step received acc d); [cbn [bind]; apply IH|reflexivity].
Qed.

Lemma document_checker_dict loan_id loan_type received :
  document_checker loan_id loan_type (JObj received) = _run loan_id loan_type received.
Proof.
  unfold document_checker, _run. cbv zeta. rewrite check_all_dict. reflexivity.
Qed.

Lemma run_raises loan_id loan_type received e :
  _run loan_id loan_type received = Raise e <->
  e = AttributeError /\
  exists d v, In d (required loan_type) /\ lookup received d = Some v /\
              forall o, v <> JObj o.
Proof.
  assert (Hraise : forall e, _run loan_id loan_type received = Raise e ->
            e = AttributeError /\
            exists d, In d (required loan_type) /\
                      is_ok (classify received d) = false).
  { intros e'. unfold _run.
    destruct (loop received (required loan_type) (mk_audit [] [] [])) as [acc|e''] eqn:E;
      cbn [bind]; [discriminate|].
    intros [= <-]. eapply loop_raises. exact E. }
  split.
  - intros H. apply Hraise in H. destruct H as (He & d & Hd & Hc).
    split; [exact He|].
    destruct (lookup received d) as [v|] eqn:El.
    + exists d, v. split; [exact Hd|]. split; [exact El|].
      intros o ->. rewrite (proj2 (classify_ok received d)) in Hc; [discriminate|].
      right. eauto.
    + rewrite (proj2 (classify_ok received d)) in Hc; [discriminate|]. left. exact El.
  - intros (-> & d & v & Hd & Hl & Hv).
    destruct (_run loan_id loan_type received) as [r|e] eqn:E.
    + apply run_lists in E. destruct E as (HF & _).
      rewrite Forall_forall in HF. apply HF in Hd. apply classify_ok in Hd.
      destruct Hd as [Hn|[o Ho]]; [congruence|].
      rewrite Ho in Hl. injection Hl as <-. exfalso. eapply Hv. reflexivity.
    + destruct (Hraise e eq_refl) as [-> _]. reflexivity.
Qed.

(** The search for [doc] in a value that is no dictionary either finds
    nothing, and the document is missing, or stops the audit: the search
    itself fails, or it succeeds and the subscript after it fails. *)
Lemma check_other v acc doc :
  (forall o, v <> JObj o) ->
  check v acc doc =
    match contains v doc with
    | Ok false =>
        Ok (mk_audit (missing acc ++ [doc]) (expired acc) (pending_verification acc))
    | _ => Raise TypeError
    end.
Proof.
  intros Hv. unfold check. cbv zeta.
  destruct v as [| | | | s | l | o]; cbn [contains bind]; try reflexivity.
  - destruct (occurs doc s); reflexivity.
  - destruct (existsb _ l); reflexivity.
  - exfalso. apply (Hv o). reflexivity.
Qed.

Lemma check_all_other v docs : forall acc,
  (forall o, v <> JObj o) ->
  check_all v docs acc =
    if forallb (not_found v) docs
    then Ok (mk_audit (missing acc ++ docs) (expired acc) (pending_verification acc))
    else Raise TypeError.
Proof.
  induction docs as [|d docs IH]; intros acc Hv; cbn [check_all forallb].
  - rewrite app_nil_r. destruct acc; reflexivity.
  - rewrite check_other by exact Hv. unfold not_found at 1.
    destruct (contains v d) as [[|]|]; cbn [bind andb]; try reflexivity.
    rewrite IH by exact Hv. cbn [missing expired pending_verification].
    rewrite <- app_assoc. reflexivity.
Qed.

Lemma existsb_eq_str l d : existsb (fun v => eq_str v d) l = true <-> In (JStr d) l.
Proof.
  rewrite existsb_exists. split.
  - intros (v & Hin & He). destruct v; try discriminate.
    cbn in He. apply String.eqb_eq in He. subst. exact Hin.
  - intros H. exists (JStr d). split; [exact H|]. cbn. apply String.eqb_refl.
Qed.

Lemma forallb_false_exists {A} (f : A -> bool) l :
  forallb f l = false <-> exists x, In x l /\ f x = false.
Proof.
  induction l as [|a l IH]; cbn [forallb].
  - split; [discriminate|intros (x & [] & _)].
  - destruct (f a) eqn:E; cbn [andb].
    + rewrite IH. split.
      * intros (x & Hx & Hf). exists x. split; [right; exact Hx|exact Hf].
      * intros (x & [<-|Hx] & Hf); [congruence|]. exists x. auto.
    + split; [|reflexivity]. intros _. exists a. split; [left; reflexivity|exact E].
Qed.

Lemma document_checker_other loan_id loan_type v :
  (forall o, v <> JObj o) ->
  document_checker loan_id loan_type v =
    if forallb (not_found v) (required loan_type)
    then Ok (mk_report loan_id loan_type (List.length (required loan_type))
               (required loan_type) [] [] false
               (Settings.index Settings.SLA_THRESHOLDS "document_follow_up" 0%Z) true)
    else Raise TypeError.
Proof.
  intros Hv. unfold document_checker. cbv zeta.
  rewrite check_all_other by exact Hv.
  destruct (forallb _ _); [|reflexivity].
  cbn [bind missing expired pending_verification app].
  pose proof (required_not_empty loan_type) as Hne.
  destruct (required loan_type); [contradiction|reflexivity].
Qed.

(** X2. The audit of any parsed argument.  On a dictionary it fails in
    one way only: with [AttributeError], exactly when a required document
    has an entry that is not a dictionary; entries of other documents and
    odd status values never make it fail.  On a list or a string it fails
    with [TypeError] exactly when a required document is an element of the
    list, or occurs in the string, and else reports every required
    document as missing.  On a number, a boolean or [None] it always
    fails with [TypeError].  It raises nothing else. *)
Theorem audit_failure_modes :
  forall (loan_id loan_type : string) (documents_received : json),
    (forall received,
       document_checker loan_id loan_type (JObj received) =
         _run loan_id loan_type received) /\
    (forall e, document_checker loan_id loan_type documents_received = Raise e ->
       e = AttributeError \/ e = TypeError) /\
    (document_checker loan_id loan_type documents_received = Raise AttributeError <->
       exists received d v,
         documents_received = JObj received /\
         In d (required loan_type) /\ lookup received d = Some v /\
         forall o, v <> JObj o) /\
    (document_checker loan_id loan_type documents_received = Raise TypeError <->
       match documents_received with
       | JObj _ => False
       | JArr l => exists d, In d (required loan_type) /\ In (JStr d) l
       | JStr s => exists d, In d (required loan_type) /\ occurs d s = true
       | _ => True
       end) /\
    (forall r, (forall received, documents_received <> JObj received) ->
       document_checker loan_id loan_type documents_received = Ok r ->
       missing_documents r = required loan_type /\
       expired_documents r = [] /\
       pending_verification_documents r = [] /\
       collection_complete r = false).
Proof.
  intros loan_id loan_type v.
  split; [intros received; apply document_checker_dict|].
  assert (Hcases : (exists received, v = JObj received) \/ forall o, v <> JObj o).
  { destruct v; try (right; discriminate). left. eauto. }
  destruct Hcases as [[received ->]|Hv].
  - rewrite document_checker_dict.
    split; [intros e He; apply run_raises in He; left; tauto|].
    split; [|split].
    + rewrite run_raises. split.
      * intros (_ & d & x & H). exists received, d, x. tauto.
      * intros (received' & d & x & [= <-] & H). split; [reflexivity|]. eauto.
    + split; [|contradiction]. intros H. apply run_raises in H.
      destruct H as [H _]. discriminate.
    + intros r H. exfalso. apply (H received). reflexivity.
  - rewrite document_checker_other by exact Hv.
    destruct (forallb (not_found v) (required loan_type)) eqn:E.
    + split; [discriminate|]. split; [|split].
      * split; [discriminate|]. intros (received & _ & _ & -> & _).
        exfalso. apply (Hv received). reflexivity.
      * split; [discriminate|]. intros H. exfalso.
        rewrite forallb_forall in E. unfold not_found in E.
        pose proof (required_not_empty loan_type) as Hne.
        destruct v as [| | | | s | l | o]; cbn [contains] in E.
        1-4: destruct (required loan_type) as [|d ?]; [contradiction|];
             specialize (E d (or_introl eq_refl)); discriminate.
        -- destruct H as (d & Hd & Ho). specialize (E d Hd). rewrite Ho in E.
           discriminate.
        -- destruct H as (d & Hd & Hi). specialize (E d Hd).
           apply existsb_eq_str in Hi. rewrite Hi in E. discriminate.
        -- exact H.
      * intros r _ H. apply Ok_inj in H. subst r. cbn. auto.
    + split; [intros e [= <-]; right; reflexivity|]. split; [|split].
      * split; [discriminate|]. intros (received & _ & _ & -> & _).
        exfalso. apply (Hv received). reflexivity.
      * split; [|reflexivity]. intros _.
        apply forallb_false_exists in E. destruct E as (d & Hd & Hf).
        unfold not_found in Hf.
        destruct v as [| | | | s | l | o]; cbn [contains] in Hf; try exact I.
        -- exists d. split; [exact Hd|]. destruct (occurs d s); [reflexivity|discriminate].
        -- exists d. split; [exact Hd|]. apply existsb_eq_str.
           destruct (existsb _ l); [reflexivity|discriminate].
        -- apply (Hv o). reflexivity.
      * intros r _ H. discriminate.
Qed.

Lemma audit_failure_modes_witness :
  document_checker "LN-3" "auto" (JArr [JStr "vehicle_title"]) = Raise TypeError /\
  document_checker "LN-3" "auto" (JObj [("vehicle_title", JStr "received")])
    = Raise AttributeError /\
  exists r, document_checker "LN-3" "auto" (JStr "title of the vehicle") = Ok r /\
            missing_documents r = required "auto".
Proof.
  split; [|split].
  - apply (proj1 (proj2 (proj2 (proj2 (audit_failure_modes "LN-3" "auto"
                                         (JArr [JStr "vehicle_title"])))))).
    exists "vehicle_title". split; cbn; tauto.
  - apply (proj1 (proj2 (proj2 (audit_failure_modes "LN-3" "auto"
                                  (JObj [("vehicle_title", JStr "received")]))))).
    exists [("vehicle_title", JStr "received")], "vehicle_title", (JStr "received").
    split; [reflexivity|]. split; [cbn; tauto|]. split; [reflexivity|discriminate].
  - eexists. split; [reflexivity|].
    apply (proj2 (proj2 (proj2 (proj2 (audit_failure_modes "LN-3" "auto"
                                         (JStr "title of the vehicle")))))
             _ ltac:(discriminate) eq_refl).
Defined.

End AuditOfAnyValue.

(** ** The verification: failures, constant checks, expiry in time *)

Section VerificationReport.
Import Datetime DocumentVerifier.
Local Open Scope Z_scope.

Lemma new_raises y m d hh mm ss us e :
  new y m d hh mm ss us = Raise e -> e = ValueError.
Proof. unfold new. destruct (_ && _); [discriminate|]. now intros [= <-]. Qed.

Lemma strptime_ymd_raises s e : strptime_ymd s = Raise e -> e = ValueError.
Proof.
  unfold strptime_ymd. intros H.
  repeat match type of H with
         | match ?x with _ => _ end = Raise _ =>
             destruct x; try (injection H as <-; reflexivity)
         end.
  apply new_raises in H. exact H.
Qed.

(** What a run that returns has computed: the check vector is the initial
    one, with [not_expired] cleared when the document is found expired. *)
Lemma run_checks now name data r :
  _run now name data = Ok r ->
  exists expired : bool,
    (expired = true <->
       date_sensitive name = true /\ truthy (get data "document_date") = true /\
       exists d, strptime (get data "document_date") = Ok d /\
                 90 < days (sub (now 0%nat) d)) /\
    checks_performed r =
      (if expired then set (initial_checks data) "not_expired" (JBool false)
       else initial_checks data) /\
    verification_passed r = all_values (checks_performed r) /\
    failed_checks r = falsy_keys (checks_performed r) /\
    notes r = ("Document " ++
               (if verification_passed r then "verified successfully"
                else "failed verification: " ++ String.concat ", " (failed_checks r)))%string.
Proof.
  unfold _run, check_expiration.
  destruct (date_sensitive name).
  - destruct (truthy (get data "document_date")).
    + destruct (strptime (get data "document_date")) as [d|]; cbn [bind]; [|discriminate].
      destruct (90 <? days (sub (now 0%nat) d)) eqn:E; intros H; apply Ok_inj in H; subst r;
        cbn [checks_performed verification_passed failed_checks notes].
      * exists true. split; [|auto]. split; [intros _|reflexivity].
        split; [reflexivity|]. split; [reflexivity|]. exists d. split; [reflexivity|].
        apply Z.ltb_lt. exact E.
      * exists false. split; [|auto]. split; [discriminate|].
        intros (_ & _ & d' & Hd' & Hlt). injection Hd' as <-.
        apply Z.ltb_lt in Hlt. congruence.
    + cbn [bind]. intros H; apply Ok_inj in H; subst r.
      cbn [checks_performed verification_passed failed_checks notes].
      exists false. split; [|auto]. split; [discriminate|]. intros (_ & H & _). discriminate.
  - cbn [bind]. intros H; apply Ok_inj in H; subst r.
    cbn [checks_performed verification_passed failed_checks notes].
    exists false. split; [|auto]. split; [discriminate|]. intros (H & _). discriminate.
Qed.

(** X6. Three of the six checks are constants: a returned verification
    has [document_present], [legible] and [dates_consistent] true, so the
    failed checks are among "complete", "not_expired" and
    "signatures_valid", in this order; the verification passes exactly
    when no check failed; a document that is not date sensitive is never
    expired; the notes name the failed checks. *)
Theorem verifier_failed_checks_shape :
  forall (now : clock) (name : string) (data : dict) (r : verification),
    _run now name data = Ok r ->
    get (checks_performed r) "document_present" = JBool true /\
    get (checks_performed r) "legible" = JBool true /\
    get (checks_performed r) "dates_consistent" = JBool true /\
    failed_checks r =
      (if truthy (get_default data "pages_complete" (JBool true)) then [] else ["complete"])
      ++ (if truthy (get (checks_performed r) "not_expired") then [] else ["not_expired"])
      ++ (if truthy (get_default data "signed" (JBool true)) then []
          else ["signatures_valid"]) /\
    (verification_passed r = true <-> failed_checks r = []) /\
    (date_sensitive name = false ->
       get (checks_performed r) "not_expired" = JBool true) /\
    (verification_passed r = true -> notes r = "Document verified successfully"%string) /\
    (verification_passed r = false ->
       notes r = ("Document failed verification: "
                  ++ String.concat ", " (failed_checks r))%string).
Proof.
  intros now name data r Hr.
  destruct (run_checks now name data r Hr) as (expired & Hexp & Hc & Hv & Hf & Hn).
  rewrite Hn, Hf, Hv, Hc.
  assert (Hns : date_sensitive name = false -> expired = false).
  { intros H. destruct expired; [|reflexivity]. destruct Hexp as [Hexp _].
    destruct (Hexp eq_refl) as [H' _]. congruence. }
  unfold initial_checks, all_values, falsy_keys, get, get_default.
  destruct expired; cbn [set lookup String.eqb Ascii.eqb Bool.eqb forallb filter map fst snd
                         truthy negb andb app];
    destruct (truthy match lookup data "pages_complete" with Some v => v | None => JBool true end);
    destruct (truthy match lookup data "signed" with Some v => v | None => JBool true end);
    cbn [forallb filter map fst snd truthy negb andb app];
    repeat split; try reflexivity; try discriminate;
    try (intros H; apply Hns in H; discriminate).
Qed.

Lemma verifier_failed_checks_shape_witness :
  let now : clock := fun _ => mk_datetime 2024 5 1 12 0 0 0 in
  exists r,
    _run now "proof_of_income"
      [("document_date", JStr "2024-01-01"); ("signed", JBool false)] = Ok r /\
    failed_checks r = ["not_expired"; "signatures_valid"] /\
    notes r = "Document failed verification: not_expired, signatures_valid"%string.
Proof.
  intros now.
  destruct (_run now "proof_of_income"
              [("document_date", JStr "2024-01-01"); ("signed", JBool false)])
    as [r|e] eqn:E; [|discriminate E].
  exists r. split; [reflexivity|].
  destruct (verifier_failed_checks_shape now _ _ r E) as (_ & _ & _ & Hf & _ & _ & _ & Hn).
  injection E as <-. split; [exact Hf|]. apply Hn. reflexivity.
Defined.

(** X7. Expiry only moves one way in time: of two runs on the same
    document, the later one finds it expired whenever the earlier one
    does, and a document that passes in the later run passes in the
    earlier one. *)
Theorem expiry_is_monotone_in_time :
  forall (now1 now2 : clock) (name : string) (data : dict) (r1 r2 : verification),
    time_ok (now1 0%nat) = true -> time_ok (now2 0%nat) = true ->
    toordinal (now1 0%nat) <= toordinal (now2 0%nat) ->
    _run now1 name data = Ok r1 -> _run now2 name data = Ok r2 ->
    (get (checks_performed r1) "not_expired" = JBool false ->
     get (checks_performed r2) "not_expired" = JBool false) /\
    (verification_passed r2 = true -> verification_passed r1 = true).
Proof.
  intros now1 now2 name data r1 r2 T1 T2 Hle H1 H2.
  destruct (run_checks now1 name data r1 H1) as (x1 & Hx1 & Hc1 & Hv1 & _).
  destruct (run_checks now2 name data r2 H2) as (x2 & Hx2 & Hc2 & Hv2 & _).
  assert (Himp : x1 = true -> x2 = true).
  { intros E. apply Hx1 in E. destruct E as (Hs & Ht & d & Hd & Hlt).
    apply Hx2. split; [exact Hs|]. split; [exact Ht|]. exists d. split; [exact Hd|].
    assert (Hmid : hour d = 0 /\ minute d = 0 /\ second d = 0 /\ microsecond d = 0).
    { unfold strptime in Hd. destruct (get data "document_date"); try discriminate.
      apply strptime_ymd_midnight in Hd. tauto. }
    destruct Hmid as (Hh & Hm & Hss & Hu).
    rewrite days_sub_midnight in * by assumption. lia. }
  rewrite Hv1, Hv2, Hc1, Hc2.
  destruct x1, x2; try (discriminate (Himp eq_refl)); split; auto;
    unfold initial_checks, all_values, get, get_default;
    cbn [set lookup String.eqb Ascii.eqb Bool.eqb forallb snd truthy andb];
    try discriminate.
  rewrite !andb_false_r. discriminate.
Qed.

Lemma expiry_is_monotone_in_time_witness :
  let march : clock := fun _ => mk_datetime 2024 4 1 8 0 0 0 in
  let june : clock := fun _ => mk_datetime 2024 6 15 17 30 0 0 in
  let data := [("document_date", JStr "2024-01-01")] in
  exists r1 r2,
    _run march "proof_of_income" data = Ok r1 /\
    _run june "proof_of_income" data = Ok r2 /\
    get (checks_performed r2) "not_expired" = JBool false.
Proof.
  intros march june data.
  destruct (_run march "proof_of_income" data) as [r1|e] eqn:E1; [|discriminate E1].
  destruct (_run june "proof_of_income" data) as [r2|e] eqn:E2; [|discriminate E2].
  exists r1, r2. split; [reflexivity|]. split; [reflexivity|].
  refine (proj1 (expiry_is_monotone_in_time march june "proof_of_income" data r1 r2
                   eq_refl eq_refl _ E1 E2) _).
  - vm_compute. discriminate.
  - injection E1 as <-. reflexivity.
Defined.

End VerificationReport.

(** ** The failures of the verifier *)

Section VerificationOfAnyValue.
Import Datetime DocumentVerifier Tools.
Local Open Scope Z_scope.

Lemma run_raises_iff now name data e :
  _run now name data = Raise e <->
  date_sensitive name = true /\ truthy (get data "document_date") = true /\
  strptime (get data "document_date") = Raise e.
Proof.
  unfold _run, check_expiration.
  destruct (date_sensitive name); [|cbn [bind]; split; [discriminate|intros [? _]; discriminate]].
  destruct (truthy (get data "document_date"));
    [|cbn [bind]; split; [discriminate|intros (_ & ? & _); discriminate]].
  destruct (strptime (get data "document_date")) as [d|e']; cbn [bind].
  - destruct (90 <? _); cbn [bind]; split; try discriminate;
      intros (_ & _ & ?); discriminate.
  - split; [intros [= ->]; auto|intros (_ & _ & [= ->]); reflexivity].
Qed.

Lemma run_returns_iff now name data :
  (exists r, _run now name data = Ok r) <->
  date_sensitive name = false \/ truthy (get data "document_date") = false \/
  exists d, strptime (get data "document_date") = Ok d.
Proof.
  split.
  - intros [r Hr].
    destruct (date_sensitive name) eqn:Es; [|auto].
    destruct (truthy (get data "document_date")) eqn:Et; [|auto].
    destruct (strptime (get data "document_date")) as [d|e] eqn:Ep; [eauto|].
    assert (H : _run now name data = Raise e) by (apply run_raises_iff; auto).
    congruence.
  - intros H. destruct (_run now name data) as [r|e] eqn:E; [eauto|].
    apply run_raises_iff in E. destruct E as (Es & Et & Ep).
    destruct H as [H|[H|[d H]]]; congruence.
Qed.

(** X5. The verifier on any parsed argument.  A value that is not a
    dictionary raises [AttributeError].  On a dictionary the verifier
    returns whenever it reads no date: the document is not date sensitive,
    or [document_date] is absent or false.  A date-sensitive document with
    a true [document_date] that is not a string raises [TypeError]; with a
    date text of ASCII characters it raises [ValueError] when the text is
    not a date [YYYY-MM-DD] and returns when it is one.  The verifier
    raises nothing else. *)
Theorem verifier_failure_modes :
  forall (now : clock) (name : string) (document_data : json),
    (forall data, document_verifier now name (JObj data) = _run now name data) /\
    ((forall data, document_data <> JObj data) ->
       document_verifier now name document_data = Raise AttributeError) /\
    (forall data, document_data = JObj data ->
       let doc_date := get data "document_date" in
       (date_sensitive name = false \/ truthy doc_date = false ->
          exists r, document_verifier now name document_data = Ok r) /\
       (date_sensitive name = true -> truthy doc_date = true ->
          (forall s, doc_date <> JStr s) ->
          document_verifier now name document_data = Raise TypeError) /\
       (forall s, date_sensitive name = true -> doc_date = JStr s -> s <> ""%string ->
          is_ascii s = true ->
          (is_ok (strptime_ymd s) = false ->
             document_verifier now name document_data = Raise ValueError) /\
          (is_ok (strptime_ymd s) = true ->
             exists r, document_verifier now name document_data = Ok r))) /\
    (forall e, document_verifier now name document_data = Raise e ->
       (e = AttributeError /\ forall data, document_data <> JObj data) \/
       (exists data, document_data = JObj data /\ date_sensitive name = true /\
          truthy (get data "document_date") = true /\
          ((e = TypeError /\ forall s, get data "document_date" <> JStr s) \/
           (e = ValueError /\ exists s, get data "document_date" = JStr s)))).
Proof.
  intros now name document_data.
  split; [reflexivity|]. split; [|split].
  - intros Hv. destruct document_data; try reflexivity.
    exfalso. eapply Hv. reflexivity.
  - intros data ->. cbv zeta.
    change (document_verifier now name (JObj data)) with (_run now name data).
    split; [|split].
    + intros H. apply run_returns_iff. tauto.
    + intros Hs Ht Hn. apply run_raises_iff. split; [exact Hs|]. split; [exact Ht|].
      unfold strptime. destruct (get data "document_date"); try reflexivity.
      exfalso. eapply Hn. reflexivity.
    + intros s Hs Hd Hne _.
      assert (Ht : truthy (get data "document_date") = true).
      { rewrite Hd. cbn. destruct (String.eqb_spec s ""); [contradiction|reflexivity]. }
      split.
      * intros Hp. apply run_raises_iff. split; [exact Hs|]. split; [exact Ht|].
        rewrite Hd. cbn [strptime].
        destruct (strptime_ymd s) as [d|e] eqn:E; [discriminate|].
        apply strptime_ymd_raises in E. subst e. reflexivity.
      * intros Hp. apply run_returns_iff. right. right. rewrite Hd. cbn [strptime].
        destruct (strptime_ymd s) as [d|e]; [eauto|discriminate].
  - intros e. destruct document_data as [| | | | | |data];
      try (intros [= <-]; left; split; [reflexivity|discriminate]).
    change (document_verifier now name (JObj data)) with (_run now name data).
    intros H. apply run_raises_iff in H. destruct H as (Hs & Ht & Hp).
    right. exists data. split; [reflexivity|]. split; [exact Hs|]. split; [exact Ht|].
    unfold strptime in Hp. destruct (get data "document_date") as [| | | |s| |];
      try (injection Hp as <-; left; split; [reflexivity|discriminate]).
    right. apply strptime_ymd_raises in Hp. split; [exact Hp|]. eauto.
Qed.

Lemma verifier_failure_modes_witness :
  let now : clock := fun _ => mk_datetime 2024 5 1 12 0 0 0 in
  document_verifier now "bank_statements" (JArr []) = Raise AttributeError /\
  document_verifier now "bank_statements" (JObj [("document_date", JStr "2023-02-29")])
    = Raise ValueError /\
  document_verifier now "bank_statements" (JObj [("document_date", JInt 20230228)])
    = Raise TypeError /\
  exists r,
    document_verifier now "bank_statements" (JObj [("document_date", JStr "2024-02-29")])
      = Ok r.
Proof.
  intros now. split; [|split; [|split]].
  - apply (proj1 (proj2 (verifier_failure_modes now "bank_statements" (JArr [])))).
    discriminate.
  - destruct (verifier_failure_modes now "bank_statements"
                (JObj [("document_date", JStr "2023-02-29")])) as (_ & _ & H & _).
    destruct (H _ eq_refl) as (_ & _ & Hs).
    apply (Hs "2023-02-29"%string); try reflexivity. discriminate.
  - destruct (verifier_failure_modes now "bank_statements"
                (JObj [("document_date", JInt 20230228)])) as (_ & _ & H & _).
    destruct (H _ eq_refl) as (_ & Ht & _).
    apply Ht; try reflexivity. discriminate.
  - destruct (verifier_failure_modes now "bank_statements"
                (JObj [("document_date", JStr "2024-02-29")])) as (_ & _ & H & _).
    destruct (H _ eq_refl) as (_ & _ & Hs).
    apply (Hs "2024-02-29"%string); try reflexivity. discriminate.
Defined.

End VerificationOfAnyValue.

(** ** The compliance report in terms of the loan data *)

Section ComplianceReport.
Import Datetime ComplianceValidator.

Lemma truthy_or a b : truthy (or_ a b) = truthy a || truthy b.
Proof. unfold or_. destruct (truthy a) eqn:E; [rewrite E|]; reflexivity. Qed.

(** The failed checks, read off the seven entries. *)
Lemma failed_checks_unfold now loan_id data :
  failed_checks (_run now loan_id data) =
    filter (fun check => negb (truthy (fst (evaluate data check))))
      Settings.COMPLIANCE_CHECKS.
Proof.
  change (failed_checks (_run now loan_id data))
    with (map fst (filter (fun kv => negb (truthy (passed (snd kv))))
                     (results (_run now loan_id data)))).
  rewrite results_unfold. unfold Settings.COMPLIANCE_CHECKS.
  cbn [map filter fst snd passed].
  repeat match goal with
         | |- context [negb (truthy (fst (evaluate data ?c)))] =>
             destruct (negb (truthy (fst (evaluate data c))))
         end; reflexivity.
Qed.

(** X8. Which checks fail, in terms of the loan data: the AML, KYC and
    TILA checks fail when their flag is present with a false value; the
    flood check fails for a mortgage whose flood certificate flag is false
    and whose flood insurance flag is absent or false; no other check
    fails.  The counts agree: seven checks, [passed_checks] is seven less
    the failed ones, hence at least three, and compliance passes exactly
    when all seven pass. *)
Theorem compliance_failures_from_input :
  forall (now : clock) (loan_id : string) (data : dict),
    let r := _run now loan_id data in
    failed_checks r =
      (if truthy (get_default data "aml_cleared" (JBool true)) then []
       else ["anti_money_laundering"])
      ++ (if truthy (get_default data "kyc_verified" (JBool true)) then []
          else ["know_your_customer"])
      ++ (if truthy (get_default data "tila_disclosed" (JBool true)) then []
          else ["truth_in_lending"])
      ++ (if eq_str (get data "loan_type") "mortgage"
             && negb (truthy (get_default data "flood_cert_clear" (JBool true)))
             && negb (truthy (get_default data "flood_insurance_obtained" (JBool false)))
          then ["flood_insurance"] else []) /\
    total_checks r = 7%nat /\
    passed_checks r = (7 - Z.of_nat (List.length (failed_checks r)))%Z /\
    (3 <= passed_checks r <= 7)%Z /\
    (compliance_passed r = true <-> passed_checks r = 7%Z) /\
    (compliance_passed r = true <-> failed_checks r = []).
Proof.
  intros now loan_id data r.
  assert (Hf : failed_checks r =
      (if truthy (get_default data "aml_cleared" (JBool true)) then []
       else ["anti_money_laundering"])
      ++ (if truthy (get_default data "kyc_verified" (JBool true)) then []
          else ["know_your_customer"])
      ++ (if truthy (get_default data "tila_disclosed" (JBool true)) then []
          else ["truth_in_lending"])
      ++ (if eq_str (get data "loan_type") "mortgage"
             && negb (truthy (get_default data "flood_cert_clear" (JBool true)))
             && negb (truthy (get_default data "flood_insurance_obtained" (JBool false)))
          then ["flood_insurance"] else [])).
  { subst r. rewrite failed_checks_unfold. unfold Settings.COMPLIANCE_CHECKS, evaluate.
    cbn [filter String.eqb Ascii.eqb Bool.eqb fst snd truthy negb].
    destruct (eq_str (get data "loan_type") "mortgage");
      cbn [fst truthy negb andb]; rewrite ?truthy_or;
      destruct (truthy (get_default data "aml_cleared" (JBool true)));
      destruct (truthy (get_default data "kyc_verified" (JBool true)));
      destruct (truthy (get_default data "tila_disclosed" (JBool true)));
      destruct (truthy (get_default data "flood_cert_clear" (JBool true)));
      destruct (truthy (get_default data "flood_insurance_obtained" (JBool false)));
      reflexivity. }
  assert (Hp : compliance_passed r = true <-> failed_checks r = []).
  { subst r. unfold _run. cbn [compliance_passed failed_checks].
    generalize (loop now data Settings.COMPLIANCE_CHECKS 0 []). intros l.
    induction l as [|[k c] l IH]; cbn [forallb filter map fst snd]; [tauto|].
    destruct (truthy (passed c)); cbn [negb andb map]; [exact IH|].
    split; discriminate. }
  assert (Hn : passed_checks r = (7 - Z.of_nat (List.length (failed_checks r)))%Z)
    by reflexivity.
  split; [exact Hf|]. split; [reflexivity|]. split; [exact Hn|].
  rewrite Hp, Hn. clear Hp Hn. rewrite Hf.
  destruct (truthy (get_default data "aml_cleared" (JBool true)));
    destruct (truthy (get_default data "kyc_verified" (JBool true)));
    destruct (truthy (get_default data "tila_disclosed" (JBool true)));
    destruct (eq_str (get data "loan_type") "mortgage"
              && negb (truthy (get_default data "flood_cert_clear" (JBool true)))
              && negb (truthy (get_default data "flood_insurance_obtained" (JBool false))));
    cbn [app List.length]; repeat split; try lia; try discriminate; try reflexivity.
Qed.

Lemma compliance_failures_from_input_witness :
  let now : clock := fun _ => mk_datetime 2024 5 1 12 0 0 0 in
  let data := [("loan_type", JStr "mortgage"); ("flood_cert_clear", JBool false)] in
  failed_checks (_run now "LN-6" data) = ["flood_insurance"] /\
  passed_checks (_run now "LN-6" data) = 6%Z /\
  compliance_passed (_run now "LN-6" data) = false.
Proof.
  intros now data.
  destruct (compliance_failures_from_input now "LN-6" data) as (Hf & _ & Hp & _ & _ & Hc).
  split; [rewrite Hf; reflexivity|]. split; [rewrite Hp, Hf; reflexivity|].
  destruct (compliance_passed (_run now "LN-6" data)); [|reflexivity].
  rewrite Hf in Hc. destruct Hc as [Hc _]. discriminate (Hc eq_refl).
Defined.

(** X9. Every entry of [results] is filed under its own check name, the
    names are those of the catalogue in order, and the entry of the
    [i]-th check carries the [i]-th reading of the clock.  A failed check
    always has findings; a passed check has none, except for the flood
    check of a loan that is not a mortgage, which notes that it does not
    apply. *)
Theorem compliance_findings_discipline :
  forall (now : clock) (loan_id : string) (data : dict),
    let r := _run now loan_id data in
    map fst (results r) = Settings.COMPLIANCE_CHECKS /\
    (forall i k c, nth_error (results r) i = Some (k, c) ->
       check_name c = k /\ checked_date c = isoformat (now i)) /\
    (forall k c, In (k, c) (results r) ->
       (truthy (passed c) = false -> exists text, findings c = Some text) /\
       (truthy (passed c) = true ->
          findings c = None \/
          (k = "flood_insurance" /\ findings c = Some "N/A - not a mortgage" /\
           get data "loan_type" <> JStr "mortgage"))).
Proof.
  intros now loan_id data r. subst r. rewrite results_unfold.
  split; [reflexivity|]. split.
  - intros i k c H.
    do 7 (destruct i as [|i]; [cbn in H; injection H as <- <-; split; reflexivity|]).
    destruct i; discriminate H.
  - intros k c H. cbn [map In] in H.
    assert (Hu : forall p text, (truthy p = false -> exists t, unless p text = Some t) /\
                                (truthy p = true -> unless p text = None)).
    { intros p text. unfold unless. destruct (truthy p); split; eauto; discriminate. }
    unfold evaluate in H. cbn [String.eqb Ascii.eqb Bool.eqb fst snd] in H.
    destruct H as [H|[H|[H|[H|[H|[H|[H|[]]]]]]]];
      try (injection H as <- <-; cbn [passed findings truthy];
           split; [try discriminate; apply Hu|intros Ht; left; try reflexivity; apply Hu; exact Ht]).
    destruct (eq_str (get data "loan_type") "mortgage") eqn:E;
      cbn [fst snd] in H; injection H as <- <-; cbn [passed findings truthy].
    + split; [apply Hu|intros Ht; left; apply Hu; exact Ht].
    + split; [discriminate|]. intros _. right. split; [reflexivity|].
      split; [reflexivity|]. intros E'. rewrite E' in E. cbn in E. discriminate.
Qed.

Lemma compliance_findings_discipline_witness :
  let now : clock := fun n => mk_datetime 2024 5 1 12 0 (Z.of_nat n) 0 in
  exists c,
    lookup (results (_run now "LN-6" [("kyc_verified", JBool false)]))
      "know_your_customer" = Some c /\
    check_name c = "know_your_customer" /\
    checked_date c = "2024-05-01T12:00:01" /\
    exists text, findings c = Some text.
Proof.
  intros now.
  destruct (compliance_findings_discipline now "LN-6" [("kyc_verified", JBool false)])
    as (_ & Hnth & Hin).
  eexists. split; [reflexivity|].
  match goal with
  | |- check_name ?c = _ /\ _ =>
      destruct (Hnth 1%nat "know_your_customer" c eq_refl) as [Hn Hd];
      destruct (Hin "know_your_customer" c) as [Hfail _];
        [right; left; reflexivity|]
  end.
  split; [exact Hn|]. split; [rewrite Hd; reflexivity|]. apply Hfail. reflexivity.
Defined.

Lemma evaluate_agree data1 data2 check :
  (forall k, In k ["aml_cleared"; "kyc_verified"; "tila_disclosed"; "loan_type";
                   "flood_cert_clear"; "flood_insurance_obtained"] ->
             lookup data1 k = lookup data2 k) ->
  evaluate data1 check = evaluate data2 check.
Proof.
  intros H. unfold evaluate, get, get_default.
  rewrite !H by (cbn; tauto). reflexivity.
Qed.

(** X10. The validation reads six keys of the loan data and nothing else:
    two inputs that agree on them get the same result. *)
Theorem compliance_reads_six_keys :
  forall (now : clock) (loan_id : string) (data1 data2 : dict),
    (forall k, In k ["aml_cleared"; "kyc_verified"; "tila_disclosed"; "loan_type";
                     "flood_cert_clear"; "flood_insurance_obtained"] ->
               lookup data1 k = lookup data2 k) ->
    _run now loan_id data1 = _run now loan_id data2.
Proof.
  intros now loan_id data1 data2 H. unfold _run.
  assert (Hl : forall checks tick acc,
            loop now data1 checks tick acc = loop now data2 checks tick acc).
  { induction checks as [|c checks IH]; intros tick acc; [reflexivity|].
    cbn [loop]. rewrite (evaluate_agree data1 data2 c H).
    destruct (evaluate data2 c). apply IH. }
  rewrite Hl. reflexivity.
Qed.

Lemma compliance_reads_six_keys_witness :
  let now : clock := fun _ => mk_datetime 2024 5 1 12 0 0 0 in
  _run now "LN-6" [("loan_amount", JInt 250000); ("kyc_verified", JBool false)] =
  _run now "LN-6" [("kyc_verified", JBool false); ("borrower", JStr "A. Borrower")].
Proof.
  intros now. apply compliance_reads_six_keys.
  intros k Hk. cbn in Hk.
  repeat (destruct Hk as [<-|Hk]; [reflexivity|]). contradiction.
Defined.

End ComplianceReport.

(** ** The exception analysis on any issue value *)

Section AnalysisEdges.
Import ExceptionAnalyzer Tools.

(** No resolution list of the table, and not the default list, starts
    with the word kept for an empty list. *)
Lemma available_resolutions_head exception_type tag :
  let by_type :=
    match lookup resolutions exception_type with Some t => t | None => [] end in
  let available :=
    match lookup by_type tag with
    | Some v => v
    | None => ["Escalate to supervisor"]
    end in
  exists first rest, available = first :: rest /\ first <> "Escalate".
Proof.
  unfold resolutions. cbn [lookup].
  destruct (String.eqb "document" exception_type);
    [|destruct (String.eqb "compliance" exception_type);
      [|destruct (String.eqb "verification" exception_type);
        [|destruct (String.eqb "funding" exception_type)]]];
    cbn [lookup];
    repeat match goal with
           | |- context [String.eqb ?a tag] =>
               lazymatch a with
               | tag => fail
               | _ => destruct (String.eqb a tag)
               end
           end;
    do 2 eexists; (split; [reflexivity|discriminate]).
Qed.

Lemma run_edge_cases (exception_type : string) (details : dict) :
  let issue := get_default details "issue" (JStr "unknown") in
  (forall e, _run exception_type details = Raise e <->
     e = TypeError /\ ((exists l, issue = JArr l) \/ (exists o, issue = JObj o))) /\
  (forall r, _run exception_type details = Ok r ->
     (exists rest, proposed_resolutions r = recommended_action r :: rest) /\
     recommended_action r <> "Escalate" /\
     (escalation_required r = true -> sla_impact r = true) /\
     ((forall s, issue <> JStr s) ->
        proposed_resolutions r = ["Escalate to supervisor"] /\ severity r = "medium") /\
     (in_strs exception_type ["document"; "compliance"; "verification"; "funding"]
        = false ->
        proposed_resolutions r = ["Escalate to supervisor"] /\ severity r = "medium")).
Proof.
  intros issue. unfold _run. fold issue.
  assert (Hunknown :
    in_strs exception_type ["document"; "compliance"; "verification"; "funding"] = false ->
    lookup resolutions exception_type = None).
  { unfold in_strs, resolutions. cbn [existsb lookup].
    rewrite !(String.eqb_sym exception_type).
    destruct (String.eqb "document" exception_type); [discriminate|].
    destruct (String.eqb "compliance" exception_type); [discriminate|].
    destruct (String.eqb "verification" exception_type); [discriminate|].
    destruct (String.eqb "funding" exception_type); [discriminate|]. reflexivity. }
  assert (Hsev : forall v : json,
    in_strs exception_type ["document"; "compliance"; "verification"; "funding"] = false ->
    (if String.eqb exception_type "verification" && eq_str v "fraud_flag"
     then "critical"
     else if String.eqb exception_type "compliance" && eq_str v "failed_check"
     then "high"
     else if String.eqb exception_type "document" && eq_str v "missing"
     then "low" else "medium") = "medium").
  { unfold in_strs. cbn [existsb]. intros v.
    destruct (String.eqb exception_type "document"); [discriminate|].
    destruct (String.eqb exception_type "compliance"); [discriminate|].
    destruct (String.eqb exception_type "verification"); [discriminate|]. reflexivity. }
  clearbody issue.
  destruct issue as [| b | n | x | tag | l | o]; cbn [get_by_value bind eq_str andb].
  6: { split; [|discriminate]. intros e. split.
       - intros [= <-]. split; [reflexivity|]. left. eauto.
       - intros [-> _]. reflexivity. }
  6: { split; [|discriminate]. intros e. split.
       - intros [= <-]. split; [reflexivity|]. right. eauto.
       - intros [-> _]. reflexivity. }
  1-4: rewrite !andb_false_r.
  1-4: split; [intros e; split; [discriminate|intros [_ [[? ?]|[? ?]]]; discriminate]|].
  1-4: intros r H; apply Ok_inj in H; subst r;
       cbn [proposed_resolutions recommended_action escalation_required sla_impact
            severity in_strs existsb String.eqb Ascii.eqb Bool.eqb orb negb];
       split; [eexists; reflexivity|]; split; [discriminate|]; split; [discriminate|];
       split; intros _; split; reflexivity.
  split; [intros e; split; [discriminate|intros [_ [[? ?]|[? ?]]]; discriminate]|].
  intros r H. apply Ok_inj in H. subst r.
  cbn [proposed_resolutions recommended_action escalation_required sla_impact severity].
  destruct (available_resolutions_head exception_type tag) as (first & rest & Ha & Hne).
  cbv zeta in Ha. rewrite Ha.
  split; [eexists; reflexivity|]. split; [exact Hne|]. split; [|split].
  - set (s := if _ && _ then "critical" else _).
    destruct (severity_cases exception_type tag s eq_refl) as (_ & _ & _ & _ & Hs).
    clearbody s. destruct Hs as [-> | [-> | [-> | ->]]]; cbn; congruence.
  - intros Hs. exfalso. apply (Hs tag). reflexivity.
  - intros Hu. rewrite <- Ha. rewrite (Hunknown Hu). cbn [lookup].
    split; [reflexivity|]. apply (Hsev (JStr tag) Hu).
Qed.

(** X11. The analysis of any parsed argument fails in two ways only:
    with [AttributeError], exactly when the argument is not a dictionary,
    and with [TypeError], exactly when it is a dictionary whose issue is a
    list or a dictionary, which cannot be a key of the resolution table.
    When it returns, the resolution list is never empty, the recommended
    action is its first entry and never the fallback word "Escalate", and
    an escalation always comes with an SLA impact.  An issue that is no
    string (a number, a boolean, [None]), and any issue of a category
    outside the table, gets the one action "Escalate to supervisor" and
    severity medium. *)
Theorem analyzer_edge_cases :
  forall (exception_type : string) (exception_details : json),
    (forall details,
       exception_analyzer exception_type (JObj details) = _run exception_type details) /\
    (forall e, exception_analyzer exception_type exception_details = Raise e <->
       (e = AttributeError /\ forall details, exception_details <> JObj details) \/
       (e = TypeError /\
        exists details, exception_details = JObj details /\
          ((exists l, get_default details "issue" (JStr "unknown") = JArr l) \/
           (exists o, get_default details "issue" (JStr "unknown") = JObj o)))) /\
    (forall details r,
       exception_details = JObj details ->
       exception_analyzer exception_type exception_details = Ok r ->
       let issue := get_default details "issue" (JStr "unknown") in
       (exists rest, proposed_resolutions r = recommended_action r :: rest) /\
       recommended_action r <> "Escalate" /\
       (escalation_required r = true -> sla_impact r = true) /\
       ((forall s, issue <> JStr s) ->
          proposed_resolutions r = ["Escalate to supervisor"] /\ severity r = "medium") /\
       (in_strs exception_type ["document"; "compliance"; "verification"; "funding"]
          = false ->
          proposed_resolutions r = ["Escalate to supervisor"] /\ severity r = "medium")).
Proof.
  intros exception_type exception_details.
  split; [reflexivity|]. split.
  - intros e. destruct exception_details as [| | | | | |details].
    1-6: split;
      [intros [= <-]; left; split; [reflexivity|discriminate]
      |intros [[-> _]|(_ & details & H & _)]; [reflexivity|discriminate]].
    change (exception_analyzer exception_type (JObj details))
      with (_run exception_type details).
    rewrite (proj1 (run_edge_cases exception_type details) e). split.
    + intros [-> H]. right. split; [reflexivity|]. exists details. split; [reflexivity|exact H].
    + intros [[_ H]|(-> & details' & [= <-] & H)].
      * exfalso. apply (H details). reflexivity.
      * split; [reflexivity|exact H].
  - intros details r -> H.
    apply (proj2 (run_edge_cases exception_type details) r H).
Qed.

Lemma analyzer_edge_cases_witness :
  exception_analyzer "document" (JArr []) = Raise AttributeError /\
  exception_analyzer "document" (JObj [("issue", JArr [JStr "missing"])])
    = Raise TypeError /\
  exists r, exception_analyzer "collateral" (JObj [("issue", JStr "missing")]) = Ok r /\
            proposed_resolutions r = ["Escalate to supervisor"] /\ severity r = "medium".
Proof.
  split; [|split].
  - apply (proj1 (proj2 (analyzer_edge_cases "document" (JArr [])))).
    left. split; [reflexivity|discriminate].
  - apply (proj1 (proj2 (analyzer_edge_cases "document"
                           (JObj [("issue", JArr [JStr "missing"])])))).
    right. split; [reflexivity|]. eexists. split; [reflexivity|]. left. eexists. reflexivity.
  - eexists. split; [reflexivity|].
    apply (proj2 (proj2 (analyzer_edge_cases "collateral" (JObj [("issue", JStr "missing")])))
             [("issue", JStr "missing")] _ eq_refl eq_refl).
    reflexivity.
Defined.

End AnalysisEdges.

(** ** The analyzer and the exception catalogue *)

Section AnalysisCatalogue.
Import ExceptionAnalyzer Categories.

Lemma known_issue_listed exception_type tag :
  known_issue exception_type tag = listed exception_type tag.
Proof.
  unfold known_issue, listed, resolutions, EXCEPTION_CATEGORIES, mem, in_strs.
  cbn [lookup].
  destruct (String.eqb "document" exception_type);
    [|destruct (String.eqb "compliance" exception_type);
      [|destruct (String.eqb "verification" exception_type);
        [|destruct (String.eqb "funding" exception_type)]]];
    cbn [lookup existsb]; try reflexivity;
    rewrite !(String.eqb_sym tag);
    repeat match goal with
           | |- context [String.eqb ?a tag] => destruct (String.eqb a tag)
           end; reflexivity.
Qed.

Lemma listed_resolutions exception_type tag :
  let by_type :=
    match lookup resolutions exception_type with Some t => t | None => [] end in
  let available :=
    match lookup by_type tag with
    | Some v => v
    | None => ["Escalate to supervisor"]
    end in
  known_issue exception_type tag = true ->
  (2 <= List.length available)%nat /\ ~ In "Escalate to supervisor" available.
Proof.
  unfold known_issue, mem, resolutions. cbn [lookup].
  destruct (String.eqb "document" exception_type);
    [|destruct (String.eqb "compliance" exception_type);
      [|destruct (String.eqb "verification" exception_type);
        [|destruct (String.eqb "funding" exception_type)]]];
    cbn [lookup]; try discriminate;
    repeat match goal with
           | |- context [String.eqb ?a tag] =>
               lazymatch a with
               | tag => fail
               | _ => destruct (String.eqb a tag)
               end
           end;
    try discriminate; intros _; (split; [cbn; lia|cbn; intuition discriminate]).
Qed.

(** X12. The resolution table of the analyzer and the catalogue
    [EXCEPTION_CATEGORIES] of the settings list the same categories and
    the same issues, in the same order.  So an exception gets the
    fallback action "Escalate to supervisor" exactly when its category
    and issue are not in the catalogue, and at least two specific actions
    when they are. *)
Theorem analyzer_covers_the_exception_catalogue :
  map (fun kv => (fst kv, map fst (snd kv))) resolutions = EXCEPTION_CATEGORIES /\
  forall (exception_type : string) (details : dict) (tag : string) (r : analysis),
    get_default details "issue" (JStr "unknown") = JStr tag ->
    _run exception_type details = Ok r ->
    (proposed_resolutions r = ["Escalate to supervisor"] <->
       listed exception_type tag = false) /\
    (listed exception_type tag = true ->
       (2 <= List.length (proposed_resolutions r))%nat /\
       ~ In "Escalate to supervisor" (proposed_resolutions r)).
Proof.
  split; [reflexivity|].
  intros exception_type details tag r Hissue. unfold _run. rewrite Hissue.
  cbn [get_by_value bind]. intros H. apply Ok_inj in H. subst r.
  cbn [proposed_resolutions].
  rewrite <- known_issue_listed.
  destruct (available_resolutions_cases exception_type tag) as (_ & Hunk & _).
  pose proof (listed_resolutions exception_type tag) as Hknown.
  cbv zeta in Hunk, Hknown.
  destruct (known_issue exception_type tag).
  - destruct (Hknown eq_refl) as [Hlen Hnot]. split; [|auto].
    split; [|discriminate]. intros E. rewrite E in Hnot. exfalso. apply Hnot. left.
    reflexivity.
  - split; [|discriminate]. split; [reflexivity|]. intros _. apply Hunk. reflexivity.
Qed.

Lemma analyzer_covers_the_exception_catalogue_witness :
  exists r,
    _run "funding" [("issue", JStr "wire_error")] = Ok r /\
    (2 <= List.length (proposed_resolutions r))%nat.
Proof.
  eexists. split; [reflexivity|].
  apply (proj2 analyzer_covers_the_exception_catalogue "funding"
           [("issue", JStr "wire_error")] "wire_error" _ eq_refl eq_refl).
  reflexivity.
Defined.

End AnalysisCatalogue.

(** ** Fee overrides and the fee table *)

Section FeeOverrides.
Import Datetime Float FundingCalculator.

Lemma lookup_set_same {A} (d : list (string * A)) k v : lookup (set d k v) k = Some v.
Proof.
  induction d as [|[k' v'] d IH]; cbn [set lookup].
  - rewrite String.eqb_refl. reflexivity.
  - destruct (String.eqb k' k) eqn:E; cbn [lookup]; rewrite E; [reflexivity|exact IH].
Qed.

Lemma lookup_set_other {A} (d : list (string * A)) k v k' :
  k <> k' -> lookup (set d k v) k' = lookup d k'.
Proof.
  intros Hne. induction d as [|[k0 v0] d IH]; cbn [set lookup].
  - apply String.eqb_neq in Hne. rewrite Hne. reflexivity.
  - destruct (String.eqb k0 k) eqn:E; cbn [lookup].
    + apply String.eqb_eq in E. subst k0.
      apply String.eqb_neq in Hne. rewrite Hne. reflexivity.
    + destruct (String.eqb k0 k'); [reflexivity|exact IH].
Qed.

Lemma lookup_absent {A} (d : list (string * A)) k :
  ~ In k (map fst d) -> lookup d k = None.
Proof.
  induction d as [|[k' v'] d IH]; cbn [map fst In lookup]; [reflexivity|].
  intros H. destruct (String.eqb k' k) eqn:E.
  - apply String.eqb_eq in E. tauto.
  - apply IH. tauto.
Qed.

(** [d.update(other)]: a key of [other] gets the value of [other], any
    other key keeps the value of [d]. *)
Lemma lookup_update (other : dict) : forall (d : dict) k,
  NoDup (map fst other) ->
  lookup (update d other) k =
    match lookup other k with Some v => Some v | None => lookup d k end.
Proof.
  unfold update.
  induction other as [|[k0 v0] other IH]; intros d k Hnd; cbn [fold_left lookup fst snd];
    [reflexivity|].
  inversion Hnd as [|? ? Hnotin Hnd']; subst.
  rewrite IH by exact Hnd'.
  destruct (String.eqb k0 k) eqn:E.
  - apply String.eqb_eq in E. subst k0.
    rewrite (lookup_absent other k Hnotin). apply lookup_set_same.
  - apply String.eqb_neq in E. rewrite (lookup_set_other d k0 v0 k E). reflexivity.
Qed.

Lemma keys_set {A} (d : list (string * A)) k v :
  map fst (set d k v) = map fst d ++ (if mem d k then [] else [k]).
Proof.
  unfold mem. induction d as [|[k' v'] d IH]; cbn [set lookup map fst app]; [reflexivity|].
  destruct (String.eqb k' k) eqn:E; cbn [map fst].
  - rewrite app_nil_r. reflexivity.
  - rewrite IH. reflexivity.
Qed.

(** The keys of [d] keep their places, new keys are added behind them. *)
Lemma keys_update (other : dict) : forall d : dict,
  exists extra, map fst (update d other) = map fst d ++ extra /\
                incl extra (map fst other).
Proof.
  unfold update.
  induction other as [|[k0 v0] other IH]; intros d; cbn [fold_left fst snd].
  - exists []. rewrite app_nil_r. split; [reflexivity|]. intros x [].
  - destruct (IH (set d k0 v0)) as (extra & He & Hi).
    rewrite He, keys_set, <- app_assoc. eexists. split; [reflexivity|].
    intros x Hx. apply in_app_or in Hx. destruct Hx as [Hx|Hx].
    + destruct (mem d k0); [contradiction|]. destruct Hx as [<-|[]]. left. reflexivity.
    + right. apply Hi. exact Hx.
Qed.

(** What a run that returns has computed for the fees and the date. *)
Lemma run_parts now loan_amount interest_rate loan_type fee_data r :
  _run now loan_amount interest_rate loan_type fee_data = Ok r ->
  fee_breakdown r =
    update (match lookup (standard_fees loan_amount) loan_type with
            | Some fees => fees
            | None => Settings.index (standard_fees loan_amount) "personal" []
            end) fee_data /\
  exists funding_date,
    add_days (now 0%nat) 2 = Ok funding_date /\
    estimated_funding_date r = strftime_ymd funding_date.
Proof.
  unfold _run. cbv zeta.
  destruct (py_sum _) as [total|]; cbn [bind]; [|discriminate].
  destruct (py_sub _ total) as [net|]; cbn [bind]; [|discriminate].
  destruct (py_round2 total) as [rf|]; cbn [bind]; [|discriminate].
  destruct (py_sub net _) as [net'|]; cbn [bind]; [|discriminate].
  destruct (py_round2 net') as [rn|]; cbn [bind]; [|discriminate].
  destruct (add_days _ _) as [fd|]; cbn [bind]; [|discriminate].
  intros H. apply Ok_inj in H. subst r. split; [reflexivity|]. eauto.
Qed.

(** X13. Fee overrides: in the fee breakdown a fee named in [fees] has the
    value given there, every other standard fee of the loan type keeps
    its standard value, and no other fee appears; the standard fees keep
    their places and new fees follow them. *)
Theorem fee_overrides_replace_standard_fees :
  forall (now : clock) (loan_amount interest_rate : float64) (loan_type : string)
         (fee_data : dict) (r : funding),
    NoDup (map fst fee_data) ->
    _run now loan_amount interest_rate loan_type fee_data = Ok r ->
    let standard :=
      match lookup (standard_fees loan_amount) loan_type with
      | Some fees => fees
      | None => Settings.index (standard_fees loan_amount) "personal" []
      end in
    (forall k, lookup (fee_breakdown r) k =
               match lookup fee_data k with
               | Some v => Some v
               | None => lookup standard k
               end) /\
    (exists extra, map fst (fee_breakdown r) = map fst standard ++ extra /\
                   incl extra (map fst fee_data)) /\
    (fee_data = [] -> fee_breakdown r = standard).
Proof.
  intros now loan_amount interest_rate loan_type fee_data r Hnd Hr standard.
  apply run_parts in Hr. destruct Hr as [Hr _]. fold standard in Hr. rewrite Hr.
  split; [intros k; apply lookup_update; exact Hnd|].
  split; [apply keys_update|]. intros ->. reflexivity.
Qed.

Lemma fee_overrides_replace_standard_fees_witness :
  let now : clock := fun _ => mk_datetime 2024 5 1 12 0 0 0 in
  let fee_data := [("processing_fee", JInt 0); ("courier_fee", JInt 35)] in
  exists r,
    _run now (literal 10000 1) (literal 5 1) "personal" fee_data = Ok r /\
    lookup (fee_breakdown r) "processing_fee" = Some (JInt 0) /\
    lookup (fee_breakdown r) "courier_fee" = Some (JInt 35) /\
    lookup (fee_breakdown r) "origination_fee" =
      Some (JFloat (mul (literal 10000 1) (literal 2 100))).
Proof.
  intros now fee_data.
  assert (Hrun : exists r, _run now (literal 10000 1) (literal 5 1) "personal" fee_data
                           = Ok r) by (eexists; vm_compute; reflexivity).
  destruct Hrun as [r E]. exists r. split; [exact E|].
  assert (Hnd : NoDup (map fst fee_data)).
  { repeat constructor; cbn; intuition discriminate. }
  destruct (fee_overrides_replace_standard_fees now _ _ _ fee_data r Hnd E) as (H & _ & _).
  rewrite !H. repeat split.
Defined.

Lemma py_add_raises a b e :
  py_add a b = Raise e -> e = TypeError \/ e = OverflowError.
Proof.
  unfold py_add, binop, number_of, of_int.
  destruct a, b; cbn [bind]; try (intros [= <-]; auto); try discriminate.
  all: match goal with
       | |- context [nearest ?s ?n ?d] => destruct (nearest s n d)
       end; cbn [bind]; try discriminate; intros [= <-]; auto.
Qed.

Lemma py_sum_from_raises values : forall acc e,
  py_sum_from acc values = Raise e -> e = TypeError \/ e = OverflowError.
Proof.
  induction values as [|v values IH]; intros acc e; cbn [py_sum_from]; [discriminate|].
  destruct (py_add acc v) as [acc'|e'] eqn:E; cbn [bind].
  - apply IH.
  - intros [= <-]. eapply py_add_raises. exact E.
Qed.

Lemma py_add_not_number a v : is_ok (number_of v) = false -> is_ok (py_add a v) = false.
Proof.
  unfold py_add, binop. destruct (number_of a); [|reflexivity]. cbn [bind].
  destruct (number_of v); [discriminate|reflexivity].
Qed.

Lemma py_sum_from_not_number values v : forall acc,
  In v values -> is_ok (number_of v) = false -> is_ok (py_sum_from acc values) = false.
Proof.
  induction values as [|w values IH]; intros acc Hin Hv; [contradiction|].
  cbn [py_sum_from]. destruct Hin as [->|Hin].
  - pose proof (py_add_not_number acc v Hv) as H.
    destruct (py_add acc v); [discriminate|reflexivity].
  - destruct (py_add acc w); [|reflexivity]. cbn [bind]. apply IH; assumption.
Qed.

(** X14. A fee override that is not a number (a string, [None], a list, a
    dictionary) makes the calculation fail: the sum of the fees raises,
    with [TypeError], or with [OverflowError] when an integer fee before
    it is too large for a float. *)
Theorem non_numeric_fee_is_rejected :
  forall (now : clock) (loan_amount interest_rate : float64) (loan_type : string)
         (fee_data : dict) (k : string) (v : json),
    NoDup (map fst fee_data) ->
    lookup fee_data k = Some v ->
    is_ok (number_of v) = false ->
    exists e, _run now loan_amount interest_rate loan_type fee_data = Raise e /\
              (e = TypeError \/ e = OverflowError).
Proof.
  intros now loan_amount interest_rate loan_type fee_data k v Hnd Hk Hv.
  unfold _run. cbv zeta.
  set (fees := update _ fee_data).
  assert (Hin : In v (map snd fees)).
  { apply in_map_iff. exists (k, v). split; [reflexivity|].
    apply lookup_In. unfold fees. rewrite lookup_update by exact Hnd.
    rewrite Hk. reflexivity. }
  pose proof (py_sum_from_not_number _ v (JInt 0) Hin Hv) as Hfail.
  unfold py_sum. destruct (py_sum_from (JInt 0) (map snd fees)) as [t|e] eqn:E;
    [discriminate|].
  exists e. split; [reflexivity|]. eapply py_sum_from_raises. exact E.
Qed.

Lemma non_numeric_fee_is_rejected_witness :
  let now : clock := fun _ => mk_datetime 2024 5 1 12 0 0 0 in
  _run now (literal 10000 1) (literal 5 1) "auto" [("documentation_fee", JStr "75")]
    = Raise TypeError.
Proof.
  intros now.
  destruct (non_numeric_fee_is_rejected now (literal 10000 1) (literal 5 1) "auto"
              [("documentation_fee", JStr "75")] "documentation_fee" (JStr "75"))
    as (e & He & _).
  - repeat constructor. cbn. tauto.
  - reflexivity.
  - reflexivity.
  - vm_compute. reflexivity.
Defined.

(** X15. A loan type outside the fee table is charged the personal fees:
    the result is the one of a personal loan, except for the loan type it
    echoes. *)
Theorem unknown_loan_type_pays_personal_fees :
  forall (now : clock) (loan_amount interest_rate : float64) (loan_type : string)
         (fee_data : dict),
    in_strs loan_type ["mortgage"; "personal"; "auto"; "business"] = false ->
    _run now loan_amount interest_rate loan_type fee_data =
      (r <- _run now loan_amount interest_rate "personal" fee_data ;;
       Ok (mk_funding (FundingCalculator.loan_amount r) (FundingCalculator.interest_rate r)
             loan_type (fee_breakdown r) (total_fees r) (prepaid_interest r)
             (net_disbursement r) (funding_method r) (estimated_funding_date r))).
Proof.
  intros now loan_amount interest_rate loan_type fee_data H.
  assert (Hfees : lookup (standard_fees loan_amount) loan_type = None).
  { unfold in_strs, existsb in H. unfold standard_fees, lookup.
    rewrite !(String.eqb_sym _ loan_type).
    destruct (String.eqb loan_type "mortgage"); [discriminate|].
    destruct (String.eqb loan_type "personal"); [discriminate|].
    destruct (String.eqb loan_type "auto"); [discriminate|].
    destruct (String.eqb loan_type "business"); [discriminate|]. reflexivity. }
  unfold _run. cbv zeta. rewrite Hfees.
  change (lookup (standard_fees loan_amount) "personal")
    with (Some (Settings.index (standard_fees loan_amount) "personal" [])).
  cbv iota.
  destruct (py_sum _) as [total|]; cbn [bind]; [|reflexivity].
  destruct (py_sub _ total) as [net|]; cbn [bind]; [|reflexivity].
  destruct (py_round2 total) as [rf|]; cbn [bind]; [|reflexivity].
  destruct (py_sub net _) as [net'|]; cbn [bind]; [|reflexivity].
  destruct (py_round2 net') as [rn|]; cbn [bind]; [|reflexivity].
  destruct (add_days _ _) as [fd|]; cbn [bind]; reflexivity.
Qed.

Lemma unknown_loan_type_pays_personal_fees_witness :
  let now : clock := fun _ => mk_datetime 2024 5 1 12 0 0 0 in
  _run now (literal 10000 1) (literal 5 1) "student" [] =
    (r <- _run now (literal 10000 1) (literal 5 1) "personal" [] ;;
     Ok (mk_funding (FundingCalculator.loan_amount r) (FundingCalculator.interest_rate r)
           "student" (fee_breakdown r) (total_fees r) (prepaid_interest r)
           (net_disbursement r) (funding_method r) (estimated_funding_date r))).
Proof.
  intros now.
  apply (unknown_loan_type_pays_personal_fees now _ _ "student" [] eq_refl).
Defined.

End FeeOverrides.

(** ** The estimated funding date *)

Section FundingDate.
Import Datetime Float FundingCalculator Calendar.
Local Open Scope Z_scope.

Lemma all_ok_spec check count : forall first,
  all_ok check count first = true ->
  forall n, first <= n < first + Z.of_nat count -> check n = true.
Proof.
  induction count as [|count IH]; intros first H n Hn; [lia|].
  cbn [all_ok] in H. destruct (check first) eqn:E; [|discriminate].
  destruct (Z.eq_dec n first) as [->|Hne]; [exact E|].
  apply (IH (first + 1) H). lia.
Qed.

Lemma cycle_checked : all_ok cycle_ok (Z.to_nat 146097) 1 = true.
Proof. vm_compute. reflexivity. Qed.

Lemma years_checked : all_ok year_ok (Z.to_nat 9000) 1000 = true.
Proof. vm_compute. reflexivity. Qed.

Lemma is_leap_shift y k : is_leap (y + 400 * k) = is_leap y.
Proof.
  unfold is_leap.
  replace (y + 400 * k) with (y + (100 * k) * 4) at 1 by lia.
  replace (y + 400 * k) with (y + (4 * k) * 100) at 1 by lia.
  replace (y + 400 * k) with (y + k * 400) by lia.
  rewrite !Z_mod_plus_full. reflexivity.
Qed.

Lemma days_before_year_shift y k :
  days_before_year (y + 400 * k) = days_before_year y + 146097 * k.
Proof.
  unfold days_before_year. cbv zeta.
  replace (y + 400 * k - 1) with (y - 1 + (100 * k) * 4) at 2 by lia.
  replace (y + 400 * k - 1) with (y - 1 + (4 * k) * 100) at 2 by lia.
  replace (y + 400 * k - 1) with (y - 1 + k * 400) at 2 by lia.
  rewrite !Z.div_add by lia. lia.
Qed.

Lemma days_in_month_shift y k m : days_in_month (y + 400 * k) m = days_in_month y m.
Proof. unfold days_in_month. rewrite is_leap_shift. reflexivity. Qed.

Lemma ymd2ord_shift y k m d : ymd2ord (y + 400 * k) m d = ymd2ord y m d + 146097 * k.
Proof.
  unfold ymd2ord, days_before_month. rewrite is_leap_shift, days_before_year_shift. lia.
Qed.

Lemma ord2ymd_shift n k :
  1 <= n <= 146097 ->
  ord2ymd (n + 146097 * k) = let '(y, m, d) := ord2ymd n in (y + 400 * k, m, d).
Proof.
  intros Hn. unfold ord2ymd. cbv zeta.
  replace (n + 146097 * k - 1) with (n - 1 + k * 146097) by lia.
  rewrite Z.div_add, Z_mod_plus_full by lia.
  rewrite (Z.div_small (n - 1)), (Z.mod_small (n - 1)) by lia.
  repeat match goal with
         | |- context [if ?c then _ else _] =>
             lazymatch c with
             | context [if _ then _ else _] => fail
             | _ => destruct c
             end
         end; f_equal; f_equal; lia.
Qed.

(** Every day number of the calendar is the number of one date. *)
Lemma ord2ymd_valid n :
  1 <= n <= MAXORDINAL ->
  exists y m d, ord2ymd n = (y, m, d) /\
    1 <= y <= MAXYEAR /\ 1 <= m <= 12 /\ 1 <= d <= days_in_month y m /\
    ymd2ord y m d = n.
Proof.
  unfold MAXORDINAL, MAXYEAR. intros Hn.
  set (k := (n - 1) / 146097). set (n0 := (n - 1) mod 146097 + 1).
  assert (Hk : 0 <= k < 25) by (unfold k; split;
    [apply Z.div_pos; lia|apply Z.div_lt_upper_bound; lia]).
  assert (Hn0 : 1 <= n0 <= 146097)
    by (unfold n0; pose proof (Z.mod_pos_bound (n - 1) 146097); lia).
  assert (Hsplit : n = n0 + 146097 * k)
    by (unfold n0, k; pose proof (Z.div_mod (n - 1) 146097); lia).
  pose proof (all_ok_spec _ _ _ cycle_checked n0) as Hc.
  rewrite Z2Nat.id in Hc by lia. specialize (Hc ltac:(lia)).
  rewrite Hsplit, ord2ymd_shift by exact Hn0.
  unfold cycle_ok in Hc. destruct (ord2ymd n0) as [[y m] d].
  rewrite !andb_true_iff, orb_true_iff, !Z.leb_le, Z.ltb_lt, Z.eqb_eq in Hc.
  exists (y + 400 * k), m, d. split; [reflexivity|].
  rewrite days_in_month_shift, ymd2ord_shift. lia.
Qed.

Lemma month_cases m :
  1 <= m <= 12 ->
  m = 1 \/ m = 2 \/ m = 3 \/ m = 4 \/ m = 5 \/ m = 6 \/ m = 7 \/ m = 8
  \/ m = 9 \/ m = 10 \/ m = 11 \/ m = 12.
Proof. lia. Qed.

(** The days before a month and the days of a month, within their bounds. *)
Lemma month_bounds y m :
  1 <= m <= 12 ->
  0 <= days_before_month y m /\
  days_before_month y m + days_in_month y m <= 366 /\
  1 <= days_in_month y m <= 31.
Proof.
  intros Hm. unfold days_before_month, days_in_month.
  destruct (month_cases m Hm) as [->|[->|[->|[->|[->|[->|[->|[->|[->|[->|[->| ->]]]]]]]]]]];
    destruct (is_leap y); vm_compute; intuition discriminate.
Qed.

Lemma ymd2ord_positive y m d :
  1 <= m <= 12 -> 1 <= d -> days_before_year y + 1 <= ymd2ord y m d.
Proof.
  intros Hm Hd. unfold ymd2ord. pose proof (month_bounds y m Hm). lia.
Qed.

Lemma ymd2ord_upper y m d :
  1 <= m <= 12 -> d <= days_in_month y m -> ymd2ord y m d <= days_before_year y + 366.
Proof.
  intros Hm Hd. unfold ymd2ord. pose proof (month_bounds y m Hm). lia.
Qed.

Lemma days_before_year_mono y1 y2 :
  y1 + 1 <= y2 -> days_before_year y1 + 366 <= days_before_year y2 + 1.
Proof.
  unfold days_before_year. cbv zeta. intros H. Z.div_mod_to_equations. lia.
Qed.

Lemma delta_time_ok t n :
  time_ok t = true ->
  delta n (seconds_of_day t) (microsecond t) =
    mk_timedelta n (seconds_of_day t) (microsecond t).
Proof.
  unfold time_ok, delta, seconds_of_day. intros Ht.
  rewrite !andb_true_iff, !Z.leb_le in Ht. cbv zeta.
  rewrite (Z.div_small (microsecond t)), (Z.mod_small (microsecond t)) by lia.
  rewrite Z.add_0_r, Z.div_small, Z.mod_small by lia.
  f_equal. lia.
Qed.

(** [t + timedelta(days=n)] is the date whose day number is [n] more, at
    the same time of day, as long as the calendar has that day. *)
Lemma add_days_spec t n :
  time_ok t = true ->
  (forall t', add_days t n = Ok t' ->
     date_ok t' = true /\ toordinal t' = toordinal t + n) /\
  (MAXORDINAL < toordinal t + n -> add_days t n = Raise OverflowError).
Proof.
  intros Ht. unfold add_days. cbv zeta. rewrite (delta_time_ok t _ Ht).
  cbn [days seconds microseconds]. split.
  - intros t'. destruct ((0 <? toordinal t + n) && (toordinal t + n <=? MAXORDINAL)) eqn:E;
      [|discriminate].
    rewrite andb_true_iff, Z.ltb_lt, Z.leb_le in E.
    destruct (ord2ymd_valid (toordinal t + n)) as (y & m & d & Ho & Hy & Hm & Hd & Hback);
      [lia|].
    rewrite Ho. intros H. apply Ok_inj in H. subst t'.
    unfold date_ok, toordinal. cbn [year month day].
    split; [|exact Hback].
    rewrite !andb_true_iff, !Z.leb_le. lia.
  - intros Hmax. replace (toordinal t + n <=? MAXORDINAL) with false
      by (symmetry; apply Z.leb_gt; exact Hmax).
    rewrite andb_false_r. reflexivity.
Qed.

Lemma pad4_year y :
  1000 <= y <= 9999 ->
  exists a b c d da db dc dd,
    pad 4 y = String a (String b (String c (String d EmptyString))) /\
    digit a = Some da /\ digit b = Some db /\ digit c = Some dc /\ digit d = Some dd /\
    1000 * da + 100 * db + 10 * dc + dd = y.
Proof.
  intros Hy. pose proof (all_ok_spec _ _ _ years_checked y) as H.
  rewrite Z2Nat.id in H by lia. specialize (H ltac:(lia)).
  unfold year_ok in H.
  destruct (pad 4 y) as [|a [|b [|c [|d [|? ?]]]]] eqn:Ep; try discriminate.
  destruct (digit a) as [da|] eqn:Ea; [|discriminate].
  destruct (digit b) as [db|] eqn:Eb; [|discriminate].
  destruct (digit c) as [dc|] eqn:Ec; [|discriminate].
  destruct (digit d) as [dd|] eqn:Ed; [|discriminate].
  apply Z.eqb_eq in H. exists a, b, c, d, da, db, dc, dd.
  repeat split; assumption.
Qed.

Lemma parse_month_pad m rest :
  1 <= m <= 12 -> parse_month (pad 2 m ++ String "-" rest) = Some (m, rest).
Proof.
  intros Hm.
  destruct (month_cases m Hm) as [->|[->|[->|[->|[->|[->|[->|[->|[->|[->|[->| ->]]]]]]]]]]];
    reflexivity.
Qed.

Lemma parse_day_pad d :
  1 <= d <= 31 -> parse_day (pad 2 d) = Some (d, EmptyString).
Proof.
  intros Hd.
  assert (H : forallb (fun d => match parse_day (pad 2 d) with
                                | Some (d', EmptyString) => d' =? d
                                | _ => false
                                end)
                (map Z.of_nat (seq 1 31)) = true) by (vm_compute; reflexivity).
  rewrite forallb_forall in H. specialize (H d).
  assert (Hin : In d (map Z.of_nat (seq 1 31))).
  { apply in_map_iff. exists (Z.to_nat d). split; [lia|]. apply in_seq. lia. }
  apply H in Hin. destruct (parse_day (pad 2 d)) as [[d' [|? ?]]|]; try discriminate.
  apply Z.eqb_eq in Hin. subst d'. reflexivity.
Qed.

(** The date that [strftime("%Y-%m-%d")] prints is read back by
    [strptime] with the same format, for the years of four digits. *)
Lemma strptime_strftime t :
  date_ok t = true -> 1000 <= year t ->
  strptime_ymd (strftime_ymd t) = Ok (mk_datetime (year t) (month t) (day t) 0 0 0 0).
Proof.
  unfold date_ok, MAXYEAR. intros Hok Hy.
  rewrite !andb_true_iff, !Z.leb_le in Hok.
  destruct (pad4_year (year t)) as (a & b & c & d & da & db & dc & dd & Hp & Ha & Hb & Hc & Hd & He);
    [lia|].
  unfold strftime_ymd. rewrite Hp. cbn [append]. unfold strptime_ymd.
  rewrite Ha, Hb, Hc, Hd, parse_month_pad by lia.
  pose proof (month_bounds (year t) (month t) ltac:(lia)) as Hmb.
  rewrite parse_day_pad by lia. rewrite He. unfold new, MAXYEAR.
  replace (_ && _) with true; [reflexivity|].
  symmetry. rewrite !andb_true_iff, !Z.leb_le. lia.
Qed.

(** X16. The estimated funding date is the calendar date two days after
    the reading of the clock, month ends, year ends and leap days
    included, printed as [YYYY-MM-DD]; read with the date format of the
    document verifier it gives that date back.  A clock within the last
    two days of the year 9999 makes the calculation fail. *)
Theorem funding_date_is_two_days_ahead :
  forall (now : clock) (loan_amount interest_rate : float64) (loan_type : string)
         (fee_data : dict),
    time_ok (now 0%nat) = true ->
    (forall r, _run now loan_amount interest_rate loan_type fee_data = Ok r ->
       exists t,
         date_ok t = true /\ toordinal t = toordinal (now 0%nat) + 2 /\
         estimated_funding_date r = strftime_ymd t /\
         (date_ok (now 0%nat) = true -> 1000 <= year (now 0%nat) ->
          strptime_ymd (estimated_funding_date r) =
            Ok (mk_datetime (year t) (month t) (day t) 0 0 0 0))) /\
    (MAXORDINAL < toordinal (now 0%nat) + 2 ->
     exists e, _run now loan_amount interest_rate loan_type fee_data = Raise e).
Proof.
  intros now loan_amount interest_rate loan_type fee_data Ht.
  destruct (add_days_spec (now 0%nat) 2 Ht) as [Hadd Hover]. split.
  - intros r Hr. apply run_parts in Hr. destruct Hr as (_ & t & Ha & He).
    destruct (Hadd t Ha) as [Hok Hord].
    exists t. split; [exact Hok|]. split; [exact Hord|]. split; [exact He|].
    intros Hnow Hy. rewrite He. apply strptime_strftime; [exact Hok|].
    unfold date_ok, MAXYEAR in Hok, Hnow.
    rewrite !andb_true_iff, !Z.leb_le in Hok, Hnow.
    destruct (Z_lt_le_dec (year t) 1000) as [Hlt|Hge]; [exfalso|exact Hge].
    pose proof (ymd2ord_positive (year (now 0%nat)) (month (now 0%nat)) (day (now 0%nat))
                  ltac:(lia) ltac:(lia)) as Hlow.
    pose proof (ymd2ord_upper (year t) (month t) (day t) ltac:(lia) ltac:(lia)) as Hup.
    pose proof (days_before_year_mono (year t) (year (now 0%nat)) ltac:(lia)) as Hmono.
    unfold toordinal in Hord. lia.
  - intros Hmax. specialize (Hover Hmax). unfold _run. cbv zeta.
    destruct (py_sum _) as [total|]; cbn [bind]; [|eauto].
    destruct (py_sub _ total) as [net|]; cbn [bind]; [|eauto].
    destruct (py_round2 total) as [rf|]; cbn [bind]; [|eauto].
    destruct (py_sub net _) as [net'|]; cbn [bind]; [|eauto].
    destruct (py_round2 net') as [rn|]; cbn [bind]; [|eauto].
    rewrite Hover. cbn [bind]. eauto.
Qed.

Lemma funding_date_is_two_days_ahead_witness :
  let now : clock := fun _ => mk_datetime 2024 2 28 16 45 0 0 in
  exists r t,
    _run now (literal 10000 1) (literal 5 1) "personal" [] = Ok r /\
    estimated_funding_date r = "2024-03-01"%string /\
    toordinal t = toordinal (now 0%nat) + 2 /\
    estimated_funding_date r = strftime_ymd t /\
    strptime_ymd (estimated_funding_date r) =
      Ok (mk_datetime (year t) (month t) (day t) 0 0 0 0).
Proof.
  intros now.
  assert (Hrun : exists r, _run now (literal 10000 1) (literal 5 1) "personal" [] = Ok r /\
                           estimated_funding_date r = "2024-03-01"%string).
  { eexists. split; vm_compute; reflexivity. }
  destruct Hrun as (r & E & Hdate).
  destruct (funding_date_is_two_days_ahead now (literal 10000 1) (literal 5 1)
              "personal" [] eq_refl) as [H _].
  destruct (H r E) as (t & _ & Hord & Hd & Hp).
  exists r, t. split; [exact E|]. split; [exact Hdate|]. split; [exact Hord|].
  split; [exact Hd|]. apply Hp; [reflexivity|]. vm_compute. discriminate.
Defined.

End FundingDate.

(** ** Strings: appending and joining *)

Section Strings.
Local Open Scope string_scope.

Lemma append_assoc (a b c : string) : (a ++ b) ++ c = a ++ (b ++ c).
Proof. induction a as [|x a IH]; cbn [append]; [reflexivity|]. rewrite IH. reflexivity. Qed.

Lemma list_ascii_of_string_append (a b : string) :
  list_ascii_of_string (a ++ b) = (list_ascii_of_string a ++ list_ascii_of_string b)%list.
Proof.
  induction a as [|x a IH]; cbn [append list_ascii_of_string app]; [reflexivity|].
  rewrite IH. reflexivity.
Qed.

Lemma length_append (a b : string) :
  String.length (a ++ b) = (String.length a + String.length b)%nat.
Proof. induction a as [|x a IH]; cbn; [reflexivity|]. rewrite IH. reflexivity. Qed.

Lemma concat_app sep (l1 l2 : list string) :
  l1 <> [] -> l2 <> [] ->
  String.concat sep (l1 ++ l2) = String.concat sep l1 ++ sep ++ String.concat sep l2.
Proof.
  intros H1 H2. induction l1 as [|x l1 IH]; [contradiction|].
  destruct l1 as [|y l1].
  - destruct l2 as [|z l2]; [contradiction|]. reflexivity.
  - change (String.concat sep ((x :: y :: l1) ++ l2))
      with (x ++ sep ++ String.concat sep ((y :: l1) ++ l2)).
    rewrite IH by discriminate.
    change (String.concat sep (x :: y :: l1)) with (x ++ sep ++ String.concat sep (y :: l1)).
    rewrite !append_assoc. reflexivity.
Qed.

Lemma concat_cons_snoc sep (x : string) (l : list string) (y : string) :
  String.concat sep (x :: l ++ [y]) = x ++ sep ++ String.concat sep (l ++ [y]).
Proof. destruct l; reflexivity. Qed.

Lemma concat_snoc sep (l : list string) (x : string) :
  exists prefix, String.concat sep (l ++ [x]) = prefix ++ x.
Proof.
  induction l as [|y l IH]; [exists ""; reflexivity|].
  destruct IH as [p Hp].
  destruct l as [|z l].
  - exists (y ++ sep). cbn. rewrite append_assoc. reflexivity.
  - change (String.concat sep ((y :: z :: l) ++ [x]))
      with (y ++ sep ++ String.concat sep ((z :: l) ++ [x])).
    rewrite Hp. exists (y ++ sep ++ p). rewrite !append_assoc. reflexivity.
Qed.

End Strings.

(** ** The drafts: when they are rendered, how they open and close *)

Section DraftEdges.
Import Datetime Float CommunicationDrafter Tools.
Local Open Scope string_scope.

Variable repr_of : json -> string.

Lemma bullets_ok docs :
  is_ok (bullets docs) = true <-> Forall (fun v => exists s, v = JStr s) docs.
Proof.
  induction docs as [|v docs IH]; cbn [bullets]; [split; auto|].
  destruct v; cbn [is_ok];
    try (split; [discriminate|intros H; inversion H as [|? ? [s Hs] ?]; discriminate]).
  destruct (bullets docs) as [lines|]; cbn [bind is_ok].
  - split; [|reflexivity]. intros _. constructor; [eauto|apply IH; reflexivity].
  - split; [discriminate|]. intros H. inversion H; subst. apply IH. assumption.
Qed.

Lemma document_request_ok recipient_name ctx :
  is_ok (document_request recipient_name ctx) = true <->
  exists docs,
    iterate (get_default ctx "missing_documents" (JArr [JStr "Required document"]))
      = Ok docs /\
    Forall (fun v => exists s, v = JStr s) docs.
Proof.
  unfold document_request.
  destruct (iterate _) as [docs|]; cbn [bind].
  - pose proof (bullets_ok docs) as Hb.
    destruct (bullets docs); cbn [bind is_ok] in *; split.
    + intros _. exists docs. split; [reflexivity|]. apply Hb. reflexivity.
    + reflexivity.
    + discriminate.
    + intros (docs' & [= <-] & H). apply Hb. exact H.
  - cbn [is_ok]. split; [discriminate|]. intros (docs & H & _). discriminate.
Qed.

Lemma funding_notice_ok recipient_name ctx :
  is_ok (funding_notice repr_of recipient_name ctx) =
    is_ok (format_2f (get_default ctx "loan_amount" (JInt 0)))
    && is_ok (format_2f (get_default ctx "net_disbursement" (JInt 0))).
Proof.
  unfold funding_notice.
  destruct (format_2f (get_default ctx "loan_amount" (JInt 0))); cbn [bind is_ok andb];
    [|reflexivity].
  destruct (format_2f (get_default ctx "net_disbursement" (JInt 0))); reflexivity.
Qed.

Lemma run_renders_every_template now ctype recipient_name ctx :
  (exists r, _run repr_of now ctype recipient_name ctx = Ok r) <->
  (exists docs,
     iterate (get_default ctx "missing_documents" (JArr [JStr "Required document"]))
       = Ok docs /\
     Forall (fun v => exists s, v = JStr s) docs) /\
  is_ok (format_2f (get_default ctx "loan_amount" (JInt 0))) = true /\
  is_ok (format_2f (get_default ctx "net_disbursement" (JInt 0))) = true.
Proof.
  pose proof (document_request_ok recipient_name ctx) as Hd.
  pose proof (funding_notice_ok recipient_name ctx) as Hf.
  rewrite <- Hd, <- andb_true_iff, <- Hf. clear Hd Hf. unfold _run.
  destruct (document_request recipient_name ctx) as [t1|]; cbn [bind is_ok].
  - destruct (funding_notice repr_of recipient_name ctx) as [t3|]; cbn [bind is_ok].
    + split; eauto.
    + split; [intros [r H]; discriminate|intros [_ H]; discriminate].
  - split; [intros [r H]; discriminate|intros [H _]; discriminate].
Qed.

(** X17. The drafter reads its context with [ctx.get] and renders all
    four templates before it picks one.  So it returns, whatever the
    communication type, exactly when the context is a dictionary and all
    templates can be rendered: [missing_documents], when given, must be a
    sequence of strings, and [loan_amount] and [net_disbursement], when
    given, must be numbers.  A context that is not a dictionary raises
    [AttributeError].  With a loan amount given as a string not even a
    status update is drafted: the funding notice raises [ValueError]. *)
Theorem drafter_needs_every_template :
  forall (now : clock) (ctype recipient_name : string) (context : json),
    (forall ctx,
       communication_drafter repr_of now ctype recipient_name (JObj ctx) =
         _run repr_of now ctype recipient_name ctx) /\
    ((forall ctx, context <> JObj ctx) ->
       communication_drafter repr_of now ctype recipient_name context
         = Raise AttributeError) /\
    ((exists r, communication_drafter repr_of now ctype recipient_name context = Ok r) <->
       exists ctx, context = JObj ctx /\
         (exists docs,
            iterate (get_default ctx "missing_documents" (JArr [JStr "Required document"]))
              = Ok docs /\
            Forall (fun v => exists s, v = JStr s) docs) /\
         is_ok (format_2f (get_default ctx "loan_amount" (JInt 0))) = true /\
         is_ok (format_2f (get_default ctx "net_disbursement" (JInt 0))) = true) /\
    (forall ctx s,
       context = JObj ctx ->
       lookup ctx "loan_amount" = Some (JStr s) ->
       is_ok (document_request recipient_name ctx) = true ->
       communication_drafter repr_of now ctype recipient_name context = Raise ValueError).
Proof.
  intros now ctype recipient_name context.
  split; [reflexivity|]. split; [|split].
  - intros Hv. destruct context; try reflexivity. exfalso. eapply Hv. reflexivity.
  - destruct context as [| | | | | |ctx].
    1-6: split; [intros [r H]; discriminate|intros (ctx & H & _); discriminate].
    change (communication_drafter repr_of now ctype recipient_name (JObj ctx))
      with (_run repr_of now ctype recipient_name ctx).
    rewrite run_renders_every_template. split.
    + intros H. exists ctx. split; [reflexivity|exact H].
    + intros (ctx' & [= <-] & H). exact H.
  - intros ctx s -> Hs Hd.
    change (communication_drafter repr_of now ctype recipient_name (JObj ctx))
      with (_run repr_of now ctype recipient_name ctx).
    unfold _run.
    destruct (document_request recipient_name ctx) as [t1|]; [|discriminate].
    cbn [bind]. unfold funding_notice, get_default. rewrite Hs. reflexivity.
Qed.

(** Stripping a text that is framed by two line breaks and starts and
    ends with a character that is no white space. *)
Lemma strip_framed (c c' : ascii) (a : string) :
  is_space c = false -> is_space c' = false ->
  strip (nl ++ String c (a ++ String c' nl)) = String c (a ++ String c' EmptyString).
Proof.
  intros Hc Hc'. unfold strip, nl. cbn [append list_ascii_of_string lstrip].
  change (is_space (ascii_of_nat 10)) with true. cbv iota. rewrite Hc.
  rewrite list_ascii_of_string_append. cbn [list_ascii_of_string].
  change (c :: (list_ascii_of_string a ++ [c'; ascii_of_nat 10])%list)
    with ((c :: list_ascii_of_string a) ++ [c'; ascii_of_nat 10])%list.
  rewrite rev_app_distr. cbn [rev app lstrip].
  change (is_space (ascii_of_nat 10)) with true. cbv iota. rewrite Hc'.
  change (c' :: rev (list_ascii_of_string a) ++ [c])%list
    with (rev [c'] ++ (rev (list_ascii_of_string a) ++ [c]))%list.
  change (rev (list_ascii_of_string a) ++ [c])%list with (rev (c :: list_ascii_of_string a)).
  rewrite <- rev_app_distr, rev_involutive.
  change ((c :: list_ascii_of_string a) ++ [c'])%list
    with (list_ascii_of_string (String c a) ++ list_ascii_of_string (String c' EmptyString))%list.
  rewrite <- list_ascii_of_string_append, string_of_list_ascii_of_string. reflexivity.
Qed.

(** A letter: an empty line, a salutation, a body, the closing lines. *)
Lemma strip_letter (recipient_name : string) (middle : list string) :
  middle <> [] ->
  strip (text ("" :: ("Dear " ++ recipient_name ++ ",")%string :: middle
               ++ ["Best regards,"; "Loan Operations Team"; ""])%list)
  = "Dear " ++ recipient_name ++ "," ++ nl ++ text middle ++ nl ++ "Best regards," ++ nl
    ++ "Loan Operations Team".
Proof.
  intros Hm. unfold text.
  change ("" :: ("Dear " ++ recipient_name ++ ",")%string :: middle
          ++ ["Best regards,"; "Loan Operations Team"; ""])%list
    with (("" :: ("Dear " ++ recipient_name ++ ",")%string :: middle)
          ++ ["Best regards,"; "Loan Operations Team"; ""])%list.
  rewrite concat_app by discriminate.
  destruct middle as [|m middle]; [contradiction|].
  change (String.concat nl ("" :: ("Dear " ++ recipient_name ++ ",") :: m :: middle))
    with ("" ++ nl ++ ("Dear " ++ recipient_name ++ ",") ++ nl
          ++ String.concat nl (m :: middle)).
  change (String.concat nl ["Best regards,"; "Loan Operations Team"; ""])
    with ("Best regards," ++ nl ++ "Loan Operations Tea" ++ String "m" nl).
  set (M := String.concat nl (m :: middle)).
  set (a := "ear " ++ recipient_name ++ "," ++ nl ++ M ++ nl ++ "Best regards," ++ nl
            ++ "Loan Operations Tea").
  transitivity (strip (nl ++ String "D" (a ++ String "m" nl))).
  { f_equal. unfold a. rewrite !append_assoc. cbn [append]. reflexivity. }
  rewrite strip_framed by reflexivity.
  unfold a. rewrite !append_assoc. cbn [append]. reflexivity.
Qed.

(** X18. Every draft, whatever its type, is a letter without blank lines
    around it: the body starts with the salutation of the recipient and
    ends with the closing lines of the team. *)
Theorem draft_opens_and_closes :
  forall (now : clock) (ctype recipient_name : string) (ctx : dict) (r : draft),
    _run repr_of now ctype recipient_name ctx = Ok r ->
    recipient r = recipient_name /\
    exists middle,
      body r = "Dear " ++ recipient_name ++ "," ++ nl ++ middle ++ nl
               ++ "Best regards," ++ nl ++ "Loan Operations Team".
Proof.
  intros now ctype recipient_name ctx r. unfold _run, document_request, funding_notice.
  destruct (iterate _) as [docs|]; cbn [bind]; [|discriminate].
  destruct (bullets docs) as [lines|]; cbn [bind]; [|discriminate].
  destruct (format_2f (get_default ctx "loan_amount" (JInt 0))) as [amount|];
    cbn [bind]; [|discriminate].
  destruct (format_2f (get_default ctx "net_disbursement" (JInt 0))) as [net|];
    cbn [bind]; [|discriminate].
  intros H. apply Ok_inj in H. subst r. cbn [recipient body].
  split; [reflexivity|].
  unfold lookup, Settings.index, lookup, status_update, exception_notice.
  destruct (String.eqb "document_request" ctype);
    [|destruct (String.eqb "status_update" ctype);
      [|destruct (String.eqb "funding_notice" ctype);
        [|destruct (String.eqb "exception_notice" ctype)]]];
    cbn [String.eqb Ascii.eqb Bool.eqb];
    match goal with
    | |- exists middle, strip (text ?l) = _ =>
        exists (text (removelast (removelast (removelast (tl (tl l))))));
        exact (strip_letter recipient_name
                 (removelast (removelast (removelast (tl (tl l)))))
                 ltac:(discriminate))
    end.
Qed.

End DraftEdges.

Section DraftEdgeSamples.
Import Datetime Float CommunicationDrafter Tools.
Local Open Scope string_scope.

Lemma drafter_needs_every_template_witness :
  let now : clock := fun _ => mk_datetime 2024 5 1 12 0 0 0 in
  communication_drafter (fun _ => "") now "status_update" "Ada" (JArr [])
    = Raise AttributeError /\
  communication_drafter (fun _ => "") now "status_update" "Ada"
    (JObj [("loan_amount", JStr "25,000")]) = Raise ValueError /\
  exists r, communication_drafter (fun _ => "") now "status_update" "Ada"
              (JObj [("loan_amount", JInt 25000)]) = Ok r.
Proof.
  intros now. split; [|split].
  - apply (proj1 (proj2 (drafter_needs_every_template (fun _ => "") now "status_update"
                           "Ada" (JArr [])))).
    discriminate.
  - apply (proj2 (proj2 (proj2 (drafter_needs_every_template (fun _ => "") now
                                  "status_update" "Ada"
                                  (JObj [("loan_amount", JStr "25,000")]))))
             [("loan_amount", JStr "25,000")] "25,000"); reflexivity.
  - apply (proj1 (proj2 (proj2 (drafter_needs_every_template (fun _ => "") now
                                  "status_update" "Ada"
                                  (JObj [("loan_amount", JInt 25000)]))))).
    eexists. split; [reflexivity|].
    split; [|split; reflexivity].
    eexists. split; [reflexivity|]. repeat constructor. eauto.
Defined.

Lemma draft_opens_and_closes_witness :
  let now : clock := fun _ => mk_datetime 2024 5 1 12 0 0 0 in
  exists r middle,
    _run (fun _ => "") now "newsletter" "Ada Lovelace" [] = Ok r /\
    body r = "Dear Ada Lovelace," ++ nl ++ middle ++ nl ++ "Best regards," ++ nl
             ++ "Loan Operations Team".
Proof.
  intros now.
  assert (Hrun : exists r, _run (fun _ => "") now "newsletter" "Ada Lovelace" [] = Ok r)
    by (eexists; reflexivity).
  destruct Hrun as [r Hr].
  destruct (draft_opens_and_closes (fun _ => "") now "newsletter" "Ada Lovelace" [] r Hr)
    as (_ & middle & Hb).
  exists r, middle. split; [exact Hr|exact Hb].
Defined.

End DraftEdgeSamples.

(** ** Loading a loan record *)

Section LoadingRecords.
Import LoanFile.

Lemma document_status_of_iff v s :
  document_status_of v = Ok s <-> v = JStr (document_status_value s).
Proof.
  split; [|intros ->; apply document_status_of_value].
  unfold document_status_of. cbn [find].
  repeat match goal with
         | |- context [eq_str v ?t] =>
             let E := fresh "E" in
             destruct (eq_str v t) eqn:E;
             [apply eq_str_true in E; intros [= <-]; exact E|]
         end.
  discriminate.
Qed.

Lemma funding_status_of_iff v s :
  funding_status_of v = Ok s <-> v = JStr (funding_status_value s).
Proof.
  split; [|intros ->; apply funding_status_of_value].
  unfold funding_status_of. cbn [find].
  repeat match goal with
         | |- context [eq_str v ?t] =>
             let E := fresh "E" in
             destruct (eq_str v t) eqn:E;
             [apply eq_str_true in E; intros [= <-]; exact E|]
         end.
  discriminate.
Qed.

Lemma document_status_of_raises v e : document_status_of v = Raise e -> e = ValueError.
Proof.
  unfold document_status_of. destruct (find _ _); [discriminate|].
  intros [= <-]. reflexivity.
Qed.

Lemma funding_status_of_raises v e : funding_status_of v = Raise e -> e = ValueError.
Proof.
  unfold funding_status_of. destruct (find _ _); [discriminate|].
  intros [= <-]. reflexivity.
Qed.

(** X19. The two enumerations are read back from their values and from
    nothing else: [DocumentStatus(v)] and [FundingStatus(v)] return the
    member whose value is [v], and raise [ValueError] for any other
    string and for any value that is no string. *)
Theorem status_enums_round_trip :
  (forall v s, document_status_of v = Ok s <-> v = JStr (document_status_value s)) /\
  (forall v s, funding_status_of v = Ok s <-> v = JStr (funding_status_value s)) /\
  (forall v e, document_status_of v = Raise e -> e = ValueError) /\
  (forall v e, funding_status_of v = Raise e -> e = ValueError).
Proof.
  split; [exact document_status_of_iff|]. split; [exact funding_status_of_iff|].
  split; [exact document_status_of_raises|exact funding_status_of_raises].
Qed.

Lemma status_enums_round_trip_witness :
  document_status_of (JStr "expired") = Ok EXPIRED /\
  funding_status_of (JStr "ready_to_fund") = Ok READY_TO_FUND /\
  forall s, document_status_of (JStr "Received") <> Ok s.
Proof.
  destruct status_enums_round_trip as (Hd & Hf & _).
  split; [apply Hd; reflexivity|]. split; [apply Hf; reflexivity|].
  intros s H. apply Hd in H. destruct s; discriminate H.
Defined.

(** X20. How one entry of ["documents"] is loaded: a dictionary whose
    status, "pending" when absent, is one of the five tags gives the
    document with that status, the name of the entry or else its key, and
    the two dates of the entry, every other field at its default; an
    entry that is no dictionary raises [AttributeError], a status that is
    no tag [ValueError]. *)
Theorem document_entry_loading :
  forall (doc_name : string) (doc_data : json),
    (forall doc, parse_document doc_name doc_data = Ok doc <->
       exists o s,
         doc_data = JObj o /\
         get_default o "status" (JStr "pending") = JStr (document_status_value s) /\
         doc = mk_Document (get_default o "name" (JStr doc_name)) s
                 (get o "received_date") (get o "verified_date")
                 JNull JNull JNull JNull) /\
    (parse_document doc_name doc_data = Raise AttributeError <->
       forall o, doc_data <> JObj o) /\
    (parse_document doc_name doc_data = Raise ValueError <->
       exists o, doc_data = JObj o /\
         forall s, get_default o "status" (JStr "pending")
                   <> JStr (document_status_value s)) /\
    (forall o, doc_data = JObj o -> lookup o "status" = None ->
       exists doc, parse_document doc_name doc_data = Ok doc /\ status doc = PENDING).
Proof.
  intros doc_name doc_data.
  pose proof document_status_of_iff as Hst.
  pose proof document_status_of_raises as Hraise.
  destruct doc_data as [| b | n | x | t | l | o];
    try (split; [intros doc; split; [discriminate|intros (o & s & H & _); discriminate]|];
         split; [split; [intros _ o; discriminate|reflexivity]|];
         split; [split; [discriminate|intros (o & H & _); discriminate]|];
         intros o H; discriminate).
  unfold parse_document, get_method_default, get_method. cbn [bind].
  destruct (document_status_of (get_default o "status" (JStr "pending"))) as [s|e] eqn:E;
    cbn [bind].
  - apply Hst in E. split; [|split; [|split]].
    + intros doc. split.
      * intros [= <-]. exists o, s. auto.
      * intros (o' & s' & [= <-] & Hs & ->). rewrite E in Hs.
        injection Hs as Hs. destruct s, s'; try discriminate; reflexivity.
    + split; [discriminate|]. intros H. exfalso. apply (H o). reflexivity.
    + split; [discriminate|]. intros (o' & [= <-] & H). exfalso. apply (H s). exact E.
    + intros o' [= <-] Hn. eexists. split; [reflexivity|]. cbn [status].
      unfold get_default in E. rewrite Hn in E.
      destruct s; try discriminate. reflexivity.
  - pose proof (Hraise _ _ E) as ->. split; [|split; [|split]].
    + intros doc. split; [discriminate|].
      intros (o' & s & [= <-] & Hs & _). apply Hst in Hs. congruence.
    + split; [discriminate|]. intros H. exfalso. apply (H o). reflexivity.
    + split; [|reflexivity]. intros _. exists o. split; [reflexivity|].
      intros s Hs. apply Hst in Hs. congruence.
    + intros o' [= <-] Hn. unfold get_default in E. rewrite Hn in E. discriminate.
Qed.

Lemma document_entry_loading_witness :
  exists doc,
    parse_document "tax_returns" (JObj [("received_date", JStr "2024-03-02")]) = Ok doc /\
    status doc = PENDING.
Proof.
  apply (proj2 (proj2 (proj2 (document_entry_loading "tax_returns"
           (JObj [("received_date", JStr "2024-03-02")]))))
           [("received_date", JStr "2024-03-02")]); reflexivity.
Defined.

(** The eight keys that [from_json] reads with [data[key]]. *)
Lemma from_json_fields d r :
  from_json (JObj d) = Ok r ->
  lookup d "loan_id" = Some (loan_id r) /\
  lookup d "borrower_name" = Some (borrower_name r) /\
  lookup d "borrower_email" = Some (borrower_email r) /\
  lookup d "loan_type" = Some (loan_type r) /\
  lookup d "loan_amount" = Some (loan_amount r) /\
  lookup d "interest_rate" = Some (interest_rate r) /\
  lookup d "term_months" = Some (term_months r) /\
  lookup d "approval_date" = Some (approval_date r) /\
  borrower_phone r = get_default d "borrower_phone" (JStr "") /\
  approval_conditions r = get_default d "approval_conditions" (JArr []) /\
  underwriter r = get_default d "underwriter" (JStr "") /\
  funding_status_of (get_default d "funding_status" (JStr "approved"))
    = Ok (funding_status r) /\
  target_funding_date r = get d "target_funding_date" /\
  communications r = get_default d "communications" (JArr []) /\
  actual_funding_date r = JNull /\ funding_amount r = JNull /\
  funding_method r = JNull /\ disbursement_account r = JNull.
Proof.
  unfold from_json, get_method_default. cbn [bind].
  destruct (items _); cbn [bind]; [|discriminate].
  destruct (parse_documents _ _); cbn [bind]; [|discriminate].
  destruct (items _); cbn [bind]; [|discriminate].
  destruct (parse_checks _ _); cbn [bind]; [|discriminate].
  destruct (iterate _); cbn [bind]; [|discriminate].
  destruct (parse_exceptions _ _); cbn [bind]; [|discriminate].
  unfold getitem.
  repeat match goal with
         | |- bind (match lookup d ?k with _ => _ end) _ = Ok _ -> _ =>
             destruct (lookup d k); cbn [bind]; [|discriminate]
         end.
  destruct (funding_status_of _); cbn [bind]; [|discriminate].
  intros H. apply Ok_inj in H. subst r. cbn. repeat split.
Qed.

(** X21. What [from_json] asks of the file and what it returns: data that
    is no dictionary raises [AttributeError]; a load that returns has
    found the eight keys it reads with [data[key]] and hands their values
    on unchanged, of whatever type they are; the optional keys have their
    defaults, the funding status is the member named in the file,
    APPROVED when absent, and the fields that are not read are [None].
    When one of the eight keys is absent the load raises [KeyError] (the
    three collections being absent or empty). *)
Theorem from_json_core_fields :
  (forall v, (forall d, v <> JObj d) -> from_json v = Raise AttributeError) /\
  (forall d r, from_json (JObj d) = Ok r ->
     lookup d "loan_id" = Some (loan_id r) /\
     lookup d "borrower_name" = Some (borrower_name r) /\
     lookup d "borrower_email" = Some (borrower_email r) /\
     lookup d "loan_type" = Some (loan_type r) /\
     lookup d "loan_amount" = Some (loan_amount r) /\
     lookup d "interest_rate" = Some (interest_rate r) /\
     lookup d "term_months" = Some (term_months r) /\
     lookup d "approval_date" = Some (approval_date r) /\
     borrower_phone r = get_default d "borrower_phone" (JStr "") /\
     approval_conditions r = get_default d "approval_conditions" (JArr []) /\
     underwriter r = get_default d "underwriter" (JStr "") /\
     funding_status_of (get_default d "funding_status" (JStr "approved"))
       = Ok (funding_status r) /\
     target_funding_date r = get d "target_funding_date" /\
     communications r = get_default d "communications" (JArr []) /\
     actual_funding_date r = JNull /\ funding_amount r = JNull /\
     funding_method r = JNull /\ disbursement_account r = JNull) /\
  (forall d k,
     In k [ "loan_id"; "borrower_name"; "borrower_email"; "loan_type"; "loan_amount";
            "interest_rate"; "term_months"; "approval_date" ] ->
     lookup d k = None ->
     lookup d "documents" = None -> lookup d "compliance_checks" = None ->
     lookup d "exceptions" = None ->
     from_json (JObj d) = Raise KeyError).
Proof.
  split; [|split].
  - intros v Hv. destruct v; try reflexivity. exfalso. apply (Hv o). reflexivity.
  - exact from_json_fields.
  - intros d k Hk Hnone Hd Hc He.
    unfold from_json, get_method_default, get_default. rewrite Hd, Hc, He.
    cbn [items iterate bind parse_documents parse_checks parse_exceptions].
    unfold getitem. cbn [In] in Hk.
    repeat match goal with
           | |- bind (match lookup d ?key with _ => _ end) _ = _ =>
               let E := fresh "E" in
               destruct (lookup d key) eqn:E; cbn [bind]; [|reflexivity]
           end.
    exfalso. intuition (subst; congruence).
Qed.

Lemma from_json_core_fields_witness :
  from_json (JObj [ ("loan_id", JStr "LN-7"); ("borrower_name", JStr "Ada") ])
    = Raise KeyError.
Proof.
  apply (proj2 (proj2 from_json_core_fields) _ "borrower_email"); try reflexivity.
  cbn. tauto.
Defined.

Lemma parse_documents_each entries : forall acc res,
  NoDup (map fst entries) ->
  (forall k, In k (map fst entries) -> lookup acc k = None) ->
  parse_documents entries acc = Ok res ->
  exists loaded,
    res = acc ++ loaded /\
    Forall2 (fun entry kv =>
               fst kv = fst entry /\ parse_document (fst entry) (snd entry) = Ok (snd kv))
      entries loaded.
Proof.
  induction entries as [|[k v] entries IH]; intros acc res Hnd Hacc; cbn [parse_documents].
  - intros [= <-]. exists []. rewrite app_nil_r. split; [reflexivity|constructor].
  - cbn [map fst] in Hnd. inversion Hnd as [|? ? Hk Hnd']; subst.
    destruct (parse_document k v) as [doc|] eqn:E; cbn [bind]; [|discriminate].
    rewrite set_fresh by (apply Hacc; left; reflexivity).
    intros H. apply IH in H; [|exact Hnd'|].
    + destruct H as (loaded & -> & HF). exists ((k, doc) :: loaded).
      rewrite <- app_assoc. split; [reflexivity|].
      constructor; [cbn [fst snd]; auto|exact HF].
    + intros k' Hk'. apply lookup_app_fresh.
      * apply Hacc. right. exact Hk'.
      * intros ->. contradiction.
Qed.

Lemma parse_exceptions_each entries : forall acc res,
  parse_exceptions entries acc = Ok res ->
  exists loaded,
    res = acc ++ loaded /\
    Forall2 (fun entry e => parse_exception entry = Ok e) entries loaded.
Proof.
  induction entries as [|v entries IH]; intros acc res; cbn [parse_exceptions].
  - intros [= <-]. exists []. rewrite app_nil_r. split; [reflexivity|constructor].
  - destruct (parse_exception v) as [e|] eqn:E; cbn [bind]; [|discriminate].
    intros H. apply IH in H. destruct H as (loaded & -> & HF).
    exists (e :: loaded). rewrite <- app_assoc. split; [reflexivity|].
    constructor; [exact E|exact HF].
Qed.

(** X22. A load that returns has loaded every entry of ["documents"] and
    of ["exceptions"], each once and in the order of the file: the
    documents of the record are the entries under their keys, the
    exceptions are the items of the list; none is dropped, none is added.
    Without the key the collection is empty. *)
Theorem from_json_loads_every_entry :
  forall (d : dict) (r : LoanFile),
    from_json (JObj d) = Ok r ->
    (forall entries,
       lookup d "documents" = Some (JObj entries) -> NoDup (map fst entries) ->
       Forall2 (fun entry kv =>
                  fst kv = fst entry /\
                  parse_document (fst entry) (snd entry) = Ok (snd kv))
         entries (documents r)) /\
    (forall items,
       lookup d "exceptions" = Some (JArr items) ->
       Forall2 (fun entry e => parse_exception entry = Ok e) items (exceptions r)) /\
    (lookup d "documents" = None -> documents r = []) /\
    (lookup d "exceptions" = None -> exceptions r = []).
Proof.
  intros d r. unfold from_json, get_method_default, get_default. cbn [bind].
  match goal with
  | |- bind (items ?v) _ = _ -> _ =>
      destruct (items v) as [doc_items|] eqn:Ei; cbn [bind]; [|discriminate]
  end.
  destruct (parse_documents doc_items []) as [docs|] eqn:Ed; cbn [bind]; [|discriminate].
  match goal with
  | |- bind (items ?v) _ = _ -> _ =>
      destruct (items v) as [check_items|]; cbn [bind]; [|discriminate]
  end.
  destruct (parse_checks check_items []) as [checks|]; cbn [bind]; [|discriminate].
  destruct (iterate _) as [exc_items|] eqn:Ee; cbn [bind]; [|discriminate].
  destruct (parse_exceptions exc_items []) as [excs|] eqn:Ex; cbn [bind]; [|discriminate].
  unfold getitem.
  repeat match goal with
         | |- bind (match lookup d ?k with _ => _ end) _ = Ok _ -> _ =>
             destruct (lookup d k); cbn [bind]; [|discriminate]
         end.
  destruct (funding_status_of _); cbn [bind]; [|discriminate].
  intros H. apply Ok_inj in H. subst r. cbn [documents exceptions].
  split; [|split; [|split]].
  - intros entries Hl Hnd. rewrite Hl in Ei. cbn in Ei. injection Ei as <-.
    apply parse_documents_each in Ed; [|exact Hnd|reflexivity].
    destruct Ed as (loaded & -> & HF). exact HF.
  - intros items Hl. rewrite Hl in Ee. cbn in Ee. injection Ee as <-.
    apply parse_exceptions_each in Ex. destruct Ex as (loaded & -> & HF). exact HF.
  - intros Hl. rewrite Hl in Ei. cbn in Ei. injection Ei as <-.
    cbn in Ed. injection Ed as <-. reflexivity.
  - intros Hl. rewrite Hl in Ee. cbn in Ee. injection Ee as <-.
    cbn in Ex. injection Ex as <-. reflexivity.
Qed.

Lemma from_json_loads_every_entry_witness :
  let d :=
    [ ("loan_id", JStr "LN-10"); ("borrower_name", JStr "Ada");
      ("borrower_email", JStr "ada@example.com"); ("loan_type", JStr "auto");
      ("loan_amount", JInt 18500); ("interest_rate", JInt 7); ("term_months", JInt 60);
      ("approval_date", JStr "2024-03-01");
      ("documents", JObj [ ("vehicle_title", JObj [("status", JStr "received")]);
                           ("purchase_agreement", JObj []) ]) ] in
  exists r,
    from_json (JObj d) = Ok r /\
    exceptions r = [] /\
    Forall2 (fun entry kv =>
               fst kv = fst entry /\
               parse_document (fst entry) (snd entry) = Ok (snd kv))
      [ ("vehicle_title", JObj [("status", JStr "received")]);
        ("purchase_agreement", JObj []) ]
      (documents r).
Proof.
  intros d.
  assert (Hr : exists r, from_json (JObj d) = Ok r) by (eexists; reflexivity).
  destruct Hr as [r Hr]. exists r. split; [exact Hr|].
  destruct (from_json_loads_every_entry d r Hr) as (Hdocs & _ & _ & Hexc).
  split; [apply Hexc; reflexivity|].
  apply Hdocs; [reflexivity|].
  repeat constructor; cbn; intuition discriminate.
Defined.

End LoadingRecords.

(** ** What the crew tells its agents *)

Section CrewBriefing.
Import LoanFile Float CommunicationDrafter Crew.
Local Open Scope string_scope.

Lemma not_empty_snoc {A} (l : list A) x : not_empty (l ++ [x]) = true.
Proof. destruct l; reflexivity. Qed.

Lemma In_lookup {A} (d : list (string * A)) k v :
  NoDup (map fst d) -> In (k, v) d -> lookup d k = Some v.
Proof.
  induction d as [|[k' v'] d IH]; cbn [map fst In lookup]; [contradiction|].
  intros Hnd Hin. inversion Hnd as [|? ? Hnotin Hnd']; subst.
  destruct Hin as [[= -> ->]|Hin].
  - rewrite String.eqb_refl. reflexivity.
  - destruct (String.eqb k' k) eqn:E; [|apply IH; assumption].
    apply String.eqb_eq in E. subst k'. exfalso. apply Hnotin.
    apply in_map_iff. exists (k, v). auto.
Qed.

Lemma missing_docs_spec self name :
  In name (missing_docs self) <->
  exists doc, In (name, doc) (documents self) /\
              (status doc = PENDING \/ status doc = EXPIRED).
Proof.
  unfold missing_docs. rewrite in_map_iff. split.
  - intros ([k doc] & <- & H). apply filter_In in H. destruct H as [Hin Hs].
    exists doc. split; [exact Hin|]. cbn [snd fst] in *.
    destruct (status doc); try discriminate; auto.
  - intros (doc & Hin & Hs). exists (name, doc). split; [reflexivity|].
    apply filter_In. split; [exact Hin|]. cbn [snd].
    destruct Hs as [-> | ->]; reflexivity.
Qed.

(** X23. The communication needs always end with the general status
    update, so the fallback text "Standard status update only" is never
    returned.  A document request is raised for the documents of the
    record that are pending or expired, an exception notice for the
    exceptions whose resolution date is [None], empty or another false
    value; without either, the status update is all there is. *)
Theorem communication_needs_end_with_status_update :
  forall self : LoanFile,
    let needs := _get_communication_needs self in
    (exists prefix, needs = prefix ++ "General status update on loan progress") /\
    needs <> "Standard status update only" /\
    (missing_docs self = [] -> active_exceptions self = [] ->
     needs = "General status update on loan progress") /\
    (missing_docs self <> [] ->
     exists rest,
       needs = "Document request needed for: "
               ++ String.concat ", " (missing_docs self) ++ rest) /\
    (forall name, In name (missing_docs self) <->
       exists doc, In (name, doc) (documents self) /\
                   (status doc = PENDING \/ status doc = EXPIRED)) /\
    (forall e, In e (active_exceptions self) <->
       In e (exceptions self) /\ truthy (resolved_date e) = false).
Proof.
  intros self needs.
  assert (Hshape : exists lines,
            needs = String.concat nl (lines ++ ["General status update on loan progress"])%list
            /\ (missing_docs self = [] -> active_exceptions self = [] -> lines = [])
            /\ (missing_docs self <> [] ->
                exists rest, lines = ("Document request needed for: "
                                      ++ String.concat ", " (missing_docs self)) :: rest)).
  { subst needs. unfold _get_communication_needs. cbv zeta.
    destruct (missing_docs self) as [|m ms]; destruct (active_exceptions self) as [|e es];
      cbn [not_empty app];
      match goal with
      | |- exists lines, String.concat nl ?l = _ /\ _ => exists (removelast l)
      end;
      (split; [reflexivity|]); split;
      try (intros; reflexivity); try (intros H; contradiction);
      try (intros _; eexists; reflexivity).
    all: try (intros H _; discriminate H). all: try (intros _ H; discriminate H). }
  destruct Hshape as (lines & Hn & Hnone & Hdoc).
  destruct (concat_snoc nl lines "General status update on loan progress") as [p Hp].
  split; [exists p; rewrite Hn; exact Hp|].
  split; [|split; [|split; [|split]]].
  - rewrite Hn, Hp. intros E. apply (f_equal String.length) in E.
    rewrite length_append in E. cbn in E. lia.
  - intros H1 H2. rewrite Hn, (Hnone H1 H2). reflexivity.
  - intros H. destruct (Hdoc H) as [rest ->]. rewrite Hn.
    cbn [app]. rewrite concat_cons_snoc.
    rewrite append_assoc. eexists. reflexivity.
  - apply missing_docs_spec.
  - intros e. unfold active_exceptions. rewrite filter_In, negb_true_iff. tauto.
Qed.

Section LoanContext.

Variable repr_of : json -> string.
Variable dumps : json -> string.

(** X24. The loan context is rendered exactly when the loan amount is a
    number and the approval conditions are a sequence of strings:
    [from_json] accepts a file whose ["loan_amount"] is a string, but the
    context of such a record raises [ValueError], and [TypeError] when
    the amount is [None].  A rendered context closes with the number of
    active exceptions, the ones without a resolution date. *)
Theorem loan_context_needs_a_numeric_amount :
  forall self : LoanFile,
    ((exists s, _get_loan_context repr_of dumps self = Ok s) <->
       is_ok (format_2f (loan_amount self)) = true /\
       is_ok (join ", " (approval_conditions self)) = true) /\
    (forall s, loan_amount self = JStr s ->
       _get_loan_context repr_of dumps self = Raise ValueError) /\
    (loan_amount self = JNull ->
       _get_loan_context repr_of dumps self = Raise TypeError) /\
    (forall s, _get_loan_context repr_of dumps self = Ok s ->
       exists prefix,
         s = prefix ++ "Active Exceptions: "
             ++ decimal (Z.of_nat (List.length (active_exceptions self))) ++ nl) /\
    (forall d s, from_json (JObj d) = Ok self ->
       lookup d "loan_amount" = Some (JStr s) ->
       _get_loan_context repr_of dumps self = Raise ValueError).
Proof.
  intros self.
  assert (Hstr : forall s, loan_amount self = JStr s ->
            _get_loan_context repr_of dumps self = Raise ValueError).
  { intros s Hs. unfold _get_loan_context. rewrite Hs. reflexivity. }
  split; [|split; [exact Hstr|split; [|split]]].
  - unfold _get_loan_context. cbv zeta.
    destruct (format_2f (loan_amount self)) as [amount|]; cbn [bind is_ok].
    + destruct (join ", " (approval_conditions self)) as [conditions|]; cbn [bind is_ok].
      * split; eauto.
      * split; [intros [s H]; discriminate|intros [_ H]; discriminate].
    + split; [intros [s H]; discriminate|intros [H _]; discriminate].
  - intros Hn. unfold _get_loan_context. rewrite Hn. reflexivity.
  - intros s. unfold _get_loan_context. cbv zeta.
    destruct (format_2f (loan_amount self)) as [amount|]; cbn [bind]; [|discriminate].
    destruct (join ", " (approval_conditions self)) as [conditions|]; cbn [bind];
      [|discriminate].
    intros H. apply Ok_inj in H. subst s. unfold text.
    match goal with
    | |- exists prefix, String.concat nl ?l = _ =>
        change l with (removelast (removelast l)
                       ++ [ ("Active Exceptions: "
                             ++ decimal (Z.of_nat (List.length (active_exceptions self))))%string;
                            ""%string ])%list
    end.
    rewrite concat_app by discriminate.
    eexists. rewrite <- append_assoc. reflexivity.
  - intros d s Hload Hs. apply from_json_fields in Hload.
    destruct Hload as (_ & _ & _ & _ & Ha & _). rewrite Hs in Ha.
    injection Ha as Ha. apply (Hstr s). symmetry. exact Ha.
Qed.

End LoanContext.

(** With distinct keys the loop builds one entry per document, in order. *)
Lemma fold_set_fresh {A B} (f : string * A -> B) (l : list (string * A)) :
  forall acc : list (string * B),
    NoDup (map fst l) ->
    (forall k, In k (map fst l) -> lookup acc k = None) ->
    fold_left (fun acc kv => set acc (fst kv) (f kv)) l acc =
      (acc ++ map (fun kv => (fst kv, f kv)) l)%list.
Proof.
  induction l as [|[k v] l IH]; intros acc Hnd Hacc; cbn [fold_left map fst snd].
  - rewrite app_nil_r. reflexivity.
  - cbn [map fst] in Hnd. inversion Hnd as [|? ? Hk Hnd']; subst.
    rewrite set_fresh by (apply Hacc; left; reflexivity).
    rewrite IH; [rewrite <- app_assoc; reflexivity|exact Hnd'|].
    intros k' Hk'. apply lookup_app_fresh.
    + apply Hacc. right. exact Hk'.
    + intros ->. contradiction.
Qed.

Lemma lookup_map_values {A B} (f : string * A -> B) (l : list (string * A)) k :
  lookup (map (fun kv => (fst kv, f kv)) l) k =
    match lookup l k with Some v => Some (f (k, v)) | None => None end.
Proof.
  induction l as [|[k' v] l IH]; cbn [map lookup fst snd]; [reflexivity|].
  destruct (String.eqb k' k) eqn:E; [|exact IH].
  apply String.eqb_eq in E. subst k'. reflexivity.
Qed.

Lemma docs_status_lookup self d :
  unique_keys (documents self) ->
  lookup (docs_status self) d =
    match lookup (documents self) d with
    | Some doc => Some (JObj [ ("status", JStr (document_status_value (status doc)));
                               ("received_date", received_date doc) ])
    | None => None
    end.
Proof.
  intros Hu. unfold docs_status.
  rewrite (fold_set_fresh
             (fun kv => JObj [ ("status", JStr (document_status_value (status (snd kv))));
                               ("received_date", received_date (snd kv)) ]))
    by (auto; intros; reflexivity).
  cbn [app]. rewrite lookup_map_values. reflexivity.
Qed.

Lemma docs_status_ok self :
  unique_keys (documents self) ->
  DocumentChecker.document_map_ok (docs_status self) = true.
Proof.
  intros Hu. unfold docs_status.
  rewrite (fold_set_fresh
             (fun kv => JObj [ ("status", JStr (document_status_value (status (snd kv))));
                               ("received_date", received_date (snd kv)) ]))
    by (auto; intros; reflexivity).
  cbn [app]. unfold DocumentChecker.document_map_ok.
  apply forallb_forall. intros [k v] Hin. apply in_map_iff in Hin.
  destruct Hin as ([k' doc] & [= <- <-] & _).
  unfold DocumentChecker.entry_ok. cbn [snd]. destruct (status doc); reflexivity.
Qed.

Lemma docs_status_has_status self d tag :
  unique_keys (documents self) ->
  DocumentChecker.has_status (docs_status self) d tag <->
  exists doc, lookup (documents self) d = Some doc /\
              document_status_value (status doc) = tag.
Proof.
  intros Hu. unfold DocumentChecker.has_status. rewrite docs_status_lookup by exact Hu.
  destruct (lookup (documents self) d) as [doc|]; split.
  - intros (o & [= <-] & Hs). exists doc. split; [reflexivity|].
    cbn in Hs. injection Hs as Hs. exact Hs.
  - intros (doc' & [= <-] & Hs). eexists. split; [reflexivity|]. cbn. rewrite Hs.
    reflexivity.
  - intros (o & H & _). discriminate.
  - intros (doc & H & _). discriminate.
Qed.

(** X25. The document table that the crew writes into the loan context
    is a valid input of the document checker: the audit of it returns,
    and files a required document by the status the record has for it,
    missing when it is pending or has no entry, expired, or received.
    The document request of the communication needs covers less: of the
    required documents it names the pending and the expired ones, never
    one that has no entry in the record. *)
Theorem crew_document_table_is_auditable :
  forall (self : LoanFile) (loan_id loan_type : string),
    unique_keys (documents self) ->
    exists report,
      DocumentChecker._run loan_id loan_type (docs_status self) = Ok report /\
      forall d, In d (DocumentChecker.required loan_type) ->
        (In d (DocumentChecker.missing_documents report) <->
           lookup (documents self) d = None \/
           exists doc, lookup (documents self) d = Some doc /\ status doc = PENDING) /\
        (In d (DocumentChecker.expired_documents report) <->
           exists doc, lookup (documents self) d = Some doc /\ status doc = EXPIRED) /\
        (In d (DocumentChecker.pending_verification_documents report) <->
           exists doc, lookup (documents self) d = Some doc /\ status doc = RECEIVED) /\
        (In d (missing_docs self) <->
           lookup (documents self) d <> None /\
           (In d (DocumentChecker.missing_documents report) \/
            In d (DocumentChecker.expired_documents report))).
Proof.
  intros self loan_id loan_type Hu.
  pose proof (docs_status_ok self Hu) as Hok.
  assert (HF : Forall (fun d => is_ok (DocumentChecker.classify (docs_status self) d) = true)
                 (DocumentChecker.required loan_type)).
  { apply Forall_forall. intros d _. apply document_map_ok_classify, Hok. }
  destruct (loop_total (docs_status self) _ (DocumentChecker.mk_audit [] [] []) HF)
    as [acc Hacc].
  destruct (DocumentChecker._run loan_id loan_type (docs_status self)) as [report|e] eqn:Hr;
    [|unfold DocumentChecker._run in Hr; rewrite Hacc in Hr; discriminate Hr].
  exists report. split; [reflexivity|]. intros d Hd.
  destruct (run_lists _ _ _ _ Hr) as (_ & Hm & He & Hp & _).
  assert (HL : forall b,
            In d (filter (DocumentChecker.in_bucket (docs_status self) b)
                    (DocumentChecker.required loan_type)) <->
            DocumentChecker.classify (docs_status self) d = Ok b).
  { intros b. rewrite filter_In, in_bucket_true. tauto. }
  rewrite Hm, He, Hp, !HL, classify_missing, classify_expired, classify_pending.
  rewrite !docs_status_has_status by exact Hu.
  rewrite docs_status_lookup by exact Hu.
  assert (Htag : forall doc s, document_status_value (status doc) = document_status_value s
                               <-> status doc = s).
  { intros doc s. split; [|intros ->; reflexivity].
    destruct (status doc), s; try discriminate; reflexivity. }
  assert (Hex : forall s,
            (exists doc, lookup (documents self) d = Some doc /\
                         document_status_value (status doc) = document_status_value s) <->
            (exists doc, lookup (documents self) d = Some doc /\ status doc = s)).
  { intros s. split; intros (doc & H1 & H2); exists doc; (split; [exact H1|]);
      apply (Htag doc s); exact H2. }
  change "pending" with (document_status_value PENDING).
  change "expired" with (document_status_value EXPIRED).
  change "received" with (document_status_value RECEIVED).
  rewrite !Hex.
  split; [|split; [tauto|split; [tauto|]]].
  - destruct (lookup (documents self) d); split; intros [H|H]; auto; discriminate.
  - rewrite missing_docs_spec. split.
    + intros (doc & Hin & Hs). apply (In_lookup _ _ _ Hu) in Hin.
      split; [congruence|]. destruct Hs as [Hs|Hs]; [left; right|right]; eauto.
    + intros (Hsome & [[Hnone|(doc & Hl & Hs)]|(doc & Hl & Hs)]).
      * destruct (lookup (documents self) d); [discriminate Hnone|contradiction].
      * exists doc. split; [apply lookup_In; exact Hl|auto].
      * exists doc. split; [apply lookup_In; exact Hl|auto].
Qed.

Lemma from_json_to_dict r :
  unique_keys (documents r) -> unique_keys (compliance_checks r) ->
  from_json (to_dict r) = Ok (reloaded r).
Proof.
  intros Hd Hc.
  unfold from_json, to_dict, get_method_default, get_default, items, iterate,
    getitem, get, get_default.
  cbn [lookup String.eqb Ascii.eqb Bool.eqb bind].
  rewrite parse_documents_to_dict by (auto; intros; reflexivity).
  cbn [bind].
  rewrite parse_checks_to_dict by (auto; intros; reflexivity).
  cbn [bind].
  rewrite parse_exceptions_to_dict. cbn [bind].
  rewrite funding_status_of_value. reflexivity.
Qed.

(** X26. Saving a record with [to_dict] and loading it again reopens its
    exceptions: the written dictionary has no resolution date, so after
    the reload every exception counts as active, resolved or not, while
    the documents to request are the same as before. *)
Theorem reload_reopens_resolved_exceptions :
  forall r : LoanFile,
    unique_keys (documents r) -> unique_keys (compliance_checks r) ->
    exists r',
      from_json (to_dict r) = Ok r' /\
      active_exceptions r' = exceptions r' /\
      List.length (active_exceptions r') = List.length (exceptions r) /\
      missing_docs r' = missing_docs r.
Proof.
  intros r Hd Hc. exists (reloaded r). split; [apply from_json_to_dict; assumption|].
  assert (Ha : active_exceptions (reloaded r) = exceptions (reloaded r)).
  { clear Hd Hc. unfold active_exceptions, reloaded. cbn [exceptions].
    induction (exceptions r) as [|e l IH]; cbn [map filter]; [reflexivity|].
    cbn [reloaded_exception resolved_date truthy negb]. rewrite IH. reflexivity. }
  split; [exact Ha|]. split.
  - rewrite Ha. unfold reloaded. cbn [exceptions]. apply length_map.
  - unfold missing_docs, reloaded. cbn [documents]. clear Hd Hc Ha.
    induction (documents r) as [|[k v] l IH]; cbn [map filter fst snd]; [reflexivity|].
    cbn [reloaded_document status].
    destruct (in_strs (document_status_value (status v)) ["pending"; "expired"]);
      cbn [map fst]; rewrite IH; reflexivity.
Qed.

End CrewBriefing.

Section CrewBriefingSamples.
Import LoanFile Float CommunicationDrafter Crew Samples.
Local Open Scope string_scope.


Lemma sample_file_keys :
  unique_keys (documents sample_file) /\ unique_keys (compliance_checks sample_file).
Proof. split; repeat constructor; cbn; intuition discriminate. Qed.

Lemma reload_reopens_resolved_exceptions_witness :
  active_exceptions sample_file = [] /\
  exists r',
    from_json (to_dict sample_file) = Ok r' /\
    List.length (active_exceptions r') = 1%nat.
Proof.
  split; [reflexivity|].
  destruct (reload_reopens_resolved_exceptions sample_file
              (proj1 sample_file_keys) (proj2 sample_file_keys))
    as (r' & Hr & _ & Hn & _).
  exists r'. split; [exact Hr|exact Hn].
Defined.

Lemma crew_document_table_is_auditable_witness :
  exists report,
    DocumentChecker._run "LN-8" "mortgage" (docs_status sample_file) = Ok report /\
    In "tax_returns" (DocumentChecker.missing_documents report) /\
    In "tax_returns" (missing_docs sample_file) /\
    In "bank_statements" (DocumentChecker.missing_documents report) /\
    ~ In "bank_statements" (missing_docs sample_file).
Proof.
  destruct (crew_document_table_is_auditable sample_file "LN-8" "mortgage"
              (proj1 sample_file_keys)) as (report & Hr & H).
  exists report. split; [exact Hr|].
  destruct (H "tax_returns" ltac:(cbn; tauto)) as (Ht & _ & _ & _).
  destruct (H "bank_statements" ltac:(cbn; tauto)) as (Hb & _ & _ & Hn).
  split; [apply Ht; right; eexists; split; reflexivity|].
  split; [left; reflexivity|].
  split; [apply Hb; left; reflexivity|].
  intros Hin. apply Hn in Hin. destruct Hin as [Hl _]. apply Hl. reflexivity.
Defined.

Lemma loan_context_needs_a_numeric_amount_witness :
  let self :=
    mk_LoanFile (JStr "LN-9") (JStr "Ada") (JStr "ada@example.com") (JStr "")
      (JStr "auto") (JStr "18,500") (JInt 7) (JInt 60) (JStr "2024-03-01")
      (JArr []) (JStr "") APPROVED JNull JNull [] [] [] (JArr []) JNull JNull JNull in
  _get_loan_context (fun _ => "") (fun _ => "{}") self = Raise ValueError /\
  exists s, _get_loan_context (fun _ => "") (fun _ => "{}") sample_file = Ok s.
Proof.
  intros self. split.
  - apply (proj1 (proj2 (loan_context_needs_a_numeric_amount
                           (fun _ => "") (fun _ => "{}") self)) "18,500").
    reflexivity.
  - apply (proj1 (loan_context_needs_a_numeric_amount
                    (fun _ => "") (fun _ => "{}") sample_file)).
    split; reflexivity.
Defined.

Lemma communication_needs_end_with_status_update_witness :
  _get_communication_needs sample_file =
    "Document request needed for: tax_returns" ++ nl
    ++ "General status update on loan progress" /\
  _get_communication_needs sample_file <> "Standard status update only".
Proof.
  split; [reflexivity|].
  exact (proj1 (proj2 (communication_needs_end_with_status_update sample_file))).
Defined.

End CrewBriefingSamples.

(** ** The language model of the agents *)

Section ModelChoice.
Import Agents.
Local Open Scope string_scope.

Lemma set_same {A} (d : list (string * A)) k v : lookup d k = Some v -> set d k v = d.
Proof.
  induction d as [|[k' v'] d IH]; cbn [lookup set]; [discriminate|].
  destruct (String.eqb k' k); [intros [= ->]; reflexivity|].
  intros H. rewrite IH by exact H. reflexivity.
Qed.

Lemma getenv_nonempty env name v :
  getenv env name "" = v -> nonempty v = true -> lookup env name = Some v.
Proof.
  unfold getenv. destruct (lookup env name); intros <-; [reflexivity|discriminate].
Qed.

(** X27. Which model the agents get, for the settings read from the
    environment: the Anthropic model when the provider is "anthropic" and
    its key is set; otherwise the OpenAI model when the OpenAI key is
    set, also for the provider "anthropic" without its key; otherwise
    [ValueError].  An Anthropic key alone is therefore not enough: with
    the provider left at its default the call fails.  The key that the
    call writes back to the environment is the one read from it, so the
    environment is unchanged. *)
Theorem llm_choice_follows_provider_and_keys :
  forall env : environ,
    let s := load_settings env in
    (get_llm s env = Raise ValueError <->
       OPENAI_API_KEY s = "" /\
       (DEFAULT_LLM_PROVIDER s <> "anthropic" \/ ANTHROPIC_API_KEY s = "")) /\
    (forall env' llm, get_llm s env = Ok (env', llm) ->
       env' = env /\
       ((DEFAULT_LLM_PROVIDER s = "anthropic" /\ ANTHROPIC_API_KEY s <> "" /\
         model llm = "anthropic/" ++ ANTHROPIC_MODEL s) \/
        ((DEFAULT_LLM_PROVIDER s <> "anthropic" \/ ANTHROPIC_API_KEY s = "") /\
         OPENAI_API_KEY s <> "" /\ model llm = "openai/" ++ OPENAI_MODEL s))) /\
    (lookup env "DEFAULT_LLM_PROVIDER" = None -> lookup env "OPENAI_API_KEY" = None ->
     get_llm s env = Raise ValueError).
Proof.
  intros env s.
  assert (Hne : forall k, nonempty k = true <-> k <> "").
  { intros k. unfold nonempty. rewrite negb_true_iff. apply String.eqb_neq. }
  assert (Hcases :
    (String.eqb (DEFAULT_LLM_PROVIDER s) "anthropic" && nonempty (ANTHROPIC_API_KEY s) = true
     <-> DEFAULT_LLM_PROVIDER s = "anthropic" /\ ANTHROPIC_API_KEY s <> "")).
  { rewrite andb_true_iff, String.eqb_eq, Hne. tauto. }
  split; [|split].
  - unfold get_llm.
    destruct (String.eqb (DEFAULT_LLM_PROVIDER s) "anthropic"
              && nonempty (ANTHROPIC_API_KEY s)) eqn:E1.
    + pose proof (proj1 Hcases eq_refl) as P1.
      split; [discriminate|]. intros [_ [H|H]]; tauto.
    + assert (N1 : ~ (DEFAULT_LLM_PROVIDER s = "anthropic" /\ ANTHROPIC_API_KEY s <> ""))
        by (intros HP; apply Hcases in HP; discriminate).
      destruct (nonempty (OPENAI_API_KEY s)) eqn:E2.
      * apply Hne in E2. split; [discriminate|]. tauto.
      * split; [intros _|reflexivity].
        assert (E2' : OPENAI_API_KEY s = "")
          by (unfold nonempty in E2; apply negb_false_iff, String.eqb_eq in E2; exact E2).
        split; [exact E2'|].
        destruct (string_dec (ANTHROPIC_API_KEY s) ""); [auto|left; tauto].
  - intros env' llm. unfold get_llm.
    destruct (String.eqb (DEFAULT_LLM_PROVIDER s) "anthropic"
              && nonempty (ANTHROPIC_API_KEY s)) eqn:E1.
    + intros [= <- <-]. pose proof (proj1 Hcases eq_refl) as P1.
      apply andb_true_iff in E1. destruct E1 as [_ E1].
      split; [|left; cbn [model]; tauto].
      apply set_same. apply (getenv_nonempty env _ _ eq_refl E1).
    + assert (N1 : ~ (DEFAULT_LLM_PROVIDER s = "anthropic" /\ ANTHROPIC_API_KEY s <> ""))
        by (intros HP; apply Hcases in HP; discriminate).
      destruct (nonempty (OPENAI_API_KEY s)) eqn:E2; [|discriminate].
      intros [= <- <-]. split.
      * apply set_same. apply (getenv_nonempty env _ _ eq_refl E2).
      * right. cbn [model]. apply Hne in E2.
        split; [|tauto].
        destruct (string_dec (ANTHROPIC_API_KEY s) ""); [auto|left; tauto].
  - intros Hp Ho. unfold get_llm. subst s. unfold load_settings, getenv.
    cbn [DEFAULT_LLM_PROVIDER OPENAI_API_KEY ANTHROPIC_API_KEY]. rewrite Hp, Ho. reflexivity.
Qed.

Lemma llm_choice_follows_provider_and_keys_witness :
  get_llm (load_settings [("ANTHROPIC_API_KEY", "sk-ant-test")])
          [("ANTHROPIC_API_KEY", "sk-ant-test")] = Raise ValueError /\
  exists llm,
    get_llm (load_settings [("DEFAULT_LLM_PROVIDER", "anthropic");
                            ("OPENAI_API_KEY", "sk-test")])
            [("DEFAULT_LLM_PROVIDER", "anthropic"); ("OPENAI_API_KEY", "sk-test")]
      = Ok ([("DEFAULT_LLM_PROVIDER", "anthropic"); ("OPENAI_API_KEY", "sk-test")], llm) /\
    model llm = "openai/gpt-4o-mini".
Proof.
  split.
  - apply (proj2 (proj2 (llm_choice_follows_provider_and_keys
                           [("ANTHROPIC_API_KEY", "sk-ant-test")]))); reflexivity.
  - eexists. split; [reflexivity|]. reflexivity.
Defined.

End ModelChoice.
